(** * bert_multitask_learning/params.py: the [BaseParams] configuration object

    A shallow embedding of [BaseParams] and of its methods: [add_problem],
    [add_multiple_problems], [get_problem_type], [parse_problem_string],
    [prepare_dir], [get_data_info], [get_problem_chunk],
    [set_data_sampling_strategy], [assign_problem], [update_train_steps],
    [to_json] and [from_json].

    Conventions.
    - A Python [str] is a [string] holding its UTF-8 bytes.  Splitting on
      the ASCII characters '|' and '&', joining with '_' and comparing in
      code-point order all commute with the UTF-8 encoding.
    - A Python [int] is a [Z].  A Python [float] is an exact rational
      ([Qc]): rounding of IEEE doubles is not modelled.  [Qc_of_Z] is the
      conversion of an int to a float.
    - A method is a state transformer [M S A := S -> (exn + A) * S]: a
      raised exception keeps the mutations done before it, as in Python.
    - Attributes that [__init__] does not create are optional; reading one
      that is absent raises [AttributeError]. *)

From Stdlib Require Import ZArith QArith Qcanon Qround Ascii String DecimalString.
From stdpp Require Import gmap strings list sorting.

Local Open Scope string_scope.
Local Open Scope list_scope.

(** ** Exceptions and the method monad *)

Inductive exn : Type :=
| KeyError (key : string)
| AttributeError (name : string)
| ValueError
| TypeError
| NotImplementedError
| ZeroDivisionError
| UnboundLocalError (name : string)
| OSError (tag : string).

Definition outcome (A : Type) : Type := (exn + A)%type.

Definition M (S A : Type) : Type := S -> outcome A * S.

#[global] Instance M_ret {S} : MRet (M S) :=
  fun A (a : A) s => (inr a, s).

#[global] Instance M_bind {S} : MBind (M S) :=
  fun A B (k : A -> M S B) (m : M S A) s =>
    match m s with
    | (inr a, s') => k a s'
    | (inl e, s') => (inl e, s')
    end.

Definition raise {S A} (e : exn) : M S A := fun s => (inl e, s).

Definition gets {S A} (f : S -> A) : M S A := fun s => (inr (f s), s).

Definition modify {S} (f : S -> S) : M S unit := fun s => (inr tt, f s).

(** An [outcome] computed without touching the state. *)
Definition liftE {S A} (r : outcome A) : M S A := fun s => (r, s).

(** [for x in l: body x], threading the loop's local variables [acc]. *)
Fixpoint for_each {S A B} (l : list A) (body : A -> B -> M S B) (acc : B) : M S B :=
  match l with
  | [] => mret acc
  | x :: l' => acc' ← body x acc; for_each l' body acc'
  end.

(** [try: m except: pass]: every exception of [m] is swallowed. *)
Definition try_pass {S} (m : M S unit) : M S unit :=
  fun s => (inr tt, snd (m s)).

(** ** Strings: [str.split], [re.split] on a character class, [in], [join], [sorted] *)

(** Splitting at every character that satisfies [sep].  The result always
    has at least one field; the empty string gives one empty field. *)
Fixpoint split_on (sep : ascii -> bool) (s : string) : list string :=
  match s with
  | EmptyString => [EmptyString]
  | String c s' =>
      if sep c then EmptyString :: split_on sep s'
      else match split_on sep s' with
           | [] => [String c EmptyString]
           | w :: ws => String c w :: ws
           end
  end.

(** [s.split(c)] for a one-character separator [c]. *)
Definition str_split (c : ascii) (s : string) : list string :=
  split_on (Ascii.eqb c) s.

(** [re.split(r'[&|]', s)]: the class matches one character, never the
    empty string, so the fields are those of [split_on]. *)
Definition re_split_amp_bar (s : string) : list string :=
  split_on (fun c => Ascii.eqb "&" c || Ascii.eqb "|" c) s.

(** [c in s] for a one-character string [c]. *)
Fixpoint str_contains (c : ascii) (s : string) : bool :=
  match s with
  | EmptyString => false
  | String c' s' => Ascii.eqb c c' || str_contains c s'
  end.

(** ['_'.join(l)]. *)
Definition str_join (sep : string) (l : list string) : string :=
  String.concat sep l.

(** [sorted(l)] on strings: a stable merge sort for the order of
    [String.leb], which compares byte by byte. *)
Definition sorted (l : list string) : list string :=
  merge_sort String.le l.

(** [os.path.join(a, b)] of posixpath: an absolute [b] replaces [a];
    otherwise [b] is appended, after a '/' unless [a] is empty or ends in one. *)
Definition startswith_sep (s : string) : bool :=
  match s with
  | String c _ => Ascii.eqb c "/"
  | EmptyString => false
  end.

Fixpoint endswith_sep (s : string) : bool :=
  match s with
  | EmptyString => false
  | String c EmptyString => Ascii.eqb c "/"
  | String _ s' => endswith_sep s'
  end.

Definition os_path_join (a b : string) : string :=
  if startswith_sep b then b
  else if String.eqb a "" || endswith_sep a then a +:+ b
  else a +:+ "/" +:+ b.

(** ** Numbers: true division, [int()], [sum] *)

(** [a / b] on floats (and on ints, which Python converts first). *)
Definition py_truediv (a b : Qc) : outcome Qc :=
  if decide (b = 0%Qc) then inl ZeroDivisionError else inr (a / b)%Qc.

(** [int(x)] truncates towards zero. *)
Definition py_int (x : Qc) : Z := Z.quot (Qnum x) (Zpos (Qden x)).


(** [sum(d.values())] for a dict of floats. *)
Definition sum_values (d : gmap string Qc) : Qc :=
  map_fold (fun _ v acc => (acc + v)%Qc) 0%Qc d.

(** [d[k] += x] on a [defaultdict(float)]: a missing key reads as 0.0. *)
Definition defaultdict_add (k : string) (x : Qc) (d : gmap string Qc) : gmap string Qc :=
  <[k := (default 0%Qc (d !! k) + x)%Qc]> d.

(** [{k: v / total for k, v in d.items()}]: one division per item, so an
    empty dict divides nothing. *)
Definition div_values (d : gmap string Qc) (total : Qc) : outcome (gmap string Qc) :=
  map_fold (fun k v acc =>
              match acc with
              | inl e => inl e
              | inr m => match py_truediv v total with
                         | inl e => inl e
                         | inr q => inr (<[k := q]> m)
                         end
              end) (inr ∅) d.

(** ** The attributes of a [BaseParams] object *)

Module attr.

Inductive t : Set :=
(* created by __init__ *)
| run_problem_list | problem_type
| transformer_tokenizer_name | transformer_config_name
| transformer_config_loading | transformer_tokenizer_loading
| transformer_decoder_model_name | transformer_decoder_config_name
| transformer_decoder_tokenizer_name
| transformer_decoder_config_loading | transformer_decoder_tokenizer_loading
| init_checkpoint | init_lr | batch_size | train_epoch | dupe_factor
| train_problem | read_data_fn | problem_assigned
(* created by the methods *)
| assigned_details | predicting | problem_list | problem_chunk | problem_str
| ckpt_dir | params_path
| bert_config | bert_decoder_config | bert_config_dict | bert_decoder_config_dict
| init_weight_from_huggingface | vocab_size | decoder_vocab_size | bos_id | eos_id
| data_num_dict | num_classes | data_num
| problem_sampling_weight_dict
| shuffle_buffer | train_steps | train_steps_per_epoch | num_warmup_steps | lr.

Definition eq_dec (a b : t) : {a = b} + {a <> b}.
Proof. decide equality. Defined.

End attr.

(** The objects of the libraries the file calls into: the file system and
    the model hub ([World]), transformers' configs and tokenizers, and the
    preprocessing functions a user registers. *)
Class ExternalTypes := {
  World : Type;
  Config : Type;
  ConfigDict : Type;
  Tokenizer : Type;
  Callable : Type
}.

Section Object.
Context `{ExternalTypes}.

(** The arguments of [assign_problem], kept in [assigned_details]:
    (flag_string, gpu, base_dir, dir_name, predicting). *)
Definition AssignedDetails : Type :=
  (string * Z * option string * option string * bool)%type.

Definition attr_ty (a : attr.t) : Type :=
  match a with
  | attr.run_problem_list => list (gmap string string)
  | attr.problem_type => gmap string string
  | attr.transformer_tokenizer_name => string
  | attr.transformer_config_name => string
  | attr.transformer_config_loading => string
  | attr.transformer_tokenizer_loading => string
  | attr.transformer_decoder_model_name => option string
  | attr.transformer_decoder_config_name => option string
  | attr.transformer_decoder_tokenizer_name => option string
  | attr.transformer_decoder_config_loading => string
  | attr.transformer_decoder_tokenizer_loading => string
  | attr.init_checkpoint => string
  | attr.init_lr => Qc
  | attr.batch_size => Z
  | attr.train_epoch => Z
  | attr.dupe_factor => Z
  | attr.train_problem => option (list (gmap string string))
  | attr.read_data_fn => gmap string (option Callable)
  | attr.problem_assigned => bool
  | attr.assigned_details => option AssignedDetails
  | attr.predicting => option bool
  | attr.problem_list => option (list string)
  | attr.problem_chunk => option (list (list string))
  | attr.problem_str => option string
  | attr.ckpt_dir => option string
  | attr.params_path => option string
  | attr.bert_config => option Config
  | attr.bert_decoder_config => option Config
  | attr.bert_config_dict => option ConfigDict
  | attr.bert_decoder_config_dict => option ConfigDict
  | attr.init_weight_from_huggingface => option bool
  | attr.vocab_size => option Z
  | attr.decoder_vocab_size => option Z
  | attr.bos_id => option (option Z)
  | attr.eos_id => option (option Z)
  | attr.data_num_dict => option (gmap string Z)
  | attr.num_classes => option (gmap string Z)
  | attr.data_num => option Z
  | attr.problem_sampling_weight_dict => option (gmap string Qc)
  | attr.shuffle_buffer => option Z
  | attr.train_steps => option Z
  | attr.train_steps_per_epoch => option Z
  | attr.num_warmup_steps => option Z
  | attr.lr => option Qc
  end.

(** The object: one value per attribute, of the attribute's type. *)
Definition BaseParams : Type := forall a : attr.t, attr_ty a.

(** [self.a = v] *)
Definition setattr (a : attr.t) (v : attr_ty a) (self : BaseParams) : BaseParams :=
  fun b =>
    match attr.eq_dec a b with
    | left e => eq_rect a attr_ty v b e
    | right _ => self b
    end.

(** [BaseParams.__init__], for the attributes modelled here. *)
Definition init : BaseParams :=
  fun a =>
    match a with
    | attr.run_problem_list => []
    | attr.problem_type => ∅
    | attr.transformer_tokenizer_name => "bert-base-chinese"
    | attr.transformer_config_name => "bert-base-chinese"
    | attr.transformer_config_loading => "AutoConfig"
    | attr.transformer_tokenizer_loading => "AutoTokenizer"
    | attr.transformer_decoder_model_name => None
    | attr.transformer_decoder_config_name => None
    | attr.transformer_decoder_tokenizer_name => None
    | attr.transformer_decoder_config_loading => "AutoConfig"
    | attr.transformer_decoder_tokenizer_loading => "AutoTokenizer"
    | attr.init_checkpoint => ""
    | attr.init_lr => Q2Qc (2 # 100000)
    | attr.batch_size => 32%Z
    | attr.train_epoch => 15%Z
    | attr.dupe_factor => 10%Z
    | attr.train_problem => None
    | attr.read_data_fn => ∅
    | attr.problem_assigned => false
    | attr.assigned_details => None
    | attr.predicting => None
    | attr.problem_list => None
    | attr.problem_chunk => None
    | attr.problem_str => None
    | attr.ckpt_dir => None
    | attr.params_path => None
    | attr.bert_config => None
    | attr.bert_decoder_config => None
    | attr.bert_config_dict => None
    | attr.bert_decoder_config_dict => None
    | attr.init_weight_from_huggingface => None
    | attr.vocab_size => None
    | attr.decoder_vocab_size => None
    | attr.bos_id => None
    | attr.eos_id => None
    | attr.data_num_dict => None
    | attr.num_classes => None
    | attr.data_num => None
    | attr.problem_sampling_weight_dict => None
    | attr.shuffle_buffer => None
    | attr.train_steps => None
    | attr.train_steps_per_epoch => None
    | attr.num_warmup_steps => None
    | attr.lr => None
    end.

(** Reading [self.a], and writing it, inside a method. *)
Definition read (a : attr.t) : M BaseParams (attr_ty a) :=
  gets (fun self => self a).

Definition write (a : attr.t) (v : attr_ty a) : M BaseParams unit :=
  modify (setattr a v).

(** An attribute created outside [__init__] must exist when it is read. *)
Definition require {S A} (name : string) (o : option A) : M S A :=
  match o with
  | Some x => mret x
  | None => raise (AttributeError name)
  end.

(** [d[k]] on a dict. *)
Definition getitem {S A} (d : gmap string A) (k : string) : M S A :=
  match d !! k with
  | Some x => mret x
  | None => raise (KeyError k)
  end.

End Object.

(** ** The methods that touch only the object *)

Section Methods.
Context `{ExternalTypes}.

(** [x in l] on a list of strings. *)
Definition str_in (x : string) (l : list string) : bool :=
  existsb (String.eqb x) l.

Definition problem_kinds : list string :=
  ["cls"; "seq_tag"; "seq2seq_tag"; "seq2seq_text"; "multi_cls"; "pretrain"].

(** [add_problem(problem_name, problem_type, processing_fn)] *)
Definition add_problem (problem_name problem_type : string)
    (processing_fn : option Callable) : M BaseParams unit :=
  if negb (str_in problem_type problem_kinds) then raise ValueError
  else
    registry ← read attr.problem_type;
    write attr.problem_type (<[problem_name := problem_type]> registry);;
    fns ← read attr.read_data_fn;
    write attr.read_data_fn (<[problem_name := processing_fn]> fns).

(** Truth value of an optional dict: [None] and the empty dict are false. *)
Definition truthy_dict {A} (d : option (gmap string A)) : bool :=
  match d with
  | Some d => negb (bool_decide (d = ∅))
  | None => false
  end.

(** The body of the loop of [add_multiple_problems]: the function of the
    new problem is looked up before the problem is added. *)
Definition add_new_problem (processing_fn_dict : option (gmap string (option Callable)))
    (item : string * string) (_ : unit) : M BaseParams unit :=
  let '(new_problem, problem_type) := item in
  new_problem_processing_fn ←
    (if truthy_dict processing_fn_dict
     then getitem (default ∅ processing_fn_dict) new_problem
     else mret None);
  add_problem new_problem problem_type new_problem_processing_fn.

(** [add_multiple_problems(problem_type_dict, processing_fn_dict)].  The
    first dict is the list of its items in insertion order, the order the
    loop visits them in; printing is left out. *)
Definition add_multiple_problems (problem_type_dict : list (string * string))
    (processing_fn_dict : option (gmap string (option Callable))) : M BaseParams unit :=
  for_each problem_type_dict (add_new_problem processing_fn_dict) tt.

(** [get_problem_type(problem)] *)
Definition get_problem_type (problem : string) : M BaseParams string :=
  registry ← read attr.problem_type;
  getitem registry problem.

(** [l[-1].append(x)] *)
Fixpoint append_to_last (x : string) (l : list (list string)) : list (list string) :=
  match l with
  | [] => []
  | [c] => [c ++ [x]]
  | c :: l' => c :: append_to_last x l'
  end.

(** [self.run_problem_list.append(d)] *)
Definition run_problem_list_append (d : gmap string string) : M BaseParams unit :=
  l ← read attr.run_problem_list;
  write attr.run_problem_list (l ++ [d]).

(** The body of the loop over [flag_chunk.split('&')]: the locals
    [problem_type] and [problem_chunk] are the loop's state. *)
Definition parse_problem (problem : string)
    (locals : gmap string string * list (list string))
    : M BaseParams (gmap string string * list (list string)) :=
  let '(problem_type, problem_chunk) := locals in
  registry ← read attr.problem_type;
  ty ← getitem registry problem;
  mret (<[problem := ty]> problem_type, append_to_last problem problem_chunk).

(** The body of the loop over [flag_string.split('|')]. *)
Definition parse_flag_chunk (flag_chunk : string) (problem_chunk : list (list string))
    : M BaseParams (list (list string)) :=
  if negb (str_contains "&" flag_chunk) then
    registry ← read attr.problem_type;
    ty ← getitem registry flag_chunk;
    run_problem_list_append (<[flag_chunk := ty]> ∅);;
    mret (problem_chunk ++ [[flag_chunk]])
  else
    '(problem_type, problem_chunk) ←
      for_each (str_split "&" flag_chunk) parse_problem (∅, problem_chunk ++ [[]]);
    run_problem_list_append problem_type;;
    mret problem_chunk.

(** [parse_problem_string(flag_string)] *)
Definition parse_problem_string (flag_string : string)
    : M BaseParams (list string * list (list string)) :=
  write attr.problem_str (Some flag_string);;
  write attr.run_problem_list [];;
  problem_chunk ← for_each (str_split "|" flag_string) parse_flag_chunk [];
  train_problem ← read attr.train_problem;
  match train_problem with
  | None =>
      l ← read attr.run_problem_list;
      write attr.train_problem (Some l)
  | Some _ => mret tt
  end;;
  mret (sorted (re_split_amp_bar flag_string), problem_chunk).

(** [res_list.append('_'.join(sorted(problem_list)))] *)
Definition chunk_key (problem_list : list string) (res_list : list string)
    : M BaseParams (list string) :=
  mret (res_list ++ [str_join "_" (sorted problem_list)]).

(** [get_problem_chunk(as_str)]: the chunks, or one joined key per chunk. *)
Definition get_problem_chunk (as_str : bool)
    : M BaseParams (if as_str then list string else list (list string)) :=
  match as_str
        return M BaseParams (if as_str then list string else list (list string))
  with
  | true =>
      problem_chunk ← read attr.problem_chunk ≫= require "problem_chunk";
      for_each problem_chunk chunk_key []
  | false => read attr.problem_chunk ≫= require "problem_chunk"
  end.

(** Truth value of an optional function: [None] is false, a function
    object is true. *)
Definition truthy_fn (f : option Callable) : bool :=
  match f with
  | Some _ => true
  | None => false
  end.

(** [problem_chunk_data_num[str_per_chunk] += self.data_num_dict[problem]] *)
Definition count_problem (str_per_chunk problem : string) (acc : gmap string Qc)
    : M BaseParams (gmap string Qc) :=
  data_num_dict ← read attr.data_num_dict ≫= require "data_num_dict";
  n ← getitem data_num_dict problem;
  mret (defaultdict_add str_per_chunk (Qc_of_Z n) acc).

(** The body of the 'data_balanced' loop over the chunks. *)
Definition count_chunk (problem_list : list string) (acc : gmap string Qc)
    : M BaseParams (gmap string Qc) :=
  let str_per_chunk := str_join "_" (sorted problem_list) in
  for_each problem_list (count_problem str_per_chunk) acc.

(** [problem_chunk_data_num[str_per_chunk] = 1] *)
Definition count_one (str_per_chunk : string) (acc : gmap string Qc)
    : M BaseParams (gmap string Qc) :=
  mret (<[str_per_chunk := 1%Qc]> acc).

(** The first half of [set_data_sampling_strategy]: the local
    [problem_chunk_data_num] after the branch on the strategy. *)
Definition problem_chunk_data_num (sampling_strategy : string)
    : M BaseParams (gmap string Qc) :=
  if String.eqb sampling_strategy "data_balanced" then
    problem_chunk ← get_problem_chunk false;
    for_each problem_chunk count_chunk ∅
  else if String.eqb sampling_strategy "problem_balanced" then
    problem_chunk ← get_problem_chunk true;
    for_each problem_chunk count_one ∅
  else raise ValueError.

(** [set_data_sampling_strategy(sampling_strategy, sampling_strategy_fn)] *)
Definition set_data_sampling_strategy (sampling_strategy : string)
    (sampling_strategy_fn : option Callable) : M BaseParams (gmap string Qc) :=
  if truthy_fn sampling_strategy_fn then raise NotImplementedError
  else
    counts ← problem_chunk_data_num sampling_strategy;
    let sum_across_problems := sum_values counts in
    weights ← liftE (div_values counts sum_across_problems);
    write attr.problem_sampling_weight_dict (Some weights);;
    mret weights.

End Methods.

(** ** The calls into other libraries

    [utils.create_path], [utils.load_transformer_config],
    [utils.load_transformer_tokenizer], the constants of [special_tokens],
    [os], [shutil], [json] on data_info.json, the methods of transformers'
    configs and tokenizers, and the registered preprocessing functions.
    Each may raise and may change the world; a preprocessing function is
    called with the params object and may change it too. *)
Class External `{ExternalTypes} := {
  create_path : string -> M World unit;
  os_path_exists : string -> World -> bool;
  shutil_copy2 : string -> string -> M World unit;
  os_rename : string -> string -> M World unit;
  load_transformer_config : option string -> option string -> M World Config;
  config_to_dict : Config -> ConfigDict;
  config_save_pretrained : Config -> string -> M World unit;
  load_transformer_tokenizer : option string -> string -> M World Tokenizer;
  tokenizer_save_pretrained : Tokenizer -> string -> M World unit;
  tokenizer_vocab_size : Tokenizer -> Z;
  tokenizer_bos_token : Tokenizer -> option string;
  tokenizer_eos_token : Tokenizer -> option string;
  tokenizer_bos_token_id : Tokenizer -> option Z;
  tokenizer_eos_token_id : Tokenizer -> option Z;
  tokenizer_add_special_tokens : string -> string -> Tokenizer -> outcome Tokenizer;
  BOS_TOKEN : string;
  EOS_TOKEN : string;
  json_load_data_info : string -> M World (gmap string Z * gmap string Z);
  json_dump_data_info : string -> gmap string Z -> gmap string Z -> M World unit;
  call_read_data_fn : Callable -> string -> M (BaseParams * World) (Z * Z)
}.

Section WorldMethods.
Context `{External}.

(** A method of the object, run where the world is in scope too. *)
Definition liftP {A} (m : M BaseParams A) : M (BaseParams * World) A :=
  fun '(self, w) => let '(r, self') := m self in (r, (self', w)).

(** A library call: it sees the world only. *)
Definition io {A} (m : M World A) : M (BaseParams * World) A :=
  fun '(self, w) => let '(r, w') := m w in (r, (self, w')).

Definition get_self (a : attr.t) : M (BaseParams * World) (attr_ty a) :=
  liftP (read a).

Definition set_self (a : attr.t) (v : attr_ty a) : M (BaseParams * World) unit :=
  liftP (write a v).

Definition path_exists (path : string) : M (BaseParams * World) bool :=
  gets (fun '(_, w) => os_path_exists path w).

(** Truth value of an optional string: [None] and [''] are false. *)
Definition truthy_opt_str (s : option string) : bool :=
  match s with
  | None => false
  | Some s => negb (String.eqb s "")
  end.

(** [x if old is not None else None] *)
Definition if_not_None {A B} (old : option A) (x : B) : option B :=
  match old with
  | Some _ => Some x
  | None => None
  end.

(** [prepare_dir(base_dir, dir_name, problem_list)] *)
Definition prepare_dir (base_dir dir_name : option string) (problem_list : list string)
    : M (BaseParams * World) unit :=
  let base := match base_dir with Some b => b | None => "models" end in
  let dir_name :=
    match dir_name with
    | Some d => d
    | None => str_join "_" problem_list +:+ "_ckpt"
    end in
  set_self attr.ckpt_dir (Some (os_path_join base dir_name));;
  init_checkpoint ← get_self attr.init_checkpoint;
  ckpt_dir ← get_self attr.ckpt_dir ≫= require "ckpt_dir";
  let from_config_path := os_path_join init_checkpoint "bert_config" in
  let from_decoder_config_path := os_path_join init_checkpoint "bert_decoder_config" in
  let to_config_path := os_path_join ckpt_dir "bert_config" in
  let to_decoder_config_path := os_path_join ckpt_dir "bert_decoder_config" in
  let from_tokenizer_path := os_path_join init_checkpoint "tokenizer" in
  let to_tokenizer_path := os_path_join ckpt_dir "tokenizer" in
  let from_decoder_tokenizer_path := os_path_join init_checkpoint "decoder_tokenizer" in
  let to_decoder_tokenizer_path := os_path_join ckpt_dir "decoder_tokenizer" in
  set_self attr.params_path (Some (os_path_join ckpt_dir "params.json"));;
  predicting ← get_self attr.predicting ≫= require "predicting";
  (if negb predicting then
     io (create_path ckpt_dir);;
     found ← path_exists from_config_path;
     if (found : bool) then
       io (shutil_copy2 from_config_path to_config_path);;
       loading ← get_self attr.transformer_config_loading;
       config ← io (load_transformer_config (Some to_config_path) (Some loading));
       set_self attr.bert_config (Some config);;
       io (shutil_copy2 from_tokenizer_path to_tokenizer_path);;
       found ← path_exists from_decoder_config_path;
       (if (found : bool) then
          io (shutil_copy2 from_decoder_config_path to_decoder_config_path);;
          loading ← get_self attr.transformer_decoder_config_loading;
          config ← io (load_transformer_config (Some from_decoder_config_path) (Some loading));
          set_self attr.bert_decoder_config (Some config);;
          set_self attr.bert_decoder_config_dict (Some (config_to_dict config))
        else mret tt);;
       found ← path_exists from_decoder_tokenizer_path;
       (if (found : bool) then
          io (shutil_copy2 from_decoder_tokenizer_path to_decoder_tokenizer_path)
        else mret tt);;
       set_self attr.init_weight_from_huggingface (Some false)
     else
       set_self attr.init_weight_from_huggingface (Some true);;
       name ← get_self attr.transformer_config_name;
       loading ← get_self attr.transformer_config_loading;
       config ← io (load_transformer_config (Some name) (Some loading));
       set_self attr.bert_config (Some config);;
       io (config_save_pretrained config to_config_path);;
       name ← get_self attr.transformer_tokenizer_name;
       loading ← get_self attr.transformer_tokenizer_loading;
       tokenizer ← io (load_transformer_tokenizer (Some name) loading);
       io (tokenizer_save_pretrained tokenizer to_tokenizer_path);;
       try_pass (io (os_rename (os_path_join to_tokenizer_path "tokenizer_config.json")
                               (os_path_join to_tokenizer_path "config.json")));;
       decoder_model_name ← get_self attr.transformer_decoder_model_name;
       if truthy_opt_str decoder_model_name then
         name ← get_self attr.transformer_decoder_config_name;
         loading ← get_self attr.transformer_decoder_config_loading;
         config ← io (load_transformer_config name (Some loading));
         set_self attr.bert_decoder_config (Some config);;
         set_self attr.bert_decoder_config_dict (Some (config_to_dict config));;
         io (config_save_pretrained config to_decoder_config_path);;
         name ← get_self attr.transformer_decoder_tokenizer_name;
         loading ← get_self attr.transformer_decoder_tokenizer_loading;
         decoder_tokenizer ← io (load_transformer_tokenizer name loading);
         io (tokenizer_save_pretrained decoder_tokenizer to_decoder_tokenizer_path);;
         try_pass (io (os_rename
                         (os_path_join to_decoder_tokenizer_path "tokenizer_config.json")
                         (os_path_join to_decoder_tokenizer_path "config.json")))
       else mret tt
   else
     config ← io (load_transformer_config (Some to_config_path) None);
     set_self attr.bert_config (Some config);;
     found ← path_exists to_decoder_config_path;
     (if (found : bool) then
        config ← io (load_transformer_config (Some to_decoder_config_path) None);
        set_self attr.bert_decoder_config (Some config)
      else mret tt);;
     set_self attr.init_weight_from_huggingface (Some false));;
  set_self attr.transformer_config_name to_config_path;;
  old ← get_self attr.transformer_decoder_config_name;
  set_self attr.transformer_decoder_config_name (if_not_None old to_decoder_config_path);;
  set_self attr.transformer_tokenizer_name to_tokenizer_path;;
  old ← get_self attr.transformer_decoder_tokenizer_name;
  set_self attr.transformer_decoder_tokenizer_name
    (if_not_None old to_decoder_tokenizer_path);;
  config ← get_self attr.bert_config ≫= require "bert_config";
  set_self attr.bert_config_dict (Some (config_to_dict config));;
  name ← get_self attr.transformer_tokenizer_name;
  loading ← get_self attr.transformer_tokenizer_loading;
  tokenizer ← io (load_transformer_tokenizer (Some name) loading);
  set_self attr.vocab_size (Some (tokenizer_vocab_size tokenizer));;
  name ← get_self attr.transformer_decoder_tokenizer_name;
  if truthy_opt_str name then
    loading ← get_self attr.transformer_decoder_tokenizer_loading;
    decoder_tokenizer ← io (load_transformer_tokenizer name loading);
    decoder_tokenizer ←
      match tokenizer_bos_token decoder_tokenizer with
      | None => liftE (tokenizer_add_special_tokens "bos_token" BOS_TOKEN decoder_tokenizer)
      | Some _ => mret decoder_tokenizer
      end;
    decoder_tokenizer ←
      match tokenizer_eos_token decoder_tokenizer with
      | None => liftE (tokenizer_add_special_tokens "eos_token" EOS_TOKEN decoder_tokenizer)
      | Some _ => mret decoder_tokenizer
      end;
    io (tokenizer_save_pretrained decoder_tokenizer to_decoder_tokenizer_path);;
    set_self attr.decoder_vocab_size (Some (tokenizer_vocab_size decoder_tokenizer));;
    set_self attr.bos_id (Some (tokenizer_bos_token_id decoder_tokenizer));;
    set_self attr.eos_id (Some (tokenizer_eos_token_id decoder_tokenizer))
  else mret tt.

(** [get_data_info(problem_list, base)].  The result is [None] where the
    method returns what [json.dump] returned, and the path otherwise. *)
Definition get_data_info (problem_list : list string) (base : string)
    : M (BaseParams * World) (option string) :=
  let json_path := os_path_join base "data_info.json" in
  found ← path_exists json_path;
  returned ←
    (if (found : bool) then
       '(data_num, num_classes) ← io (json_load_data_info json_path);
       set_self attr.data_num_dict (Some data_num);;
       set_self attr.num_classes (Some num_classes);;
       mret false
     else
       predicting ← get_self attr.predicting ≫= require "predicting";
       if (predicting : bool) then
         data_num ← get_self attr.data_num_dict ≫= require "data_num_dict";
         num_classes ← get_self attr.num_classes ≫= require "num_classes";
         io (json_dump_data_info json_path data_num num_classes);;
         mret true
       else
         old ← get_self attr.data_num_dict;
         match old with
         | None => set_self attr.data_num_dict (Some ∅)
         | Some _ => mret tt
         end;;
         old ← get_self attr.num_classes;
         match old with
         | None => set_self attr.num_classes (Some ∅)
         | Some _ => mret tt
         end;;
         mret false);
  if (returned : bool) then mret None
  else
    predicting ← get_self attr.predicting ≫= require "predicting";
    (if negb predicting then
       set_self attr.data_num (Some 0%Z);;
       for_each problem_list
         (fun problem _ =>
            data_num_dict ← get_self attr.data_num_dict ≫= require "data_num_dict";
            match data_num_dict !! problem with
            | None =>
                fns ← get_self attr.read_data_fn;
                fn ← getitem fns problem;
                match fn with
                | None => raise TypeError
                | Some fn =>
                    '(n, c) ← call_read_data_fn fn "train";
                    data_num_dict ← get_self attr.data_num_dict ≫= require "data_num_dict";
                    set_self attr.data_num_dict (Some (<[problem := n]> data_num_dict));;
                    num_classes ← get_self attr.num_classes ≫= require "num_classes";
                    set_self attr.num_classes (Some (<[problem := c]> num_classes));;
                    data_num ← get_self attr.data_num ≫= require "data_num";
                    data_num_dict ← get_self attr.data_num_dict ≫= require "data_num_dict";
                    n ← getitem data_num_dict problem;
                    set_self attr.data_num (Some (data_num + n)%Z)
                end
            | Some _ =>
                data_num ← get_self attr.data_num ≫= require "data_num";
                data_num_dict ← get_self attr.data_num_dict ≫= require "data_num_dict";
                n ← getitem data_num_dict problem;
                set_self attr.data_num (Some (data_num + n)%Z)
            end)
         tt;;
       data_num ← get_self attr.data_num_dict ≫= require "data_num_dict";
       num_classes ← get_self attr.num_classes ≫= require "num_classes";
       io (json_dump_data_info json_path data_num num_classes)
     else mret tt);;
    mret (Some json_path).

(** The loop of [assign_problem] that picks [dup_fac]: it stops at the
    first pretraining problem.  [dup_fac] is the local's value so far,
    unbound before the first iteration. *)
Fixpoint dup_fac_loop (problem_list : list string) (dup_fac : option Z)
    : M BaseParams (option Z) :=
  match problem_list with
  | [] => mret dup_fac
  | problem :: rest =>
      registry ← read attr.problem_type;
      ty ← getitem registry problem;
      if String.eqb ty "pretrain" then
        dupe_factor ← read attr.dupe_factor;
        mret (Some dupe_factor)
      else dup_fac_loop rest (Some 1%Z)
  end.

(** The float literal [0.1], as the exact tenth. *)
Definition one_tenth : Qc := Q2Qc (1 # 10).

(** [assign_problem(flag_string, gpu, base_dir, dir_name, predicting)] *)
Definition assign_problem (flag_string : string) (gpu : Z)
    (base_dir dir_name : option string) (predicting : bool)
    : M (BaseParams * World) unit :=
  set_self attr.assigned_details
    (Some (flag_string, gpu, base_dir, dir_name, predicting));;
  set_self attr.problem_assigned true;;
  set_self attr.predicting (Some predicting);;
  '(problem_list, problem_chunk) ← liftP (parse_problem_string flag_string);
  set_self attr.problem_list (Some problem_list);;
  set_self attr.problem_chunk (Some problem_chunk);;
  problem_list ← get_self attr.problem_list ≫= require "problem_list";
  prepare_dir base_dir dir_name problem_list;;
  problem_list ← get_self attr.problem_list ≫= require "problem_list";
  ckpt_dir ← get_self attr.ckpt_dir ≫= require "ckpt_dir";
  get_data_info problem_list ckpt_dir;;
  liftP (set_data_sampling_strategy "data_balanced" None);;
  if negb predicting then
    data_num ← get_self attr.data_num ≫= require "data_num";
    set_self attr.shuffle_buffer (Some (Z.min 200000 data_num));;
    problem_list ← get_self attr.problem_list ≫= require "problem_list";
    dup_fac ← liftP (dup_fac_loop problem_list None);
    data_num ← get_self attr.data_num ≫= require "data_num";
    train_epoch ← get_self attr.train_epoch;
    dup_fac ← match dup_fac with
              | Some d => mret d
              | None => raise (UnboundLocalError "dup_fac")
              end;
    batch_size ← get_self attr.batch_size;
    steps ← liftE (py_truediv (Qc_of_Z (data_num * train_epoch * dup_fac))
                              (Qc_of_Z (batch_size * Z.max 1 gpu)));
    set_self attr.train_steps (Some (py_int steps));;
    train_steps ← get_self attr.train_steps ≫= require "train_steps";
    train_epoch ← get_self attr.train_epoch;
    per_epoch ← liftE (py_truediv (Qc_of_Z train_steps) (Qc_of_Z train_epoch));
    set_self attr.train_steps_per_epoch (Some (py_int per_epoch));;
    train_steps ← get_self attr.train_steps ≫= require "train_steps";
    set_self attr.num_warmup_steps (Some (py_int (one_tenth * Qc_of_Z train_steps)%Qc));;
    init_lr ← get_self attr.init_lr;
    set_self attr.lr (Some (init_lr * Qc_of_Z gpu)%Qc)
  else mret tt.

(** Truth value of an optional int: [None] and 0 are false. *)
Definition truthy_opt_int (n : option Z) : bool :=
  match n with
  | Some n => negb (n =? 0)%Z
  | None => false
  end.

(** [update_train_steps(train_steps_per_epoch, epoch)].  The log message
    is left out, but not the reading of [self.train_steps] that builds it. *)
Definition update_train_steps (train_steps_per_epoch : Z) (epoch : option Z)
    : M BaseParams unit :=
  train_steps ←
    (if truthy_opt_int epoch then mret (train_steps_per_epoch * default 0%Z epoch)%Z
     else
       train_epoch ← read attr.train_epoch;
       mret (train_steps_per_epoch * train_epoch)%Z);
  read attr.train_steps ≫= require "train_steps";;
  write attr.train_steps (Some train_steps);;
  write attr.train_steps_per_epoch (Some train_steps_per_epoch);;
  train_steps ← read attr.train_steps ≫= require "train_steps";
  write attr.num_warmup_steps (Some (py_int (Qc_of_Z train_steps * one_tenth)%Qc)).

End WorldMethods.

(** ** A trivial world

    Every library object is [unit], every call succeeds and finds no file.
    It serves to run the methods on concrete objects. *)
Definition trivial_types : ExternalTypes :=
  {| World := unit; Config := unit; ConfigDict := unit; Tokenizer := unit;
     Callable := unit |}.

Definition trivial_world : @External trivial_types :=
  Build_External trivial_types
    (* create_path *) (fun _ w => (inr tt, w))
    (* os_path_exists *) (fun _ _ => false)
    (* shutil_copy2 *) (fun _ _ w => (inr tt, w))
    (* os_rename *) (fun _ _ w => (inr tt, w))
    (* load_transformer_config *) (fun _ _ w => (inr tt, w))
    (* config_to_dict *) (fun _ => tt)
    (* config_save_pretrained *) (fun _ _ w => (inr tt, w))
    (* load_transformer_tokenizer *) (fun _ _ w => (inr tt, w))
    (* tokenizer_save_pretrained *) (fun _ _ w => (inr tt, w))
    (* tokenizer_vocab_size *) (fun _ => 21128%Z)
    (* tokenizer_bos_token *) (fun _ => None)
    (* tokenizer_eos_token *) (fun _ => None)
    (* tokenizer_bos_token_id *) (fun _ => None)
    (* tokenizer_eos_token_id *) (fun _ => None)
    (* tokenizer_add_special_tokens *) (fun _ _ t => inr t)
    (* BOS_TOKEN *) "[BOS]"
    (* EOS_TOKEN *) "[EOS]"
    (* json_load_data_info *) (fun _ w => (inr (∅, ∅), w))
    (* json_dump_data_info *) (fun _ _ _ w => (inr tt, w))
    (* call_read_data_fn *) (fun _ _ s => (inr (100%Z, 2%Z), s)).

(** ** [to_json] and [from_json]

    Both methods treat the object reflectively, through [vars(self)] and
    [setattr], so here the object is its attribute dictionary and an
    attribute holds an arbitrary Python value.  A file holds a JSON
    document; writing a document and parsing it back is the identity. *)

Module Persistence.

(** Dictionary keys: strings, ints, bools, [None], and every other
    hashable key (a tuple, an object). *)
Inductive pykey : Type :=
| KStr (s : string)
| KInt (n : Z)
| KBool (b : bool)
| KNone
| KOther (id : positive).

(** Python values.  A dict is the list of its items in insertion order. *)
#[warnings="-register-all"]
Inductive pyval : Type :=
| PyNone
| PyBool (b : bool)
| PyInt (n : Z)
| PyFloat (q : Qc)
| PyStr (s : string)
| PyList (l : list pyval)
| PyTuple (l : list pyval)
| PyDict (items : list (pykey * pyval))
| PyFunction (id : positive)
| PyObject (id : positive).

#[warnings="-register-all"]
Inductive json : Type :=
| JNull
| JBool (b : bool)
| JInt (n : Z)
| JFloat (q : Qc)
| JStr (s : string)
| JArr (l : list json)
| JObj (members : list (string * json)).

#[global] Instance pykey_eq_dec : EqDecision pykey.
Proof. solve_decision. Defined.

(** [repr] of an int, as the JSON encoder writes an int key. *)
Definition int_repr (n : Z) : string := NilZero.string_of_int (Z.to_int n).

(** The JSON encoder's key conversion; other keys raise [TypeError]. *)
Definition json_key (k : pykey) : outcome string :=
  match k with
  | KStr s => inr s
  | KInt n => inr (int_repr n)
  | KBool true => inr "true"
  | KBool false => inr "false"
  | KNone => inr "null"
  | KOther _ => inl TypeError
  end.

(** [json.dumps(v)], up to the document's text: lists and tuples both
    become arrays, a function or another object raises [TypeError]. *)
Fixpoint json_dumps (v : pyval) : outcome json :=
  match v with
  | PyNone => inr JNull
  | PyBool b => inr (JBool b)
  | PyInt n => inr (JInt n)
  | PyFloat q => inr (JFloat q)
  | PyStr s => inr (JStr s)
  | PyList l | PyTuple l =>
      match
        (fix elems (l : list pyval) : outcome (list json) :=
           match l with
           | [] => inr []
           | x :: l' =>
               match json_dumps x with
               | inl e => inl e
               | inr j =>
                   match elems l' with
                   | inl e => inl e
                   | inr js => inr (j :: js)
                   end
               end
           end) l
      with
      | inl e => inl e
      | inr js => inr (JArr js)
      end
  | PyDict items =>
      match
        (fix members (items : list (pykey * pyval)) : outcome (list (string * json)) :=
           match items with
           | [] => inr []
           | (k, x) :: items' =>
               match json_key k with
               | inl e => inl e
               | inr name =>
                   match json_dumps x with
                   | inl e => inl e
                   | inr j =>
                       match members items' with
                       | inl e => inl e
                       | inr ms => inr ((name, j) :: ms)
                       end
                   end
               end
           end) items
      with
      | inl e => inl e
      | inr ms => inr (JObj ms)
      end
  | PyFunction _ | PyObject _ => inl TypeError
  end.

(** [d[k] = v] on a dict: an existing key keeps its place. *)
Fixpoint dict_set (k : pykey) (v : pyval) (d : list (pykey * pyval))
    : list (pykey * pyval) :=
  match d with
  | [] => [(k, v)]
  | (k', v') :: d' =>
      if decide (k = k') then (k', v) :: d' else (k', v') :: dict_set k v d'
  end.

(** The dict built from pairs read in order: a repeated name keeps the
    last value. *)
Definition dict_of_pairs (l : list (pykey * pyval)) : list (pykey * pyval) :=
  fold_left (fun d '(k, v) => dict_set k v d) l [].

(** [json.loads]: arrays become lists and objects become dicts with
    string keys. *)
Fixpoint json_loads (j : json) : pyval :=
  match j with
  | JNull => PyNone
  | JBool b => PyBool b
  | JInt n => PyInt n
  | JFloat q => PyFloat q
  | JStr s => PyStr s
  | JArr l => PyList (map json_loads l)
  | JObj members =>
      PyDict (dict_of_pairs (map (fun m => (KStr (fst m), json_loads (snd m))) members))
  end.

(** Truth value of a Python value. *)
Definition py_truthy (v : pyval) : bool :=
  match v with
  | PyNone => false
  | PyBool b => b
  | PyInt n => negb (n =? 0)%Z
  | PyFloat q => negb (Qeq_bool q 0)
  | PyStr s => negb (String.eqb s "")
  | PyList l | PyTuple l => negb (bool_decide (l = []))
  | PyDict items => negb (bool_decide (items = []))
  | PyFunction _ | PyObject _ => true
  end.

(** [vars(self)] and the files. *)
Abbreviation Attrs := (gmap string pyval).
Abbreviation Files := (gmap string json).

(** [self.name] for an instance attribute. *)
Definition getattr (name : string) : M (Attrs * Files) pyval :=
  fun '(self, fs) =>
    match self !! name with
    | Some v => (inr v, (self, fs))
    | None => (inl (AttributeError name), (self, fs))
    end.

Definition py_setattr (name : string) (v : pyval) : M (Attrs * Files) unit :=
  modify (fun '(self, fs) => (<[name := v]> self, fs)).

Definition hasattr (name : string) : M (Attrs * Files) bool :=
  gets (fun '(self, _) => bool_decide (is_Some (self !! name))).

(** The loop of [to_json]: the attributes that [json.dumps] accepts. *)
Definition serializable (v : pyval) : bool :=
  match json_dumps v with
  | inr _ => true
  | inl _ => false
  end.

Definition dump_dict (self : Attrs) : list (string * pyval) :=
  List.filter (fun item => serializable (snd item)) (map_to_list self).

(** [open(path, 'w')] followed by [json.dump(d, f)]. *)
Definition json_dump_file (d : pyval) (path : pyval) : M (Attrs * Files) unit :=
  match path with
  | PyStr path =>
      doc ← liftE (json_dumps d);
      modify (fun '(self, fs) => (self, <[path := doc]> fs))
  | _ => raise TypeError
  end.

(** [to_json()] *)
Definition to_json : M (Attrs * Files) unit :=
  self ← gets fst;
  let dump_dict := dump_dict self in
  params_path ← getattr "params_path";
  json_dump_file (PyDict (map (fun item => (KStr (fst item), snd item)) dump_dict))
                 params_path.

(** [open(path, 'r')] followed by [json.load(f)]. *)
Definition json_load_file (path : pyval) : M (Attrs * Files) pyval :=
  match path with
  | PyStr path =>
      fs ← gets snd;
      match fs !! path with
      | Some doc => mret (json_loads doc)
      | None => raise (OSError "FileNotFoundError")
      end
  | _ => raise TypeError
  end.

(** [for att in dump_dict: setattr(self, att, dump_dict[att])].  A
    document that is not an object fails at its first item, and does
    nothing when it has none. *)
Definition restore_attributes (dump_dict : pyval) : M (Attrs * Files) unit :=
  match dump_dict with
  | PyDict items =>
      for_each items
        (fun '(att, v) _ =>
           match att with
           | KStr name => py_setattr name v
           | _ => raise TypeError
           end)
        tt
  | PyList [] | PyStr "" => mret tt
  | _ => raise TypeError
  end.

Section FromJson.

(** [utils.load_transformer_config(config_dict, loading)], and the
    object's own [assign_problem], called with the unpacked
    [assigned_details]. *)
Variable load_transformer_config_dict : pyval -> pyval -> M Files pyval.
Variable assign_problem_args : pyval -> M (Attrs * Files) unit.

Definition load_config (d loading : pyval) : M (Attrs * Files) pyval :=
  fun '(self, fs) =>
    let '(r, fs') := load_transformer_config_dict d loading fs in (r, (self, fs')).

(** [from_json(json_path)] *)
Definition from_json (json_path : option string) : M (Attrs * Files) unit :=
  params_path ←
    match json_path with
    | Some p => mret (PyStr p)
    | None => getattr "params_path"
    end;
  problem_assigned ← getattr "problem_assigned";
  assign_details ←
    (if py_truthy problem_assigned then getattr "assigned_details" else mret PyNone);
  dump_dict ← json_load_file params_path;
  restore_attributes dump_dict;;
  config_dict ← getattr "bert_config_dict";
  loading ← getattr "transformer_config_loading";
  config ← load_config config_dict loading;
  py_setattr "bert_config" config;;
  has_decoder ← hasattr "bert_decoder_config_dict";
  (if (has_decoder : bool) then
     config_dict ← getattr "bert_decoder_config_dict";
     loading ← getattr "transformer_decoder_config_loading";
     config ← load_config config_dict loading;
     py_setattr "bert_decoder_config" config
   else mret tt);;
  if py_truthy assign_details then assign_problem_args assign_details
  else mret tt.

End FromJson.

(** ** The vocabulary of the statements about [to_json] and [from_json] *)

(** Induction on a Python value, with the hypothesis for every element
    of a list or tuple and every value of a dict. *)
Fixpoint pyval_ind' (P : pyval -> Prop)
    (HNone : P PyNone) (HBool : forall b, P (PyBool b)) (HInt : forall n, P (PyInt n))
    (HFloat : forall q, P (PyFloat q)) (HStr : forall s, P (PyStr s))
    (HList : forall l, Forall P l -> P (PyList l))
    (HTuple : forall l, Forall P l -> P (PyTuple l))
    (HDict : forall items, Forall (fun item => P (snd item)) items -> P (PyDict items))
    (HFunction : forall id, P (PyFunction id)) (HObject : forall id, P (PyObject id))
    (v : pyval) {struct v} : P v :=
  let rec := pyval_ind' P HNone HBool HInt HFloat HStr HList HTuple HDict HFunction HObject in
  match v with
  | PyNone => HNone
  | PyBool b => HBool b
  | PyInt n => HInt n
  | PyFloat q => HFloat q
  | PyStr s => HStr s
  | PyList l =>
      HList l ((fix go (l : list pyval) : Forall P l :=
                  match l with
                  | [] => @List.Forall_nil _ P
                  | x :: l' => @List.Forall_cons _ P x l' (rec x) (go l')
                  end) l)
  | PyTuple l =>
      HTuple l ((fix go (l : list pyval) : Forall P l :=
                   match l with
                   | [] => @List.Forall_nil _ P
                   | x :: l' => @List.Forall_cons _ P x l' (rec x) (go l')
                   end) l)
  | PyDict items =>
      HDict items
        ((fix go (items : list (pykey * pyval)) : Forall (fun item => P (snd item)) items :=
            match items with
            | [] => @List.Forall_nil _ _
            | item :: items' =>
                @List.Forall_cons _ (fun item => P (snd item)) item items' (rec (snd item)) (go items')
            end) items)
  | PyFunction id => HFunction id
  | PyObject id => HObject id
  end.

(** The encoder on lists and dicts, one element at a time. *)
Definition dumps_list (l : list pyval) : outcome (list json) :=
  foldr (fun x acc =>
           match json_dumps x with
           | inl e => inl e
           | inr j => match acc with inl e => inl e | inr js => inr (j :: js) end
           end) (inr []) l.

Definition dumps_items (items : list (pykey * pyval)) : outcome (list (string * json)) :=
  foldr (fun item acc =>
           match json_key (fst item) with
           | inl e => inl e
           | inr name =>
               match json_dumps (snd item) with
               | inl e => inl e
               | inr j => match acc with inl e => inl e | inr ms => inr ((name, j) :: ms) end
               end
           end) (inr []) items.

(** The members [to_json] writes: every attribute that encodes, with its
    encoding. *)
Definition encode_item (item : string * pyval) : option (string * json) :=
  match json_dumps (snd item) with
  | inr j => Some (fst item, j)
  | inl _ => None
  end.

Definition encoded (self : Attrs) : list (string * json) :=
  omap encode_item (map_to_list self).

(** Values that decoding gives back unchanged: no tuple, and dicts with
    distinct string keys only. *)
Fixpoint json_stable (v : pyval) : bool :=
  match v with
  | PyNone | PyBool _ | PyInt _ | PyFloat _ | PyStr _ => true
  | PyList l => forallb json_stable l
  | PyTuple _ => false
  | PyDict items =>
      forallb (fun item => match fst item with
                           | KStr _ => json_stable (snd item)
                           | _ => false
                           end) items
      && bool_decide (NoDup items.*1)
  | PyFunction _ | PyObject _ => false
  end.

(** What the restoring loop leaves in the object. *)
Definition restore_all (ms : list (string * json)) (self : Attrs) : Attrs :=
  fold_left (fun self m => <[fst m := json_loads (snd m)]> self) ms self.

(** An attribute that [from_json] sets itself, whatever the file says. *)
Definition reloaded (name : string) : Prop :=
  name = "bert_config" \/ name = "bert_decoder_config".

(** ** Concrete objects *)

(** A trained object as [assign_problem] leaves it, and a fresh one. *)
Definition saved_details : pyval :=
  PyTuple [PyStr "cws"; PyInt 2; PyNone; PyNone; PyBool false].

Definition trained : Attrs :=
  list_to_map
    [("params_path", PyStr "models/cws_ckpt/params.json");
     ("problem_assigned", PyBool true);
     ("assigned_details", saved_details);
     ("batch_size", PyInt 32);
     ("bert_config_dict", PyDict [(KStr "hidden_size", PyInt 768)]);
     ("transformer_config_loading", PyStr "AutoConfig");
     ("read_data_fn", PyDict [(KStr "cws", PyFunction 1)]);
     ("bert_config", PyObject 1)].

Definition fresh : Attrs :=
  list_to_map
    [("problem_assigned", PyBool false);
     ("batch_size", PyInt 16);
     ("read_data_fn", PyDict [])].

(** A loader that returns some config object, and a re-assignment that
    does nothing. *)
Definition some_loader : pyval -> pyval -> M Files pyval :=
  fun _ _ fs => (inr (PyObject 2), fs).

Definition no_assign : pyval -> M (Attrs * Files) unit :=
  fun _ s => (inr tt, s).

Definition reloaded_fresh : outcome unit * (Attrs * Files) :=
  from_json some_loader no_assign (Some "models/cws_ckpt/params.json")
    (fresh, snd (snd (to_json (trained, ∅)))).

End Persistence.

(** * The vocabulary of the statements *)

(** The key of a chunk, its rows, and the rows that accumulate under a key. *)
Definition key_of (chunk : list string) : string := str_join "_" (sorted chunk).

Definition rows_of (data_num : gmap string Z) (chunk : list string) : Z :=
  foldr (fun p n => (default 0 (data_num !! p) + n)%Z) 0%Z chunk.


Definition total_rows (data_num : gmap string Z) (chunks : list (list string)) : Z :=
  foldr (fun c n => (rows_of data_num c + n)%Z) 0%Z chunks.

(** The dict a chunk contributes to [run_problem_list]: its names with
    their registered types. *)
Definition chunk_dict (registry : gmap string string) (names : list string)
    (d : gmap string string) : gmap string string :=
  fold_left (fun d n => match registry !! n with
                        | Some ty => <[n := ty]> d
                        | None => d
                        end) names d.

(** The local [problem_chunk_data_num] of 'data_balanced' after one chunk
    and after all of them, and of 'problem_balanced'. *)
Definition counted (data_num : gmap string Z) (k : string) (chunk : list string)
    (acc : gmap string Qc) : gmap string Qc :=
  fold_left (fun acc p => defaultdict_add k (Qc_of_Z (default 0%Z (data_num !! p))) acc)
            chunk acc.

Definition counted_all (data_num : gmap string Z) (chunks : list (list string))
    (acc : gmap string Qc) : gmap string Qc :=
  fold_left (fun acc c => counted data_num (key_of c) c acc) chunks acc.

Definition ones (keys : list string) (acc : gmap string Qc) : gmap string Qc :=
  fold_left (fun acc k => <[k := 1%Qc]> acc) keys acc.


(** Some problem of the list is a pretraining problem. *)
Definition has_pretrain (registry : gmap string string) (problem_list : list string) : bool :=
  existsb (fun p => bool_decide (registry !! p = Some "pretrain")) problem_list.

(** What holds of the result and the state when a method returns. *)

Definition post {S A} (m : M S A) (s : S) (Q : A -> S -> Prop) : Prop :=
  match m s with
  | (inr a, s') => Q a s'
  | (inl _, _) => True
  end.

Section Vocabulary.
Context `{ExternalTypes}.

(** Every name of the list is a key of [self.problem_type]. *)
Definition registered (self : BaseParams) (names : list string) : Prop :=
  forall n, n ∈ names -> is_Some ((self attr.problem_type : gmap string string) !! n).



End Vocabulary.

(** ** Concrete objects, in the trivial world *)

(** Four registered problems, as in the docstring of [parse_problem_string]. *)
Definition four_problems : @BaseParams trivial_types :=
  setattr attr.problem_type
    (<["cws" := "seq_tag"]> (<["POS" := "seq_tag"]>
       (<["weibo_ner" := "seq_tag"]> {["weibo_cws" := "seq_tag"]}))) init.

Definition two_equal_chunks : @BaseParams trivial_types :=
  setattr attr.problem_chunk (Some [["a"]; ["a"]])
    (setattr attr.data_num_dict (Some {["a" := 5%Z]}) init).

Definition two_chunks : @BaseParams trivial_types :=
  setattr attr.problem_chunk (Some [["cws"]; ["POS"; "a"]])
    (setattr attr.data_num_dict
       (Some (<["cws" := 10%Z]> (<["POS" := 30%Z]> {["a" := 5%Z]}))) init).

(** One registered problem with a preprocessing function, not predicting. *)
Definition one_problem : @BaseParams trivial_types :=
  setattr attr.predicting (Some false)
    (setattr attr.read_data_fn {["cws" := Some tt]}
       (setattr attr.problem_type {["cws" := "seq_tag"]} init)).

(** * The vocabulary of the statements about the other methods *)

Section RegistrationVocabulary.
Context `{ExternalTypes}.

(** The function [add_multiple_problems] passes on for a name: [None]
    without a dict of functions (or with an empty one), the dict's entry
    otherwise; no entry is a [KeyError]. *)
Definition fn_for (processing_fn_dict : option (gmap string (option Callable)))
    (name : string) : option (option Callable) :=
  if truthy_dict processing_fn_dict then default ∅ processing_fn_dict !! name
  else Some None.

(** The object after one item has been added, and after all of them. *)
Definition register_one (processing_fn_dict : option (gmap string (option Callable)))
    (self : BaseParams) (item : string * string) : BaseParams :=
  setattr attr.read_data_fn
    (<[item.1 := default None (fn_for processing_fn_dict item.1)]> (self attr.read_data_fn))
    (setattr attr.problem_type (<[item.1 := item.2]> (self attr.problem_type)) self).

Definition register_all (processing_fn_dict : option (gmap string (option Callable)))
    (items : list (string * string)) (self : BaseParams) : BaseParams :=
  fold_left (register_one processing_fn_dict) items self.
End RegistrationVocabulary.

Section PrepareDirVocabulary.
Context `{External}.

(** What [prepare_dir] has loaded when it returns. *)
Definition config_loaded (self' : BaseParams) : Prop :=
  exists config tokenizer,
    self' attr.bert_config = Some config
    /\ self' attr.bert_config_dict = Some (config_to_dict config)
    /\ self' attr.vocab_size = Some (tokenizer_vocab_size tokenizer)
    /\ is_Some (self' attr.init_weight_from_huggingface).

(** The attributes [prepare_dir] reads off the decoder's tokenizer, when
    the object has one on entry. *)
Definition decoder_ids (old self' : BaseParams) : Prop :=
  match old attr.transformer_decoder_tokenizer_name with
  | Some _ =>
      exists tokenizer,
        self' attr.decoder_vocab_size = Some (tokenizer_vocab_size tokenizer)
        /\ self' attr.bos_id = Some (tokenizer_bos_token_id tokenizer)
        /\ self' attr.eos_id = Some (tokenizer_eos_token_id tokenizer)
  | None =>
      self' attr.decoder_vocab_size = old attr.decoder_vocab_size
      /\ self' attr.bos_id = old attr.bos_id
      /\ self' attr.eos_id = old attr.eos_id
  end.
End PrepareDirVocabulary.

Section AssignProblemVocabulary.
Context `{ExternalTypes}.
(** What [assign_problem] leaves besides the schedule when it trains. *)
Definition shuffle_buffer_set (self' : BaseParams) : Prop :=
  exists data_num weights,
    self' attr.data_num = Some data_num
    /\ self' attr.shuffle_buffer = Some (Z.min 200000 data_num)
    /\ self' attr.problem_sampling_weight_dict = Some weights.
End AssignProblemVocabulary.

(** A property of the state that a method keeps, whether it returns or raises. *)
Definition keeps {S A} (I : S -> Prop) (m : M S A) : Prop :=
  forall s, I s -> I (snd (m s)).

Section PredictingVocabulary.
Context `{ExternalTypes}.

(** A property of the object, as a property of the object and the world. *)
Definition on_self (J : BaseParams -> Prop) : BaseParams * World -> Prop :=
  fun s => J (fst s).

(** The attributes that no line of [assign_problem] reaches when it predicts. *)
Definition kept_when_predicting (a : attr.t) : bool :=
  match a with
  | attr.problem_type | attr.read_data_fn
  | attr.transformer_config_loading | attr.transformer_tokenizer_loading
  | attr.transformer_decoder_model_name
  | attr.transformer_decoder_config_loading | attr.transformer_decoder_tokenizer_loading
  | attr.init_checkpoint | attr.init_lr | attr.batch_size | attr.train_epoch
  | attr.dupe_factor | attr.bert_decoder_config_dict
  | attr.data_num | attr.shuffle_buffer
  | attr.train_steps | attr.train_steps_per_epoch | attr.num_warmup_steps | attr.lr => true
  | _ => false
  end.

Definition predicting_inv (old self : BaseParams) : Prop :=
  self attr.predicting = Some true
  /\ forall a, kept_when_predicting a = true -> self a = old a.
End PredictingVocabulary.

Module JsonInduction.
Import Persistence.

(** Induction on a JSON document, with the hypothesis for every element
    of an array and every member of an object. *)
Fixpoint json_ind' (P : json -> Prop)
    (HNull : P JNull) (HBool : forall b, P (JBool b)) (HInt : forall n, P (JInt n))
    (HFloat : forall q, P (JFloat q)) (HStr : forall s, P (JStr s))
    (HArr : forall l, Forall P l -> P (JArr l))
    (HObj : forall members, Forall (fun m => P (snd m)) members -> P (JObj members))
    (j : json) {struct j} : P j :=
  let rec := json_ind' P HNull HBool HInt HFloat HStr HArr HObj in
  match j with
  | JNull => HNull
  | JBool b => HBool b
  | JInt n => HInt n
  | JFloat q => HFloat q
  | JStr s => HStr s
  | JArr l =>
      HArr l ((fix go (l : list json) : Forall P l :=
                 match l with
                 | [] => @List.Forall_nil _ P
                 | x :: l' => @List.Forall_cons _ P x l' (rec x) (go l')
                 end) l)
  | JObj members =>
      HObj members
        ((fix go (members : list (string * json)) : Forall (fun m => P (snd m)) members :=
            match members with
            | [] => @List.Forall_nil _ _
            | m :: members' =>
                @List.Forall_cons _ (fun m => P (snd m)) m members' (rec (snd m)) (go members')
            end) members)
  end.

(** An item of a dict that decoding gives back unchanged. *)
Definition stable_item (item : pykey * pyval) : bool :=
  match fst item with
  | KStr _ => json_stable (snd item)
  | _ => false
  end.

End JsonInduction.

(** ** More concrete objects *)

(** A registry given to [add_multiple_problems]. *)
Definition two_new : list (string * string) := [("cws", "seq_tag"); ("ner", "seq_tag")].

(** An object that has trained before. *)
Definition trained_once : @BaseParams trivial_types :=
  setattr attr.train_steps (Some 100%Z) init.

(** Two objects whose only chunk holds the same problems in another order. *)
Definition chunk_ab : @BaseParams trivial_types :=
  setattr attr.problem_chunk (Some [["a"; "b"]]) init.

Definition chunk_ba : @BaseParams trivial_types :=
  setattr attr.problem_chunk (Some [["b"; "a"]]) init.

(** One chunk without rows, and one chunk with a problem that was never counted. *)
Definition no_rows : @BaseParams trivial_types :=
  setattr attr.problem_chunk (Some [["a"]])
    (setattr attr.data_num_dict (Some {["a" := 0%Z]}) init).

Definition uncounted : @BaseParams trivial_types :=
  setattr attr.problem_chunk (Some [["cws"; "ner"]])
    (setattr attr.data_num_dict (Some {["cws" := 10%Z]}) init).

(** A world whose every path exists and whose data_info.json counts 100
    rows of 'cws'. *)
Definition cached_world : @External trivial_types :=
  Build_External trivial_types
    (* create_path *) (fun _ w => (inr tt, w))
    (* os_path_exists *) (fun _ _ => true)
    (* shutil_copy2 *) (fun _ _ w => (inr tt, w))
    (* os_rename *) (fun _ _ w => (inr tt, w))
    (* load_transformer_config *) (fun _ _ w => (inr tt, w))
    (* config_to_dict *) (fun _ => tt)
    (* config_save_pretrained *) (fun _ _ w => (inr tt, w))
    (* load_transformer_tokenizer *) (fun _ _ w => (inr tt, w))
    (* tokenizer_save_pretrained *) (fun _ _ w => (inr tt, w))
    (* tokenizer_vocab_size *) (fun _ => 21128%Z)
    (* tokenizer_bos_token *) (fun _ => None)
    (* tokenizer_eos_token *) (fun _ => None)
    (* tokenizer_bos_token_id *) (fun _ => None)
    (* tokenizer_eos_token_id *) (fun _ => None)
    (* tokenizer_add_special_tokens *) (fun _ _ t => inr t)
    (* BOS_TOKEN *) "[BOS]"
    (* EOS_TOKEN *) "[EOS]"
    (* json_load_data_info *) (fun _ w => (inr ({["cws" := 100%Z]}, {["cws" := 2%Z]}), w))
    (* json_dump_data_info *) (fun _ _ _ w => (inr tt, w))
    (* call_read_data_fn *) (fun _ _ s => (inr (100%Z, 2%Z), s)).

(** A problem registered without a preprocessing function, and an object
    that predicts. *)
Definition no_fn_problem : @BaseParams trivial_types :=
  setattr attr.predicting (Some false)
    (setattr attr.read_data_fn {["cws" := None]}
       (setattr attr.problem_type {["cws" := "seq_tag"]} init)).

Definition predicting_fresh : @BaseParams trivial_types :=
  setattr attr.predicting (Some true) init.

Module PersistenceObjects.
Import Persistence.

(** The file of the trained object, and a re-assignment that records the
    details it is called with. *)
Definition saved_file : Files := snd (snd (to_json (trained, ∅))).

Definition record_assign : pyval -> M (Attrs * Files) unit :=
  fun details => py_setattr "called_with" details.

Definition reassigned : outcome unit * (Attrs * Files) :=
  Persistence.from_json some_loader record_assign None (trained, saved_file).

(** The object read from the file of a trained one, saved again and read
    into a fresh object. *)
Definition first_load : outcome unit * (Attrs * Files) :=
  Persistence.from_json some_loader no_assign (Some "models/cws_ckpt/params.json")
    (fresh, saved_file).

Definition second_load : outcome unit * (Attrs * Files) :=
  Persistence.from_json some_loader no_assign (Some "models/cws_ckpt/params.json")
    (fresh, snd (snd (to_json (snd first_load)))).

(** A file that holds a batch size and no config. *)
Definition bare_file : Files :=
  {["params.json" := JObj [("batch_size", JInt 8)]]}.

End PersistenceObjects.

(** * Proofs *)

(** ** Splitting *)

Lemma split_on_nonempty sep s : split_on sep s <> [].
Proof. induction s as [|c s IH]; simpl; [done|]. destruct (sep c); [done|]. by destruct (split_on sep s). Qed.

Lemma split_on_no_sep c s : str_contains c s = false -> str_split c s = [s].
Proof.
  unfold str_split. induction s as [|c' s IH]; simpl; [done|].
  intros [Hc Hs]%orb_false_iff. rewrite Hc, (IH Hs). done.
Qed.

Lemma split_on_or p q s :
  split_on (fun c => q c || p c) s = concat (split_on q <$> split_on p s).
Proof.
  induction s as [|c s IH]; simpl; [done|].
  destruct (p c) eqn:Hp.
  - rewrite orb_true_r. simpl. by rewrite IH.
  - rewrite orb_false_r. rewrite IH.
    destruct (split_on p s) as [|w ws] eqn:Hs; [by apply split_on_nonempty in Hs|].
    simpl. destruct (q c) eqn:Hq; [done|].
    destruct (split_on q w) as [|u us] eqn:Hw; [by apply split_on_nonempty in Hw|].
    done.
Qed.

Lemma re_split_nested s :
  re_split_amp_bar s = concat (str_split "&" <$> str_split "|" s).
Proof. apply (split_on_or (Ascii.eqb "|") (Ascii.eqb "&")). Qed.

(** ** Running a method *)

Section MonadLaws.
Context {S : Type}.

Lemma bind_ok {A B} (m : M S A) (k : A -> M S B) s a s1 r :
  m s = (inr a, s1) -> k a s1 = r -> (m ≫= k) s = r.
Proof. intros E <-. unfold mbind, M_bind. by rewrite E. Qed.

Lemma bind_err {A B} (m : M S A) (k : A -> M S B) s e s1 :
  m s = (inl e, s1) -> (m ≫= k) s = (inl e, s1).
Proof. intros E. unfold mbind, M_bind. by rewrite E. Qed.

Lemma getitem_ok {A} (d : gmap string A) k v (s : S) :
  d !! k = Some v -> getitem d k s = (inr v, s).
Proof. unfold getitem. by intros ->. Qed.

Lemma getitem_err {A} (d : gmap string A) k (s : S) :
  d !! k = None -> getitem d k s = (inl (KeyError k), s).
Proof. unfold getitem. by intros ->. Qed.

Lemma require_ok {A} name (x : A) (s : S) : require name (Some x) s = (inr x, s).
Proof. reflexivity. Qed.

End MonadLaws.

(** Runs a method whose steps all succeed, leaving the calls it does not
    know to the hypotheses. *)
Ltac mrun :=
  lazymatch goal with
  | |- @mbind _ _ _ _ _ _ _ = _ => eapply bind_ok; [mrun | cbv beta; mrun]
  | |- getitem _ _ _ = _ => first [apply getitem_ok; eassumption | idtac]
  | |- _ => first [reflexivity | eassumption | idtac]
  end.

(** ** Attributes, and [parse_problem_string] *)

Section ParseProblemString.
Context `{ExternalTypes}.

Lemma setattr_eq a v (self : BaseParams) : setattr a v self a = v.
Proof. unfold setattr. destruct a; reflexivity. Qed.

Lemma setattr_ne a b v (self : BaseParams) : a <> b -> setattr a v self b = self b.
Proof. unfold setattr. intros. destruct (attr.eq_dec a b); [done|reflexivity]. Qed.

Lemma parse_problem_loop names : forall (self : BaseParams) d pc c,
  registered self names ->
  for_each names parse_problem (d, pc ++ [c]) self
  = (inr (chunk_dict (self attr.problem_type) names d, pc ++ [c ++ names]), self).
Proof.
  induction names as [|n names IH]; intros self d pc c Hreg; simpl.
  - by rewrite app_nil_r.
  - destruct (Hreg n) as [ty Hty]; [left|].
    eapply bind_ok.
    { unfold parse_problem. mrun. }
    replace (append_to_last n (pc ++ [c])) with (pc ++ [c ++ [n]]).
    2:{ clear. induction pc as [|x pc IHpc]; simpl; [done|]. rewrite <- IHpc.
        destruct (pc ++ [c ++ [n]]) eqn:E; [by destruct pc|]. by destruct (pc ++ [c]) eqn:E2; [destruct pc|]. }
    rewrite IH. 2:{ intros m Hm. apply Hreg. by right. }
    simpl in *. rewrite Hty. by rewrite <- app_assoc.
Qed.

Lemma run_problem_list_append_run d (self : BaseParams) :
  run_problem_list_append d self
  = (inr tt, setattr attr.run_problem_list (self attr.run_problem_list ++ [d]) self).
Proof. reflexivity. Qed.

Lemma parse_flag_chunk_run flag_chunk pc (self : BaseParams) :
  registered self (str_split "&" flag_chunk) ->
  parse_flag_chunk flag_chunk pc self
  = (inr (pc ++ [str_split "&" flag_chunk]),
     setattr attr.run_problem_list
       (self attr.run_problem_list
          ++ [chunk_dict (self attr.problem_type) (str_split "&" flag_chunk) ∅]) self).
Proof.
  intros Hreg. unfold parse_flag_chunk.
  destruct (str_contains "&" flag_chunk) eqn:Hc; simpl.
  - eapply bind_ok; [by apply parse_problem_loop|]. simpl. mrun.
  - rewrite (split_on_no_sep _ _ Hc) in *.
    destruct (Hreg flag_chunk) as [ty Hty]; [left|].
    mrun. simpl in *. by rewrite Hty.
Qed.

Lemma parse_flag_chunk_loop chunks : forall (self : BaseParams) pc,
  registered self (concat (str_split "&" <$> chunks)) ->
  exists self',
    for_each chunks parse_flag_chunk pc self
    = (inr (pc ++ (str_split "&" <$> chunks)), self')
    /\ self' attr.run_problem_list
       = self attr.run_problem_list
         ++ ((fun c => chunk_dict (self attr.problem_type) (str_split "&" c) ∅) <$> chunks)
    /\ forall a, a <> attr.run_problem_list -> self' a = self a.
Proof.
  induction chunks as [|c chunks IH]; intros self pc Hreg; simpl.
  - exists self. by rewrite !app_nil_r.
  - assert (registered self (str_split "&" c)) as Hc.
    { intros n Hn. apply Hreg. simpl. apply elem_of_app. by left. }
    set (self1 := setattr attr.run_problem_list
                    (self attr.run_problem_list
                       ++ [chunk_dict (self attr.problem_type) (str_split "&" c) ∅]) self).
    destruct (IH self1 (pc ++ [str_split "&" c])) as (self' & Hrun & Hrpl & Hframe).
    { intros n Hn. change (self1 attr.problem_type) with (self attr.problem_type).
      apply Hreg. simpl. apply elem_of_app. by right. }
    exists self'. split; [|split].
    + eapply bind_ok; [by apply parse_flag_chunk_run|]. fold self1. rewrite Hrun.
      by rewrite <- app_assoc.
    + rewrite Hrpl. change (self1 attr.problem_type) with (self attr.problem_type).
      unfold self1. rewrite setattr_eq. by rewrite <- app_assoc.
    + intros a Ha. rewrite (Hframe a Ha). by apply setattr_ne.
Qed.

Lemma chunk_dict_lookup registry names : forall d x,
  (forall n, n ∈ names -> is_Some (registry !! n)) ->
  chunk_dict registry names d !! x
  = if decide (x ∈ names) then registry !! x else d !! x.
Proof.
  unfold chunk_dict.
  induction names as [|n names IH]; intros d x Hreg; cbn [fold_left].
  - destruct (decide (x ∈ [])) as [Hx|Hx]; [by apply elem_of_nil in Hx|done].
  - destruct (Hreg n) as [ty Hty]; [left|]. rewrite Hty.
    rewrite IH by (intros m Hm; apply Hreg; by right).
    destruct (decide (x ∈ names)) as [Hin|Hin], (decide (x ∈ n :: names)) as [Hin'|Hin'];
      try done.
    + exfalso. apply Hin'. by right.
    + apply elem_of_cons in Hin' as [->|?]; [|done]. by rewrite lookup_insert_eq.
    + rewrite lookup_insert_ne; [done|]. intros ->. apply Hin'. left.
Qed.

(** C1. When every name of the flag string is registered,
    [parse_problem_string] returns (problem_list, problem_chunk) where
    problem_chunk is the string split on '|' and each piece on '&', in
    order, problem_list is sorted and is a permutation of all the names of
    the string, and [run_problem_list] holds one dict per chunk that maps
    exactly the names of the chunk to their registered types. *)
Theorem parse_problem_string_spec flag_string (self : BaseParams) :
  let chunks := str_split "&" <$> str_split "|" flag_string in
  (forall name, name ∈ concat chunks ->
     is_Some ((self attr.problem_type : gmap string string) !! name)) ->
  exists problem_list self',
    parse_problem_string flag_string self = (inr (problem_list, chunks), self')
    /\ StronglySorted String.le problem_list
    /\ problem_list ≡ₚ concat chunks
    /\ Forall2
         (fun (d : gmap string string) chunk =>
            forall name,
              d !! name = if decide (name ∈ chunk)
                          then (self attr.problem_type : gmap string string) !! name
                          else None)
         (self' attr.run_problem_list) chunks.
Proof.
  intros chunks Hreg.
  set (self1 := setattr attr.run_problem_list []
                  (setattr attr.problem_str (Some flag_string) self)).
  destruct (parse_flag_chunk_loop (str_split "|" flag_string) self1 [])
    as (self2 & Hrun & Hrpl & Hframe); [exact Hreg|].
  simpl in Hrun.
  assert (exists self', 
     (train_problem ← read attr.train_problem;
      match train_problem with
      | None => l ← read attr.run_problem_list; write attr.train_problem (Some l)
      | Some _ => mret tt
      end) self2 = (inr tt, self')
     /\ self' attr.run_problem_list = self2 attr.run_problem_list) as (self' & Htp & Hsame).
  { destruct (self2 attr.train_problem) eqn:E.
    - exists self2. split; [|done]. eapply bind_ok; [reflexivity|]. simpl. by rewrite E.
    - eexists. split. { eapply bind_ok; [reflexivity|]. simpl. rewrite E. mrun. } done. }
  exists (sorted (re_split_amp_bar flag_string)), self'. split; [|split; [|split]].
  - unfold parse_problem_string. mrun.
  - apply Sorted_StronglySorted; [apply _|]. apply Sorted_merge_sort. apply _.
  - unfold sorted. rewrite merge_sort_Permutation. by rewrite re_split_nested.
  - rewrite Hsame, Hrpl. simpl. fold chunks. unfold chunks.
    apply Forall2_fmap, Forall_Forall2_diag, Forall_forall. intros c Hc name.
    rewrite chunk_dict_lookup; [done|].
    intros n Hn. apply Hreg. apply list_elem_of_In, in_concat. exists (str_split "&" c).
    split; apply list_elem_of_In; [|done]. by apply list_elem_of_fmap_2.
Qed.
End ParseProblemString.

(** ** Sums and divisions over a dict of floats *)

Section Sums.
Local Open Scope Qc_scope.
Implicit Types (m : gmap string Qc) (k : string) (v x t : Qc).

Lemma sum_values_empty : sum_values ∅ = 0.
Proof. apply map_fold_empty. Qed.

Lemma sum_values_insert m k v :
  m !! k = None -> sum_values (<[k := v]> m) = sum_values m + v.
Proof.
  intros Hk. unfold sum_values. rewrite map_fold_insert_L; [done| |done].
  intros. ring.
Qed.

Lemma sum_values_lookup m k v :
  m !! k = Some v -> sum_values m = sum_values (delete k m) + v.
Proof.
  intros Hk. rewrite <- (insert_id m k v Hk) at 1.
  rewrite <- insert_delete_eq. apply sum_values_insert, lookup_delete_eq.
Qed.

Lemma sum_values_defaultdict_add m k x :
  sum_values (defaultdict_add k x m) = sum_values m + x.
Proof.
  unfold defaultdict_add. destruct (m !! k) as [v|] eqn:Hk; simpl.
  - rewrite <- insert_delete_eq, sum_values_insert by apply lookup_delete_eq.
    rewrite (sum_values_lookup m k v Hk). ring.
  - rewrite sum_values_insert by done. ring.
Qed.



Lemma sum_values_ones m :
  (forall k v, m !! k = Some v -> v = 1) -> sum_values m = Qc_of_Z (Z.of_nat (size m)).
Proof.
  induction m as [|k v m Hk IH] using map_ind; intros Hm.
  - rewrite sum_values_empty, map_size_empty. symmetry. apply Z2Qc_inj_0.
  - rewrite sum_values_insert, map_size_insert_None by done.
    rewrite IH.
    + rewrite (Hm k v) by (by rewrite lookup_insert_eq).
      rewrite Nat2Z.inj_succ, <- Z.add_1_r, Z2Qc_inj_add. by rewrite Z2Qc_inj_1.
    + intros j w Hj. apply (Hm j). rewrite lookup_insert_ne; [done|]. by intros ->; rewrite Hk in Hj.
Qed.

Lemma div_values_ok m t :
  m = ∅ \/ t <> 0 -> div_values m t = inr ((fun v => v / t) <$> m).
Proof.
  intros [->|Ht].
  - unfold div_values. by rewrite map_fold_empty, fmap_empty.
  - induction m as [|k v m Hk IH] using map_ind.
    + unfold div_values. by rewrite map_fold_empty, fmap_empty.
    + unfold div_values in *. rewrite map_fold_insert_L; [|clear IH|done].
      * rewrite IH. unfold py_truediv. destruct (decide (t = 0)); [done|]. by rewrite fmap_insert.
      * intros j1 j2 z1 z2 [e|y] Hne _ _; [done|].
        unfold py_truediv. destruct (decide (t = 0)); [done|]. by rewrite insert_insert_ne.
Qed.

Lemma div_values_zero m :
  m <> ∅ -> div_values m 0 = inl ZeroDivisionError.
Proof.
  induction m as [|k v m Hk IH] using map_ind; intros Hm; [by destruct Hm|].
  unfold div_values in *. rewrite map_fold_insert_L; [|clear IH|done].
  - destruct (decide (m = ∅)) as [->|Hne].
    + rewrite map_fold_empty. unfold py_truediv. by destruct (decide (0 = 0)).
    + by rewrite IH.
  - intros j1 j2 z1 z2 [e|y] Hne _ _; [done|].
    unfold py_truediv. by destruct (decide (0 = 0)).
Qed.

End Sums.

(** ** [add_problem] *)

Section AddProblem.
Context `{ExternalTypes}.

Lemma str_in_spec x l : str_in x l = true <-> x ∈ l.
Proof.
  unfold str_in. rewrite existsb_exists, list_elem_of_In. split.
  - intros (y & Hy & ->%String.eqb_eq). done.
  - intros Hx. exists x. split; [done|apply String.eqb_refl].
Qed.

(** C5. [add_problem] raises [ValueError] exactly when the problem type
    is none of the six kinds; then the object is unchanged.  Otherwise it
    returns, [problem_type] and [read_data_fn] are the old mappings with
    the entry of the name inserted, and nothing else changes. *)
Theorem add_problem_spec (problem_name problem_type : string)
    (processing_fn : option Callable) (self : BaseParams) :
  let valid := problem_type ∈ ["cls"; "seq_tag"; "seq2seq_tag"; "seq2seq_text";
                               "multi_cls"; "pretrain"] in
  let '(r, self') := add_problem problem_name problem_type processing_fn self in
  (r = inl ValueError <-> ~ valid)
  /\ (r = inl ValueError -> forall a, self' a = self a)
  /\ (r <> inl ValueError ->
      r = inr tt
      /\ self' attr.problem_type = <[problem_name := problem_type]> (self attr.problem_type)
      /\ self' attr.read_data_fn = <[problem_name := processing_fn]> (self attr.read_data_fn)
      /\ forall a, a <> attr.problem_type -> a <> attr.read_data_fn -> self' a = self a).
Proof.
  intros valid. unfold add_problem.
  destruct (str_in problem_type problem_kinds) eqn:E; simpl.
  - apply str_in_spec in E. split; [|split].
    + split; [done|]. intros Hn. by destruct Hn.
    + done.
    + intros _. split; [done|]. split; [done|]. split; [done|].
      intros a Ha Ha'. by destruct a.
  - assert (~ valid) as Hn. { intros Hv. apply str_in_spec in Hv. unfold problem_kinds in E. congruence. }
    split; [|split]; done.
Qed.
End AddProblem.

(** The docstring's example meets the hypothesis of C1. *)
Lemma parse_problem_string_witness :
  let chunks := [["cws"]; ["POS"]; ["weibo_ner"; "weibo_cws"]] in
  exists problem_list self',
    parse_problem_string "cws|POS|weibo_ner&weibo_cws" four_problems
    = (inr (problem_list, chunks), self')
    /\ StronglySorted String.le problem_list
    /\ problem_list ≡ₚ concat chunks
    /\ Forall2
         (fun (d : gmap string string) chunk =>
            forall name,
              d !! name = if decide (name ∈ chunk)
                          then (four_problems attr.problem_type : gmap string string) !! name
                          else None)
         (self' attr.run_problem_list) chunks.
Proof.
  intros chunks.
  apply (parse_problem_string_spec "cws|POS|weibo_ner&weibo_cws" four_problems).
  intros name Hin. apply list_elem_of_In in Hin. simpl in Hin.
  destruct Hin as [<-|[<-|[<-|[<-|[]]]]]; eexists; reflexivity.
Defined.

(** Induction on a loop: an invariant of the body is an invariant of the loop. *)
Lemma for_each_inv {S A B} (I : B -> S -> Prop) (l : list A) (body : A -> B -> M S B) :
  (forall x acc s acc' s', x ∈ l -> I acc s -> body x acc s = (inr acc', s') -> I acc' s') ->
  forall acc s acc' s', I acc s -> for_each l body acc s = (inr acc', s') -> I acc' s'.
Proof.
  induction l as [|x l IH]; intros Hbody acc s acc' s' HI Hrun; simpl in Hrun.
  - by inversion Hrun; subst.
  - unfold mbind, M_bind in Hrun. destruct (body x acc s) as [[e|acc1] s1] eqn:E; [done|].
    eapply IH; [|eapply Hbody; [left| |]; eassumption|exact Hrun].
    intros. eapply Hbody; [by right|eassumption..].
Qed.

(** ** [set_data_sampling_strategy]: 'data_balanced' *)

Section DataBalanced.
Context `{ExternalTypes}.
Local Open Scope Qc_scope.
Implicit Types (self : BaseParams) (acc : gmap string Qc) (data_num : gmap string Z).

Lemma count_problem_loop self data_num k chunk : forall acc,
  self attr.data_num_dict = Some data_num ->
  (forall p, p ∈ chunk -> is_Some (data_num !! p)) ->
  for_each chunk (count_problem k) acc self = (inr (counted data_num k chunk acc), self).
Proof.
  induction chunk as [|p chunk IH]; intros acc Hd Hp; simpl; [done|].
  destruct (Hp p) as [n Hn]; [left|].
  eapply bind_ok.
  { unfold count_problem. eapply bind_ok.
    { eapply bind_ok; [reflexivity|]. simpl. rewrite Hd. reflexivity. }
    mrun. }
  rewrite IH; [|done|intros; apply Hp; by right]. by rewrite Hn.
Qed.


Lemma counted_is_Some data_num k chunk : forall acc j,
  is_Some (counted data_num k chunk acc !! j)
  <-> is_Some (acc !! j) \/ (k = j /\ chunk <> []).
Proof.
  induction chunk as [|p chunk IH]; intros acc j; simpl.
  - split; [by left|]. by intros [?|[_ ?]].
  - rewrite IH. unfold defaultdict_add. destruct (decide (k = j)) as [->|Hne].
    + rewrite lookup_insert_eq. split; [by right|by left].
    + rewrite lookup_insert_ne by done. split; (intros [?|[? _]]; [by left|done]).
Qed.

Lemma counted_sum data_num k chunk : forall acc,
  sum_values (counted data_num k chunk acc) = sum_values acc + Qc_of_Z (rows_of data_num chunk).
Proof.
  induction chunk as [|p chunk IH]; intros acc; simpl.
  - rewrite Z2Qc_inj_0. ring.
  - rewrite IH, sum_values_defaultdict_add, Z2Qc_inj_add. ring.
Qed.

Lemma count_chunk_loop self data_num chunks : forall acc,
  self attr.data_num_dict = Some data_num ->
  (forall c p, c ∈ chunks -> p ∈ c -> is_Some (data_num !! p)) ->
  for_each chunks count_chunk acc self = (inr (counted_all data_num chunks acc), self).
Proof.
  induction chunks as [|c chunks IH]; intros acc Hd Hp; simpl; [done|].
  eapply bind_ok.
  { unfold count_chunk. apply count_problem_loop; [done|]. intros p Hin. eapply Hp; [left|done]. }
  apply IH; [done|]. intros c' p Hc'. apply Hp. by right.
Qed.


Lemma counted_all_is_Some data_num chunks : forall acc j,
  is_Some (counted_all data_num chunks acc !! j)
  <-> is_Some (acc !! j) \/ exists c, c ∈ chunks /\ key_of c = j /\ c <> [].
Proof.
  induction chunks as [|c chunks IH]; intros acc j; simpl.
  - split; [by left|]. intros [?|(c & Hc & _)]; [done|]. by apply elem_of_nil in Hc.
  - rewrite IH, counted_is_Some. split.
    + intros [[?|[? ?]]|(c' & Hc' & ?)]; [by left|right; exists c; split; [left|done]|].
      right. exists c'. split; [by right|done].
    + intros [?|(c' & Hc' & Hk & Hne)]; [by left; left|].
      apply elem_of_cons in Hc' as [->|Hc']; [left; by right|]. right. by exists c'.
Qed.

Lemma counted_all_sum data_num chunks : forall acc,
  sum_values (counted_all data_num chunks acc)
  = sum_values acc + Qc_of_Z (total_rows data_num chunks).
Proof.
  induction chunks as [|c chunks IH]; intros acc; simpl.
  - rewrite Z2Qc_inj_0. ring.
  - rewrite IH, counted_sum, Z2Qc_inj_add. ring.
Qed.


Lemma get_problem_chunk_false self chunks :
  self attr.problem_chunk = Some chunks ->
  get_problem_chunk false self = (inr chunks, self).
Proof.
  intros Hpc. unfold get_problem_chunk. eapply bind_ok; [reflexivity|]. simpl.
  by rewrite Hpc.
Qed.

Lemma chunk_key_loop self chunks : forall res,
  for_each chunks chunk_key res self = (inr (res ++ (key_of <$> chunks)), self).
Proof.
  induction chunks as [|c chunks IH]; intros res; simpl.
  - by rewrite app_nil_r.
  - eapply bind_ok; [reflexivity|]. rewrite IH. by rewrite <- app_assoc.
Qed.

Lemma get_problem_chunk_true self chunks :
  self attr.problem_chunk = Some chunks ->
  get_problem_chunk true self = (inr (key_of <$> chunks), self).
Proof.
  intros Hpc. unfold get_problem_chunk. eapply bind_ok.
  { eapply bind_ok; [reflexivity|]. simpl. rewrite Hpc. reflexivity. }
  apply chunk_key_loop.
Qed.

Lemma finish_sampling self counts strategy :
  problem_chunk_data_num strategy self = (inr counts, self) ->
  counts = ∅ \/ sum_values counts <> 0 ->
  let w := (fun v => v / sum_values counts) <$> counts in
  set_data_sampling_strategy strategy None self
  = (inr w, setattr attr.problem_sampling_weight_dict (Some w) self).
Proof.
  intros Hrun Hok w. unfold set_data_sampling_strategy. simpl.
  eapply bind_ok; [exact Hrun|]. cbv beta zeta.
  eapply bind_ok; [unfold liftE; by rewrite div_values_ok|]. reflexivity.
Qed.

Lemma data_balanced_counts self chunks data_num :
  self attr.problem_chunk = Some chunks ->
  self attr.data_num_dict = Some data_num ->
  (forall c p, c ∈ chunks -> p ∈ c -> is_Some (data_num !! p)) ->
  problem_chunk_data_num "data_balanced" self
  = (inr (counted_all data_num chunks ∅), self).
Proof.
  intros Hpc Hd Hp. unfold problem_chunk_data_num. simpl.
  eapply bind_ok; [by apply get_problem_chunk_false|]. by apply count_chunk_loop.
Qed.


End DataBalanced.

Lemma bind_inv {S A B} (m : M S A) (k : A -> M S B) s b s' :
  (m ≫= k) s = (inr b, s') ->
  exists a s1, m s = (inr a, s1) /\ k a s1 = (inr b, s').
Proof.
  unfold mbind, M_bind. destruct (m s) as [[e|a] s1]; [done|]. intros Hk. by exists a, s1.
Qed.

(** ** [set_data_sampling_strategy]: 'problem_balanced', and errors *)

Section ProblemBalanced.
Context `{ExternalTypes}.
Local Open Scope Qc_scope.
Implicit Types (self : BaseParams) (acc : gmap string Qc) (data_num : gmap string Z).

Lemma count_one_loop self keys : forall acc,
  for_each keys count_one acc self = (inr (ones keys acc), self).
Proof.
  induction keys as [|k keys IH]; intros acc; simpl; [done|].
  eapply bind_ok; [reflexivity|]. apply IH.
Qed.

Lemma ones_lookup keys : forall acc j,
  ones keys acc !! j = if decide (j ∈ keys) then Some 1 else acc !! j.
Proof.
  unfold ones. induction keys as [|k keys IH]; intros acc j; cbn [fold_left].
  - rewrite decide_False; [done|]. apply not_elem_of_nil.
  - rewrite IH. destruct (decide (j ∈ keys)) as [Hin|Hin].
    + rewrite decide_True; [done|by right].
    + destruct (decide (k = j)) as [->|Hne].
      * rewrite lookup_insert_eq, decide_True; [done|left].
      * rewrite lookup_insert_ne by done. rewrite decide_False; [done|].
        by intros [->|?]%elem_of_cons.
Qed.

Lemma ones_size keys :
  size (ones keys ∅) = size (list_to_set keys : gset string).
Proof.
  rewrite <- size_dom. f_equal. apply set_eq. intros j.
  rewrite elem_of_dom, ones_lookup, elem_of_list_to_set, lookup_empty.
  destruct (decide (j ∈ keys)); split; done.
Qed.

Lemma problem_balanced_counts self chunks :
  self attr.problem_chunk = Some chunks ->
  problem_chunk_data_num "problem_balanced" self
  = (inr (ones (key_of <$> chunks) ∅), self).
Proof.
  intros Hpc. unfold problem_chunk_data_num. simpl.
  eapply bind_ok; [by apply get_problem_chunk_true|]. apply count_one_loop.
Qed.

Lemma ones_sum keys :
  sum_values (ones keys ∅) = Qc_of_Z (Z.of_nat (size (list_to_set keys : gset string))).
Proof.
  rewrite <- ones_size. apply sum_values_ones. intros k v. rewrite ones_lookup.
  destruct (decide (k ∈ keys)); [by intros [= <-]|by rewrite lookup_empty].
Qed.

Lemma ones_ok keys :
  ones keys ∅ = ∅ \/ sum_values (ones keys ∅) <> 0.
Proof.
  destruct keys as [|k keys]; [by left|right].
  rewrite ones_sum. rewrite <- Z2Qc_inj_0. intros Hz%Z2Qc_inj.
  assert (size (list_to_set (k :: keys) : gset string) <> 0%nat); [|lia].
  apply size_non_empty_iff. rewrite list_to_set_cons. set_solver.
Qed.

(** C3, as amended.  'problem_balanced' returns and stores a dict that
    gives the key of every chunk the weight 1 / n, where n is the number
    of distinct keys; n is the number of chunks where their keys are
    distinct. *)
Theorem problem_balanced_weights self chunks :
  self attr.problem_chunk = Some chunks ->
  let n := size (list_to_set (key_of <$> chunks) : gset string) in
  exists w self',
    set_data_sampling_strategy "problem_balanced" None self = (inr w, self')
    /\ self' attr.problem_sampling_weight_dict = Some w
    /\ (forall c, c ∈ chunks -> w !! key_of c = Some (1 / Qc_of_Z (Z.of_nat n)))
    /\ (forall k, is_Some (w !! k) -> exists c, c ∈ chunks /\ key_of c = k)
    /\ (NoDup (key_of <$> chunks) -> n = length chunks).
Proof.
  intros Hpc n.
  pose proof (problem_balanced_counts self chunks Hpc) as Hcounts.
  eexists _, _. split; [apply (finish_sampling _ _ _ Hcounts), ones_ok|].
  split; [apply setattr_eq|]. split; [|split].
  - intros c Hc. rewrite lookup_fmap, ones_lookup, decide_True by (by apply list_elem_of_fmap_2).
    simpl. by rewrite ones_sum.
  - intros k Hk. rewrite lookup_fmap in Hk. apply fmap_is_Some in Hk.
    rewrite ones_lookup in Hk. destruct (decide (k ∈ key_of <$> chunks)) as [Hin|Hin].
    + apply list_elem_of_fmap_1 in Hin as (c & -> & Hc). by exists c.
    + rewrite lookup_empty in Hk. by destruct Hk.
  - intros Hnd. unfold n. rewrite size_list_to_set by done. by rewrite length_fmap.
Qed.

(** ** Both strategies give a probability distribution *)






End ProblemBalanced.

Lemma Qc_this_neq (x y : Qc) : this x <> this y -> Some x <> Some y.
Proof. intros Hne [= ->]. done. Qed.



(** C3 as stated fails when two chunks share a key: for 'a|a' the weight
    of 'a' is 1, not 1 / 2. *)
Lemma problem_balanced_shared_key :
  exists w self',
    set_data_sampling_strategy "problem_balanced" None two_equal_chunks = (inr w, self')
    /\ w !! key_of ["a"] = Some 1%Qc
    /\ w !! key_of ["a"] <> Some (1 / Qc_of_Z (Z.of_nat (length [["a"]; ["a"]])))%Qc.
Proof.
  pose proof (problem_balanced_counts two_equal_chunks [["a"]; ["a"]] eq_refl) as Hcounts.
  assert (w_a : ((fun v => v / sum_values (ones (key_of <$> [["a"]; ["a"]]) ∅))%Qc
                   <$> ones (key_of <$> [["a"]; ["a"]]) ∅) !! key_of ["a"] = Some 1%Qc).
  { rewrite lookup_fmap, ones_lookup, decide_True by (by left). rewrite ones_sum.
    reflexivity. }
  eexists _, _. split; [apply (finish_sampling _ _ _ Hcounts), ones_ok|].
  split; [exact w_a|]. rewrite w_a. apply Qc_this_neq. vm_compute. discriminate.
Qed.

(** Two chunks meet the hypothesis of C3. *)
Lemma problem_balanced_weights_witness :
  let chunks := [["cws"]; ["POS"; "a"]] in
  let n := size (list_to_set (key_of <$> chunks) : gset string) in
  exists w self',
    set_data_sampling_strategy "problem_balanced" None two_chunks = (inr w, self')
    /\ self' attr.problem_sampling_weight_dict = Some w
    /\ (forall c, c ∈ chunks -> w !! key_of c = Some (1 / Qc_of_Z (Z.of_nat n))%Qc)
    /\ (forall k, is_Some (w !! k) -> exists c, c ∈ chunks /\ key_of c = k)
    /\ (NoDup (key_of <$> chunks) -> n = length chunks).
Proof.
  intros chunks n. apply (problem_balanced_weights two_chunks chunks). reflexivity.
Defined.


(** ** Postconditions *)

Section Post.
Context {S : Type}.

Lemma post_run {A} (m : M S A) s Q a s' :
  post m s Q -> m s = (inr a, s') -> Q a s'.
Proof. unfold post. intros Hp Hm. by rewrite Hm in Hp. Qed.

Lemma post_bind {A B} (m : M S A) (k : A -> M S B) s Q :
  post m s (fun a s' => post (k a) s' Q) -> post (m ≫= k) s Q.
Proof. unfold post, mbind, M_bind. by destruct (m s) as [[e|a] s']. Qed.

Lemma post_ret {A} (a : A) (s : S) (Q : A -> S -> Prop) : Q a s -> post (mret a) s Q.
Proof. done. Qed.

Lemma post_raise {A} e (s : S) (Q : A -> S -> Prop) : post (raise e) s Q.
Proof. done. Qed.

Lemma post_require {A} name (o : option A) (s : S) Q :
  (forall x, o = Some x -> Q x s) -> post (require name o) s Q.
Proof. destruct o; [|done]. intros HQ. by apply HQ. Qed.

Lemma post_liftE {A} (r : outcome A) (s : S) Q :
  (forall x, r = inr x -> Q x s) -> post (liftE r) s Q.
Proof. unfold post, liftE. destruct r; [done|]. intros HQ. by apply HQ. Qed.

Lemma post_getitem {A} (d : gmap string A) k (s : S) Q :
  (forall x, d !! k = Some x -> Q x s) -> post (getitem d k) s Q.
Proof. unfold post, getitem. destruct (d !! k); [|done]. intros HQ. by apply HQ. Qed.

End Post.

Section PostWorld.
Context `{External}.
Implicit Types (self : BaseParams) (w : World).

Lemma post_set_self a v self w Q :
  Q tt (setattr a v self, w) -> post (set_self a v) (self, w) Q.
Proof. done. Qed.

Lemma post_get_self a self w Q :
  Q (self a) (self, w) -> post (get_self a) (self, w) Q.
Proof. done. Qed.

Lemma post_io {A} (m : M World A) self w Q :
  (forall a w', Q a (self, w')) -> post (io m) (self, w) Q.
Proof. unfold post, io. destruct (m w) as [[e|a] w']; [done|]. intros HQ. apply HQ. Qed.

Lemma post_try_pass_io (m : M World unit) self w Q :
  (forall w', Q tt (self, w')) -> post (try_pass (io m)) (self, w) Q.
Proof. unfold post, try_pass, io. simpl. destruct (m w) as [r w']. intros HQ. apply HQ. Qed.

Lemma post_path_exists path self w Q :
  (forall b, Q b (self, w)) -> post (path_exists path) (self, w) Q.
Proof. intros HQ. apply HQ. Qed.

End PostWorld.

Ltac wp_step :=
  lazymatch goal with
  | |- post (mbind _ _) _ _ => apply post_bind
  | |- post (mret _) _ _ => apply post_ret
  | |- post (raise _) _ _ => apply post_raise
  | |- post (set_self ?a ?v) (?self, ?w) ?Q => refine (post_set_self a v self w Q _)
  | |- post (get_self ?a) (?self, ?w) ?Q => refine (post_get_self a self w Q _)
  | |- post (require _ _) _ _ => apply post_require; intros ? ?
  | |- post (liftE _) _ _ => apply post_liftE; intros ? ?
  | |- post (io _) (_, _) _ => apply post_io; intros ? ?
  | |- post (try_pass (io _)) (_, _) _ => apply post_try_pass_io; intros ?
  | |- post (path_exists _) (_, _) _ => apply post_path_exists; intros ?
  | |- post (if ?b then _ else _) _ _ => destruct b eqn:?
  | |- post (match ?x with _ => _ end) _ _ => destruct x eqn:?
  end; cbv beta.

Ltac wp := repeat wp_step.

(** ** [prepare_dir] *)

Section PrepareDir.
Context `{External}.
Implicit Types (self : BaseParams) (w : World).

End PrepareDir.

Lemma post_any {S A} (m : M S A) s (Q : A -> S -> Prop) :
  (forall a s', Q a s') -> post m s Q.
Proof. unfold post. destruct (m s) as [[e|a] s']; [done|]. intros HQ. apply HQ. Qed.

(** ** [assign_problem]: truncation and floor agree on non-negative numbers *)






Section Schedule.
Context `{External}.
Implicit Types (self : BaseParams) (w : World).

Lemma dup_fac_loop_run problem_list : forall dup_fac self r self',
  dup_fac_loop problem_list dup_fac self = (inr r, self') ->
  self' = self
  /\ r = if has_pretrain (self attr.problem_type) problem_list
         then Some (self attr.dupe_factor)
         else match problem_list with [] => dup_fac | _ => Some 1%Z end.
Proof.
  induction problem_list as [|p l IH]; intros d0 self r self' Hrun; simpl in Hrun.
  - by inversion Hrun.
  - apply bind_inv in Hrun as (registry & s1 & Hread & Hrun). inversion Hread; subst registry s1.
    apply bind_inv in Hrun as (ty & s1 & Hget & Hrun).
    unfold getitem in Hget. simpl in Hget.
    destruct ((self attr.problem_type : gmap string string) !! p) as [ty'|] eqn:Hp; [|done].
    inversion Hget; subst ty' s1. simpl. rewrite Hp.
    destruct (String.eqb ty "pretrain") eqn:Hty.
    + apply String.eqb_eq in Hty as ->. rewrite bool_decide_eq_true_2 by done. simpl.
      apply bind_inv in Hrun as (d & s1 & Hread2 & Hret). inversion Hread2; subst d s1.
      by inversion Hret.
    + apply String.eqb_neq in Hty. rewrite bool_decide_eq_false_2 by congruence. simpl.
      apply IH in Hrun as [-> ->]. split; [done|].
      destruct (has_pretrain _ l); [done|]. by destruct l.
Qed.

Lemma post_dup_fac_loop problem_list self w Q :
  (forall r,
     r = (if has_pretrain (self attr.problem_type) problem_list
          then Some (self attr.dupe_factor)
          else match problem_list with [] => None | _ => Some 1%Z end) ->
     Q r (self, w)) ->
  post (liftP (dup_fac_loop problem_list None)) (self, w) Q.
Proof.
  intros HQ. unfold post, liftP.
  destruct (dup_fac_loop problem_list None self) as [[e|r] self'] eqn:Hrun; [done|].
  apply dup_fac_loop_run in Hrun as [-> ->]. by apply HQ.
Qed.


End Schedule.

Lemma run_inr {S A} (r : outcome A * S) (a : A) :
  fst r = inr a -> r = (inr a, snd r).
Proof. destruct r as [r s]. simpl. by intros ->. Qed.



(** * [to_json] and [from_json] *)

Module PersistenceProofs.
Import Persistence.

Lemma json_dumps_list l :
  json_dumps (PyList l) = match dumps_list l with inl e => inl e | inr js => inr (JArr js) end.
Proof. reflexivity. Qed.

Lemma json_dumps_tuple l :
  json_dumps (PyTuple l) = match dumps_list l with inl e => inl e | inr js => inr (JArr js) end.
Proof. reflexivity. Qed.

Lemma json_dumps_dict items :
  json_dumps (PyDict items)
  = match dumps_items items with inl e => inl e | inr ms => inr (JObj ms) end.
Proof.
  cbn [json_dumps].
  match goal with
  | |- match ?f items with _ => _ end = _ => assert (f items = dumps_items items) as ->
  end; [|done].
  induction items as [|[k x] items IH]; [done|].
  change (dumps_items ((k, x) :: items)) with
    (match json_key k with
     | inl e => inl e
     | inr name =>
         match json_dumps x with
         | inl e => inl e
         | inr j => match dumps_items items with
                    | inl e => inl e
                    | inr ms => inr ((name, j) :: ms)
                    end
         end
     end).
  rewrite <- IH. reflexivity.
Qed.

Lemma dumps_items_cons k x items :
  dumps_items ((k, x) :: items)
  = match json_key k with
    | inl e => inl e
    | inr name =>
        match json_dumps x with
        | inl e => inl e
        | inr j => match dumps_items items with
                   | inl e => inl e
                   | inr ms => inr ((name, j) :: ms)
                   end
        end
    end.
Proof. reflexivity. Qed.

Lemma dumps_items_filter (l : list (string * pyval)) :
  dumps_items (map (fun item => (KStr (fst item), snd item))
                   (List.filter (fun item => serializable (snd item)) l))
  = inr (omap encode_item l).
Proof.
  induction l as [|[k v] l IH]; [done|].
  cbn [List.filter omap list_omap snd fst]. unfold serializable at 1, encode_item at 1.
  cbn [snd fst]. destruct (json_dumps v) as [e|j] eqn:Hv; [exact IH|].
  cbn [map fst snd]. rewrite dumps_items_cons. cbn [json_key]. by rewrite Hv, IH.
Qed.

Lemma encoded_elem_of self name j :
  (name, j) ∈ encoded self <-> exists v, self !! name = Some v /\ json_dumps v = inr j.
Proof.
  unfold encoded. rewrite list_elem_of_omap. split.
  - intros ([k v] & Hin & Henc). apply elem_of_map_to_list in Hin.
    unfold encode_item in Henc. simpl in Henc.
    destruct (json_dumps v) as [e|j'] eqn:Hv; [done|]. injection Henc as -> ->. by exists v.
  - intros (v & Hv & Hj). exists (name, v). split; [by apply elem_of_map_to_list|].
    unfold encode_item. simpl. by rewrite Hj.
Qed.

Lemma encoded_fst_sublist (l : list (string * pyval)) :
  sublist (omap encode_item l).*1 l.*1.
Proof.
  induction l as [|[k v] l IH]; [done|]. cbn [omap list_omap]. unfold encode_item at 1.
  cbn [fst snd]. destruct (json_dumps v); simpl.
  - by apply sublist_cons.
  - by apply sublist_skip.
Qed.

Lemma encoded_NoDup self : NoDup (encoded self).*1.
Proof.
  apply (sublist_NoDup _ (map_to_list self).*1); [|apply encoded_fst_sublist].
  apply NoDup_fst_map_to_list.
Qed.

Lemma to_json_run self (fs : Files) path :
  self !! "params_path" = Some (PyStr path) ->
  to_json (self, fs) = (inr tt, (self, <[path := JObj (encoded self)]> fs)).
Proof.
  intros Hpath. unfold to_json.
  eapply bind_ok; [reflexivity|]. cbv beta zeta.
  eapply bind_ok; [unfold getattr; cbn [fst]; by rewrite Hpath|].
  unfold json_dump_file. eapply bind_ok.
  - unfold liftE, dump_dict. rewrite json_dumps_dict, dumps_items_filter. reflexivity.
  - reflexivity.
Qed.


Lemma dict_set_fresh k v d : k ∉ d.*1 -> dict_set k v d = d ++ [(k, v)].
Proof.
  induction d as [|[k' v'] d IH]; intros Hk; simpl; [done|].
  rewrite fmap_cons in Hk. apply not_elem_of_cons in Hk as [Hne Hk].
  rewrite decide_False by done. by rewrite IH.
Qed.

Lemma fold_dict_set l : forall acc,
  NoDup (acc ++ l).*1 ->
  fold_left (fun d '(k, v) => dict_set k v d) l acc = acc ++ l.
Proof.
  induction l as [|[k v] l IH]; intros acc Hnd; simpl.
  - by rewrite app_nil_r.
  - rewrite dict_set_fresh.
    + rewrite IH; [by rewrite <- app_assoc|]. by rewrite <- app_assoc.
    + rewrite fmap_app, fmap_cons in Hnd.
      apply NoDup_app in Hnd as (_ & Hdisj & _). intros Hin. apply (Hdisj k Hin). left.
Qed.

Lemma dict_of_pairs_NoDup l : NoDup l.*1 -> dict_of_pairs l = l.
Proof. intros Hnd. by apply (fold_dict_set l []). Qed.

Lemma json_roundtrip_stable v : forall j,
  json_stable v = true -> json_dumps v = inr j -> json_loads j = v.
Proof.
  induction v as [| | | | |l IH|l IH|items IH| |] using pyval_ind'; intros j Hst Hj;
    try (simpl in Hj; injection Hj as <-; reflexivity); try done.
  - rewrite json_dumps_list in Hj. simpl in Hst.
    destruct (dumps_list l) as [e|js] eqn:Hl; [done|]. injection Hj as <-. simpl. f_equal.
    revert js Hl Hst. induction IH as [|x l Hx _ IHl]; intros js Hl Hst; simpl in *.
    + by injection Hl as <-.
    + apply andb_true_iff in Hst as [Hsx Hsl].
      destruct (json_dumps x) as [e|jx] eqn:Hjx; [done|].
      destruct (dumps_list l) as [e|js'] eqn:Hl'; [done|]. injection Hl as <-. simpl.
      by rewrite (Hx jx Hsx eq_refl), (IHl js' eq_refl Hsl).
  - rewrite json_dumps_dict in Hj. simpl in Hst. apply andb_true_iff in Hst as [Hst Hnd].
    apply bool_decide_eq_true in Hnd.
    destruct (dumps_items items) as [e|ms] eqn:Hms; [done|]. injection Hj as <-. simpl. f_equal.
    assert (map (fun m => (KStr (fst m), json_loads (snd m))) ms = items) as ->;
      [|by apply dict_of_pairs_NoDup].
    clear Hnd. revert ms Hms Hst.
    induction IH as [|[k x] items Hx _ IHitems]; intros ms Hms Hst.
    + by injection Hms as <-.
    + rewrite dumps_items_cons in Hms. cbn [forallb fst snd] in Hst.
      apply andb_true_iff in Hst as [Hsx Hsl]. destruct k as [s| | | |]; try done.
      cbn [json_key] in Hms. simpl in Hx.
      destruct (json_dumps x) as [e|jx] eqn:Hjx; [done|].
      destruct (dumps_items items) as [e|ms'] eqn:Hms'; [done|]. injection Hms as <-.
      cbn [map fst snd]. by rewrite (Hx jx Hsx eq_refl), (IHitems ms' eq_refl Hsl).
Qed.

Lemma restore_loop (ms : list (string * json)) : forall (self : Attrs) (fs : Files),
  for_each (map (fun m => (KStr (fst m), json_loads (snd m))) ms)
    (fun '(att, v) _ =>
       match att with
       | KStr name => py_setattr name v
       | _ => raise TypeError
       end) tt (self, fs)
  = (inr tt, (restore_all ms self, fs)).
Proof.
  induction ms as [|[k j] ms IH]; intros self fs; [done|].
  cbn [map for_each fst snd]. eapply bind_ok; [reflexivity|]. apply IH.
Qed.

Lemma restore_all_notin (ms : list (string * json)) : forall (self : Attrs) name,
  name ∉ ms.*1 -> restore_all ms self !! name = self !! name.
Proof.
  induction ms as [|[k j] ms IH]; intros self name Hname; [done|].
  rewrite fmap_cons in Hname. apply not_elem_of_cons in Hname as [Hne Hname].
  cbn [restore_all fold_left fst snd]. fold (restore_all ms (<[k := json_loads j]> self)).
  rewrite IH by done. by rewrite lookup_insert_ne.
Qed.

Lemma restore_all_in (ms : list (string * json)) : forall (self : Attrs) name j,
  NoDup ms.*1 -> (name, j) ∈ ms ->
  restore_all ms self !! name = Some (json_loads j).
Proof.
  induction ms as [|[k j'] ms IH]; intros self name j Hnd Hin; [by apply elem_of_nil in Hin|].
  rewrite fmap_cons in Hnd. apply NoDup_cons in Hnd as [Hk Hnd].
  cbn [restore_all fold_left fst snd]. fold (restore_all ms (<[k := json_loads j']> self)).
  apply elem_of_cons in Hin as [[= -> ->]|Hin].
  - rewrite restore_all_notin by done. by rewrite lookup_insert_eq.
  - by apply IH.
Qed.

Lemma restore_all_encoded (src dst : Attrs) name :
  restore_all (encoded src) dst !! name
  = match src !! name with
    | Some v => match json_dumps v with
                | inr j => Some (json_loads j)
                | inl _ => dst !! name
                end
    | None => dst !! name
    end.
Proof.
  assert (forall j, (name, j) ∈ encoded src ->
            restore_all (encoded src) dst !! name = Some (json_loads j)) as Hin
    by (intros j; apply restore_all_in, encoded_NoDup).
  assert ((forall j, (name, j) ∉ encoded src) ->
            restore_all (encoded src) dst !! name = dst !! name) as Hout.
  { intros Hno. apply restore_all_notin. intros ([k j] & -> & Hm)%list_elem_of_fmap_1.
    by apply (Hno j). }
  destruct (src !! name) as [v|] eqn:Hv.
  - destruct (json_dumps v) as [e|j] eqn:Hj.
    + apply Hout. intros j (v' & Hv' & Hj')%encoded_elem_of. congruence.
    + apply Hin, encoded_elem_of. by exists v.
  - apply Hout. intros j (v' & Hv' & Hj')%encoded_elem_of. congruence.
Qed.

Section RoundTrip.
Variable load_transformer_config_dict : pyval -> pyval -> M Files pyval.
Variable assign_problem_args : pyval -> M (Attrs * Files) unit.
Implicit Types (src dst : Attrs) (fs : Files).

Lemma post_getattr name dst fs Q :
  (forall v, dst !! name = Some v -> Q v (dst, fs)) -> post (getattr name) (dst, fs) Q.
Proof. unfold post, getattr. destruct (dst !! name); [|done]. intros HQ. by apply HQ. Qed.

Lemma post_py_setattr name v dst fs (Q : unit -> Attrs * Files -> Prop) :
  Q tt (<[name := v]> dst, fs) -> post (py_setattr name v) (dst, fs) Q.
Proof. done. Qed.

Lemma post_load_config d loading dst fs Q :
  (forall v fs', Q v (dst, fs')) ->
  post (load_config load_transformer_config_dict d loading) (dst, fs) Q.
Proof.
  unfold post, load_config. destruct (load_transformer_config_dict d loading fs) as [[e|v] fs'];
    [done|]. intros HQ. apply HQ.
Qed.

Lemma post_hasattr name dst fs Q :
  (forall b, Q b (dst, fs)) -> post (hasattr name) (dst, fs) Q.
Proof. intros HQ. apply HQ. Qed.

(** C7, as amended.  Let [to_json] write the file of [src], and
    [from_json] on that path return on an object [dst] whose problem is
    not assigned.  Apart from [bert_config] and [bert_decoder_config],
    which [from_json] loads again: an attribute that was saved holds the
    decoding of its encoding, which is the saved value when that has no
    tuple and only distinct string keys in its dicts; an attribute that
    was not saved keeps the value it had in [dst]. *)
Theorem from_json_restores src dst fs path problem_assigned dst' fs' :
  src !! "params_path" = Some (PyStr path) ->
  dst !! "problem_assigned" = Some problem_assigned ->
  py_truthy problem_assigned = false ->
  from_json load_transformer_config_dict assign_problem_args (Some path)
    (dst, snd (snd (to_json (src, fs)))) = (inr tt, (dst', fs')) ->
  forall name, ~ reloaded name ->
    match src !! name with
    | Some v =>
        match json_dumps v with
        | inr j => dst' !! name = Some (json_loads j)
                   /\ (json_stable v = true -> dst' !! name = Some v)
        | inl _ => dst' !! name = dst !! name
        end
    | None => dst' !! name = dst !! name
    end.
Proof.
  intros Hpath Hassigned Hfalse Hrun name Hname.
  assert (dst' !! name = restore_all (encoded src) dst !! name) as Hrestored.
  { rewrite (to_json_run _ _ _ Hpath) in Hrun. cbn [snd] in Hrun.
    refine (post_run _ _ (fun _ s => fst s !! name = restore_all (encoded src) dst !! name)
              _ _ _ Hrun).
    clear Hrun. unfold from_json.
    apply post_bind, post_ret. apply post_bind, post_getattr. intros pa Hpa.
    assert (pa = problem_assigned) as -> by congruence. rewrite Hfalse.
    apply post_bind, post_ret.
    apply post_bind. unfold json_load_file.
    apply post_bind, post_ret. cbn [snd]. rewrite lookup_insert_eq. apply post_ret.
    cbn [json_loads restore_attributes].
    rewrite dict_of_pairs_NoDup.
    2:{ rewrite <- list_fmap_compose.
        apply (NoDup_fmap_2_strong (fun m : string * json => KStr (fst m)));
          [|apply (NoDup_fmap_1 fst), encoded_NoDup].
        intros [k1 j1] [k2 j2] H1 H2 [= Hk]. simpl in Hk. subst k2. f_equal.
        apply encoded_elem_of in H1 as (v1 & Hv1 & Hj1).
        apply encoded_elem_of in H2 as (v2 & Hv2 & Hj2). congruence. }
    apply post_bind. unfold post. rewrite restore_loop.
    apply post_bind, post_getattr. intros config_dict _.
    apply post_bind, post_getattr. intros loading _.
    apply post_bind, post_load_config. intros config fs1.
    apply post_bind, post_py_setattr.
    apply post_bind, post_hasattr. intros has_decoder.
    assert (forall (dst1 : Attrs), 
              dst1 !! name = restore_all (encoded src) dst !! name ->
              forall fs2, post (if py_truthy PyNone then assign_problem_args PyNone else mret tt)
                (dst1, fs2)
                (fun _ s => s.1 !! name = restore_all (encoded src) dst !! name)) as Hend.
    { intros dst1 Hdst1 fs2. done. }
    apply post_bind. destruct has_decoder.
    - apply post_bind, post_getattr. intros config_dict' _.
      apply post_bind, post_getattr. intros loading' _.
      apply post_bind, post_load_config. intros config' fs2.
      apply post_py_setattr. apply Hend.
      rewrite !lookup_insert_ne; [done|..]; intros <-; apply Hname; [by left|by right].
    - apply post_ret. apply Hend.
      rewrite lookup_insert_ne; [done|]. intros <-. apply Hname. by left. }
  rewrite Hrestored, restore_all_encoded.
  destruct (src !! name) as [v|]; [|done].
  destruct (json_dumps v) as [e|j] eqn:Hj; [done|]. split; [done|].
  intros Hst. by rewrite (json_roundtrip_stable v j Hst Hj).
Qed.

End RoundTrip.

Lemma run_inr_pair {S1 S2 A} (r : outcome A * (S1 * S2)) (a : A) :
  fst r = inr a -> r = (inr a, (fst (snd r), snd (snd r))).
Proof. destruct r as [r [s1 s2]]. simpl. by intros ->. Qed.


(** C7 as stated fails on [assigned_details]: the tuple is saved, and a
    fresh object gets a list back. *)
Lemma json_roundtrip_tuple_lost :
  fst reloaded_fresh = inr tt
  /\ trained !! "assigned_details" = Some saved_details
  /\ serializable saved_details = true
  /\ fst (snd reloaded_fresh) !! "assigned_details"
     = Some (PyList [PyStr "cws"; PyInt 2; PyNone; PyNone; PyBool false])
  /\ fst (snd reloaded_fresh) !! "assigned_details" <> trained !! "assigned_details".
Proof.
  assert (fst (snd reloaded_fresh) !! "assigned_details"
          = Some (PyList [PyStr "cws"; PyInt 2; PyNone; PyNone; PyBool false])) as Hlist
    by (vm_compute; reflexivity).
  repeat split; try (vm_compute; reflexivity). rewrite Hlist. vm_compute. discriminate.
Qed.

(** The trained and the fresh object meet the hypotheses of C7: the
    saved [batch_size] is restored, the unsaved [read_data_fn] is kept. *)
Lemma from_json_restores_witness :
  fst (snd reloaded_fresh) !! "batch_size" = Some (PyInt 32)
  /\ fst (snd reloaded_fresh) !! "read_data_fn" = Some (PyDict []).
Proof.
  assert (reloaded_fresh = (inr tt, (fst (snd reloaded_fresh), snd (snd reloaded_fresh))))
    as Hrun by (apply run_inr_pair; vm_compute; reflexivity).
  pose proof (from_json_restores some_loader no_assign trained fresh ∅
                "models/cws_ckpt/params.json" (PyBool false) _ _
                eq_refl eq_refl eq_refl Hrun) as Hthm.
  split.
  - assert (~ reloaded "batch_size") as Hn by (by intros [|]).
    exact (proj2 (Hthm "batch_size" Hn) eq_refl).
  - assert (~ reloaded "read_data_fn") as Hn by (by intros [|]).
    exact (Hthm "read_data_fn" Hn).
Defined.

End PersistenceProofs.

(** * The other methods *)

(** A loop over [l1 ++ l2] is the loop over [l1] followed by the loop over [l2]. *)
Lemma for_each_app {S A B} (l1 l2 : list A) (body : A -> B -> M S B) : forall acc s,
  for_each (l1 ++ l2) body acc s
  = match for_each l1 body acc s with
    | (inr acc1, s1) => for_each l2 body acc1 s1
    | (inl e, s1) => (inl e, s1)
    end.
Proof.
  induction l1 as [|x l1 IH]; intros acc s; [done|].
  cbn [app for_each]. unfold mbind, M_bind.
  destruct (body x acc s) as [[e|acc1] s1]; [done|]. apply IH.
Qed.

(** Decides a closed proposition by computation. *)
Ltac by_decide := apply (bool_decide_unpack _); vm_compute; exact I.

(** ** [add_multiple_problems] and [get_problem_type] *)

Section Registration.
Context `{ExternalTypes}.
Implicit Types (self : BaseParams) (items : list (string * string))
  (fns : option (gmap string (option Callable))).

Lemma add_new_problem_ok fns n t fn self :
  t ∈ problem_kinds -> fn_for fns n = Some fn ->
  add_new_problem fns (n, t) tt self = (inr tt, register_all fns [(n, t)] self).
Proof.
  intros Ht%str_in_spec Hfn.
  change (register_all fns [(n, t)] self) with (register_one fns self (n, t)).
  unfold register_one. cbn [fst snd]. rewrite Hfn. cbn [default].
  unfold add_new_problem. unfold fn_for in Hfn.
  destruct (truthy_dict fns).
  - eapply bind_ok; [by apply getitem_ok|]. unfold add_problem. by rewrite Ht.
  - injection Hfn as <-. eapply bind_ok; [reflexivity|]. unfold add_problem. by rewrite Ht.
Qed.

Lemma add_multiple_problems_run items fns : forall self,
  Forall (fun item => item.2 ∈ problem_kinds) items ->
  (forall n, n ∈ items.*1 -> is_Some (fn_for fns n)) ->
  add_multiple_problems items fns self = (inr tt, register_all fns items self).
Proof.
  unfold add_multiple_problems.
  induction items as [|[n t] items IH]; intros self Hkinds Hfns; [done|].
  apply Forall_cons in Hkinds as [Ht Hkinds].
  destruct (Hfns n) as [fn Hfn]; [left|].
  cbn [for_each]. eapply bind_ok; [by eapply add_new_problem_ok|].
  rewrite IH; [done|done|]. intros m Hm. apply Hfns. by right.
Qed.

Lemma register_all_cons fns item items self :
  register_all fns (item :: items) self = register_all fns items (register_one fns self item).
Proof. reflexivity. Qed.

Lemma register_all_frame fns items : forall self a,
  a <> attr.problem_type -> a <> attr.read_data_fn -> register_all fns items self a = self a.
Proof.
  induction items as [|item items IH]; intros self a H1 H2; [done|].
  rewrite register_all_cons, IH by done. unfold register_one. by rewrite !setattr_ne.
Qed.

Lemma register_all_notin fns items : forall self n,
  n ∉ items.*1 ->
  (register_all fns items self attr.problem_type : gmap string string) !! n
  = (self attr.problem_type : gmap string string) !! n
  /\ (register_all fns items self attr.read_data_fn : gmap string (option Callable)) !! n
     = (self attr.read_data_fn : gmap string (option Callable)) !! n.
Proof.
  induction items as [|[m t] items IH]; intros self n Hn; [done|].
  rewrite fmap_cons in Hn. apply not_elem_of_cons in Hn as [Hne Hn].
  rewrite register_all_cons.
  destruct (IH (register_one fns self (m, t)) n Hn) as [-> ->].
  cbn. by rewrite !lookup_insert_ne.
Qed.

Lemma register_all_in fns items : forall self n t,
  NoDup items.*1 -> (n, t) ∈ items ->
  (register_all fns items self attr.problem_type : gmap string string) !! n = Some t
  /\ (register_all fns items self attr.read_data_fn : gmap string (option Callable)) !! n
     = Some (default None (fn_for fns n)).
Proof.
  induction items as [|[m t'] items IH]; intros self n t Hnd Hin; [by apply elem_of_nil in Hin|].
  rewrite fmap_cons in Hnd. apply NoDup_cons in Hnd as [Hm Hnd].
  rewrite register_all_cons.
  apply elem_of_cons in Hin as [[= -> ->]|Hin].
  - destruct (register_all_notin fns items (register_one fns self (m, t')) m Hm) as [-> ->].
    cbn. by rewrite !lookup_insert_eq.
  - by apply IH.
Qed.

(** X1. When every item has one of the six kinds, the names are
    distinct, and the dict of functions is absent, empty, or has an entry
    for every name, [add_multiple_problems] returns; every given name is
    then registered with its type and with its function ([None] without a
    dict), every other name keeps what it had, and no other attribute
    changes. *)
Theorem add_multiple_problems_registers items fns self :
  NoDup items.*1 ->
  Forall (fun item => item.2 ∈ problem_kinds) items ->
  (forall n, n ∈ items.*1 -> is_Some (fn_for fns n)) ->
  exists self',
    add_multiple_problems items fns self = (inr tt, self')
    /\ (forall n t, (n, t) ∈ items ->
          (self' attr.problem_type : gmap string string) !! n = Some t
          /\ (self' attr.read_data_fn : gmap string (option Callable)) !! n = fn_for fns n)
    /\ (forall n, n ∉ items.*1 ->
          (self' attr.problem_type : gmap string string) !! n
          = (self attr.problem_type : gmap string string) !! n
          /\ (self' attr.read_data_fn : gmap string (option Callable)) !! n
             = (self attr.read_data_fn : gmap string (option Callable)) !! n)
    /\ (forall a, a <> attr.problem_type -> a <> attr.read_data_fn -> self' a = self a).
Proof.
  intros Hnd Hkinds Hfns. exists (register_all fns items self).
  split; [by apply add_multiple_problems_run|]. split; [|split].
  - intros n t Hin. destruct (register_all_in fns items self n t Hnd Hin) as [-> ->].
    split; [done|]. destruct (Hfns n) as [fn ->]; [|done].
    apply list_elem_of_fmap. by exists (n, t).
  - intros n. apply register_all_notin.
  - apply register_all_frame.
Qed.

(** X2. [add_multiple_problems] is not atomic: at the first item whose
    type is none of the six kinds it raises [ValueError]; the items before
    it stay registered, and neither that item nor a later one is. *)
Theorem add_multiple_problems_stops_at_invalid before name ty after fns self :
  NoDup (before ++ (name, ty) :: after).*1 ->
  Forall (fun item => item.2 ∈ problem_kinds) before ->
  (forall n, n ∈ before.*1 -> is_Some (fn_for fns n)) ->
  is_Some (fn_for fns name) ->
  ty ∉ problem_kinds ->
  exists self',
    add_multiple_problems (before ++ (name, ty) :: after) fns self = (inl ValueError, self')
    /\ (forall n t, (n, t) ∈ before ->
          (self' attr.problem_type : gmap string string) !! n = Some t)
    /\ (forall n, n ∈ ((name, ty) :: after).*1 ->
          (self' attr.problem_type : gmap string string) !! n
          = (self attr.problem_type : gmap string string) !! n).
Proof.
  intros Hnd Hkinds Hfns [fn Hfn] Hty.
  rewrite fmap_app in Hnd. apply NoDup_app in Hnd as (Hnd & Hdisj & _).
  exists (register_all fns before self). split; [|split].
  - unfold add_multiple_problems. rewrite for_each_app.
    fold (add_multiple_problems before fns self).
    rewrite add_multiple_problems_run by done.
    cbn [for_each]. apply bind_err. unfold add_new_problem, fn_for in *.
    assert (str_in ty problem_kinds = false) as Hin.
    { destruct (str_in ty problem_kinds) eqn:E; [|done]. by apply str_in_spec in E. }
    destruct (truthy_dict fns).
    + eapply bind_ok; [by apply getitem_ok|]. unfold add_problem. by rewrite Hin.
    + eapply bind_ok; [reflexivity|]. unfold add_problem. by rewrite Hin.
  - intros n t Hin. by destruct (register_all_in fns before self n t Hnd Hin).
  - intros n Hn. apply register_all_notin. intros Hb. by apply (Hdisj n).
Qed.

(** X3. With a non-empty dict of functions that has no entry for one of
    the names, [add_multiple_problems] raises [KeyError] for that name,
    whatever its type; the items before it stay registered, and neither
    that item nor a later one is. *)
Theorem add_multiple_problems_missing_fn before name ty after
    (d : gmap string (option Callable)) self :
  NoDup (before ++ (name, ty) :: after).*1 ->
  Forall (fun item => item.2 ∈ problem_kinds) before ->
  (forall n, n ∈ before.*1 -> is_Some (d !! n)) ->
  d <> ∅ ->
  d !! name = None ->
  exists self',
    add_multiple_problems (before ++ (name, ty) :: after) (Some d) self
    = (inl (KeyError name), self')
    /\ (forall n t, (n, t) ∈ before ->
          (self' attr.problem_type : gmap string string) !! n = Some t)
    /\ (forall n, n ∈ ((name, ty) :: after).*1 ->
          (self' attr.problem_type : gmap string string) !! n
          = (self attr.problem_type : gmap string string) !! n).
Proof.
  intros Hnd Hkinds Hfns Hne Hname.
  assert (truthy_dict (Some d) = true) as Htruthy.
  { simpl. by rewrite bool_decide_eq_false_2. }
  rewrite fmap_app in Hnd. apply NoDup_app in Hnd as (Hnd & Hdisj & _).
  exists (register_all (Some d) before self). split; [|split].
  - unfold add_multiple_problems. rewrite for_each_app.
    fold (add_multiple_problems before (Some d) self).
    rewrite add_multiple_problems_run; [|done|].
    2:{ intros n Hn. unfold fn_for. rewrite Htruthy. by apply Hfns. }
    cbn [for_each]. apply bind_err. unfold add_new_problem. rewrite Htruthy.
    apply bind_err. by apply getitem_err.
  - intros n t Hin. by destruct (register_all_in (Some d) before self n t Hnd Hin).
  - intros n Hn. apply register_all_notin. intros Hb. by apply (Hdisj n).
Qed.

(** X4. After [add_problem] with a valid type, [get_problem_type] of the
    name returns that type, and its result for every other name is what it
    was before. *)
Theorem get_problem_type_after_add_problem name ty fn self :
  ty ∈ problem_kinds ->
  exists self',
    add_problem name ty fn self = (inr tt, self')
    /\ get_problem_type name self' = (inr ty, self')
    /\ forall other, other <> name ->
         fst (get_problem_type other self') = fst (get_problem_type other self).
Proof.
  intros Hty%str_in_spec. eexists. split; [|split].
  - unfold add_problem. rewrite Hty. cbn [negb]. mrun.
  - unfold get_problem_type. eapply bind_ok; [reflexivity|]. apply getitem_ok.
    cbn. apply lookup_insert_eq.
  - intros other Hne. unfold get_problem_type, mbind, M_bind, read, gets, getitem. cbn.
    rewrite lookup_insert_ne by done. by destruct (_ !! other).
Qed.

(** X5. On a fresh object, after [add_multiple_problems] without
    functions, [get_problem_type] returns the type the dict gives a name,
    and raises [KeyError] for a name the dict does not have. *)
Theorem get_problem_type_fresh items name :
  NoDup items.*1 ->
  Forall (fun item => item.2 ∈ problem_kinds) items ->
  exists self',
    add_multiple_problems items None init = (inr tt, self')
    /\ fst (get_problem_type name self')
       = match (list_to_map items : gmap string string) !! name with
         | Some ty => inr ty
         | None => inl (KeyError name)
         end.
Proof.
  intros Hnd Hkinds. exists (register_all None items init).
  split; [apply add_multiple_problems_run; [done|by eexists]|].
  unfold get_problem_type, mbind, M_bind, read, gets, getitem.
  destruct ((list_to_map items : gmap string string) !! name) as [ty|] eqn:Hlookup.
  - apply (elem_of_list_to_map_2 (M := gmap string)) in Hlookup.
    by destruct (register_all_in None items init name ty Hnd Hlookup) as [-> _].
  - apply not_elem_of_list_to_map in Hlookup.
    by destruct (register_all_notin None items init name Hlookup) as [-> _].
Qed.

End Registration.

(** [two_new] on a fresh object meets the hypotheses of X1. *)
Lemma add_multiple_problems_registers_witness :
  exists self' : @BaseParams trivial_types,
    add_multiple_problems two_new None init = (inr tt, self')
    /\ (self' attr.problem_type : gmap string string) !! "ner" = Some "seq_tag"
    /\ (self' attr.problem_type : gmap string string) !! "pos" = None.
Proof.
  assert (NoDup two_new.*1) as Hnd by by_decide.
  assert (Forall (fun item => item.2 ∈ problem_kinds) two_new) as Hkinds by by_decide.
  assert (forall n, n ∈ two_new.*1 -> is_Some (@fn_for trivial_types None n)) as Hfns
    by (intros n _; eexists; reflexivity).
  destruct (add_multiple_problems_registers (H := trivial_types) two_new None init
              Hnd Hkinds Hfns) as (self' & Hrun & Hin & Hout & _).
  exists self'. split; [exact Hrun|]. split.
  - apply (Hin "ner" "seq_tag"). by_decide.
  - apply (Hout "pos"). by_decide.
Defined.

(** An invalid type after one valid item: the hypotheses of X2. *)
Lemma add_multiple_problems_stops_at_invalid_witness :
  exists self' : @BaseParams trivial_types,
    add_multiple_problems [("cws", "seq_tag"); ("bad", "regression"); ("ner", "cls")] None init
    = (inl ValueError, self')
    /\ (self' attr.problem_type : gmap string string) !! "cws" = Some "seq_tag"
    /\ (self' attr.problem_type : gmap string string) !! "ner" = None.
Proof.
  assert (NoDup ([("cws", "seq_tag")] ++ ("bad", "regression") :: [("ner", "cls")]).*1)
    as Hnd by by_decide.
  assert (Forall (fun item : string * string => item.2 ∈ problem_kinds) [("cws", "seq_tag")])
    as Hkinds by by_decide.
  assert (forall n, n ∈ [("cws", "seq_tag")].*1 -> is_Some (@fn_for trivial_types None n))
    as Hfns by (intros n _; eexists; reflexivity).
  assert (is_Some (@fn_for trivial_types None "bad")) as Hfn by (eexists; reflexivity).
  assert ("regression" ∉ problem_kinds) as Hty by by_decide.
  destruct (add_multiple_problems_stops_at_invalid (H := trivial_types)
              [("cws", "seq_tag")] "bad" "regression" [("ner", "cls")] None init
              Hnd Hkinds Hfns Hfn Hty) as (self' & Hrun & Hin & Hout).
  exists self'. split; [exact Hrun|]. split.
  - apply (Hin "cws" "seq_tag"). by_decide.
  - apply (Hout "ner"). by_decide.
Defined.

(** A dict of functions that lacks 'ner': the hypotheses of X3. *)
Lemma add_multiple_problems_missing_fn_witness :
  exists self' : @BaseParams trivial_types,
    add_multiple_problems [("cws", "cls"); ("ner", "cls")] (Some {["cws" := Some tt]}) init
    = (inl (KeyError "ner"), self')
    /\ (self' attr.problem_type : gmap string string) !! "cws" = Some "cls"
    /\ (self' attr.problem_type : gmap string string) !! "ner" = None.
Proof.
  assert (NoDup ([("cws", "cls")] ++ ("ner", "cls") :: []).*1) as Hnd by by_decide.
  assert (Forall (fun item : string * string => item.2 ∈ problem_kinds) [("cws", "cls")])
    as Hkinds by by_decide.
  assert (forall n, n ∈ [("cws", "cls")].*1 ->
            is_Some (({["cws" := Some tt]} : gmap string (option unit)) !! n)) as Hfns.
  { intros n Hn. apply list_elem_of_singleton in Hn as ->. eexists. reflexivity. }
  assert (({["cws" := Some tt]} : gmap string (option unit)) <> ∅) as Hne
    by apply insert_non_empty.
  destruct (add_multiple_problems_missing_fn (H := trivial_types)
              [("cws", "cls")] "ner" "cls" [] {["cws" := Some tt]} init
              Hnd Hkinds Hfns Hne eq_refl) as (self' & Hrun & Hin & Hout).
  exists self'. split; [exact Hrun|]. split.
  - apply (Hin "cws" "cls"). by_decide.
  - apply (Hout "ner"). by_decide.
Defined.

(** A valid type on a fresh object: the hypothesis of X4. *)
Lemma get_problem_type_after_add_problem_witness :
  exists self' : @BaseParams trivial_types,
    add_problem "cws" "seq_tag" None init = (inr tt, self')
    /\ get_problem_type "cws" self' = (inr "seq_tag", self')
    /\ fst (get_problem_type "ner" self') = inl (KeyError "ner").
Proof.
  assert ("seq_tag" ∈ problem_kinds) as Hty by by_decide.
  destruct (get_problem_type_after_add_problem (H := trivial_types) "cws" "seq_tag" None init
              Hty) as (self' & Hrun & Hget & Hother).
  exists self'. split; [exact Hrun|]. split; [exact Hget|].
  rewrite (Hother "ner") by discriminate. reflexivity.
Defined.

(** [two_new] meets the hypotheses of X5. *)
Lemma get_problem_type_fresh_witness :
  exists self' : @BaseParams trivial_types,
    add_multiple_problems two_new None init = (inr tt, self')
    /\ fst (get_problem_type "pos" self') = inl (KeyError "pos").
Proof.
  assert (NoDup two_new.*1) as Hnd by by_decide.
  assert (Forall (fun item => item.2 ∈ problem_kinds) two_new) as Hkinds by by_decide.
  destruct (get_problem_type_fresh (H := trivial_types) two_new "pos" Hnd Hkinds)
    as (self' & Hrun & Hget).
  exists self'. split; [exact Hrun|]. exact Hget.
Defined.

(** ** [update_train_steps] *)



Section UpdateTrainSteps.
Context `{ExternalTypes}.
Implicit Types (self : BaseParams).


(** X7. On an object without [train_steps], one that never trained,
    [update_train_steps] raises [AttributeError], because the log message
    reads the old value, and changes nothing. *)
Theorem update_train_steps_before_training per_epoch epoch self :
  self attr.train_steps = None ->
  update_train_steps per_epoch epoch self = (inl (AttributeError "train_steps"), self).
Proof.
  intros Hnone. unfold update_train_steps.
  destruct (truthy_opt_int epoch).
  - eapply bind_ok; [reflexivity|]. apply bind_err.
    eapply bind_ok; [reflexivity|]. cbv beta. by rewrite Hnone.
  - eapply bind_ok; [eapply bind_ok; reflexivity|]. apply bind_err.
    eapply bind_ok; [reflexivity|]. cbv beta. by rewrite Hnone.
Qed.

End UpdateTrainSteps.


(** A fresh object meets the hypothesis of X7. *)
Lemma update_train_steps_before_training_witness :
  update_train_steps 7 None (init : @BaseParams trivial_types)
  = (inl (AttributeError "train_steps"), init).
Proof.
  apply (update_train_steps_before_training (H := trivial_types) 7 None init). reflexivity.
Defined.

(** ** [parse_problem_string]: unregistered names, and [train_problem] *)

Section ParseErrors.
Context `{ExternalTypes}.
Implicit Types (self : BaseParams).

Lemma parse_problem_loop_err pre name post self d pc c :
  registered self pre ->
  (self attr.problem_type : gmap string string) !! name = None ->
  for_each (pre ++ name :: post) parse_problem (d, pc ++ [c]) self
  = (inl (KeyError name), self).
Proof.
  intros Hpre Hname. rewrite for_each_app, parse_problem_loop by done.
  cbn [for_each]. apply bind_err. unfold parse_problem.
  eapply bind_ok; [reflexivity|]. apply bind_err. by apply getitem_err.
Qed.

Lemma parse_flag_chunk_err flag_chunk pre name post pc self :
  str_split "&" flag_chunk = pre ++ name :: post ->
  registered self pre ->
  (self attr.problem_type : gmap string string) !! name = None ->
  parse_flag_chunk flag_chunk pc self = (inl (KeyError name), self).
Proof.
  intros Hsplit Hpre Hname. unfold parse_flag_chunk.
  destruct (str_contains "&" flag_chunk) eqn:Hamp; cbn [negb].
  - apply bind_err. rewrite Hsplit. by apply parse_problem_loop_err.
  - rewrite (split_on_no_sep _ _ Hamp) in Hsplit.
    destruct pre as [|x pre]; [|by destruct pre].
    injection Hsplit as -> _.
    eapply bind_ok; [reflexivity|]. apply bind_err. by apply getitem_err.
Qed.

Lemma parse_flag_chunk_loop_err name after chunks : forall self pc before,
  concat (str_split "&" <$> chunks) = before ++ name :: after ->
  registered self before ->
  (self attr.problem_type : gmap string string) !! name = None ->
  exists self',
    for_each chunks parse_flag_chunk pc self = (inl (KeyError name), self')
    /\ forall a, a <> attr.run_problem_list -> self' a = self a.
Proof.
  induction chunks as [|c chunks IH]; intros self pc before Hcat Hreg Hname.
  - by destruct before.
  - rewrite fmap_cons in Hcat. cbn [concat] in Hcat.
    assert ((exists post, str_split "&" c = before ++ name :: post)
            \/ exists rest, before = str_split "&" c ++ rest
                            /\ concat (str_split "&" <$> chunks) = rest ++ name :: after)
      as [[post Hhere]|(rest & -> & Hlater)].
    { apply app_eq_inv in Hcat as [(k & Hk & Hafter)|(k & Hk & Hrest)].
      - destruct k as [|x k].
        + right. exists []. rewrite app_nil_r in Hk. split; [by rewrite app_nil_r|done].
        + injection Hafter as <- _. left. by exists k.
      - right. by exists k. }
    + exists self. split; [|done]. cbn [for_each]. apply bind_err.
      by eapply parse_flag_chunk_err.
    + assert (registered self (str_split "&" c)) as Hc.
      { intros n Hn. apply Hreg, elem_of_app. by left. }
      set (self1 := setattr attr.run_problem_list
                      (self attr.run_problem_list
                         ++ [chunk_dict (self attr.problem_type) (str_split "&" c) ∅]) self).
      destruct (IH self1 (pc ++ [str_split "&" c]) rest Hlater) as (self' & Hrun & Hframe).
      * intros n Hn. apply Hreg, elem_of_app. by right.
      * exact Hname.
      * exists self'. split.
        -- cbn [for_each]. eapply bind_ok; [by apply parse_flag_chunk_run|]. exact Hrun.
        -- intros a Ha. rewrite (Hframe a Ha). by apply setattr_ne.
Qed.

(** X8. When a name of the flag string is not registered and all names
    before it are, [parse_problem_string] raises [KeyError] for that name;
    [problem_str] is already the flag string, and besides it only
    [run_problem_list] may have changed. *)
Theorem parse_problem_string_unregistered flag_string before name after self :
  concat (str_split "&" <$> str_split "|" flag_string) = before ++ name :: after ->
  registered self before ->
  (self attr.problem_type : gmap string string) !! name = None ->
  exists self',
    parse_problem_string flag_string self = (inl (KeyError name), self')
    /\ self' attr.problem_str = Some flag_string
    /\ forall a, a <> attr.problem_str -> a <> attr.run_problem_list -> self' a = self a.
Proof.
  intros Hcat Hreg Hname.
  set (self1 := setattr attr.run_problem_list []
                  (setattr attr.problem_str (Some flag_string) self)).
  destruct (parse_flag_chunk_loop_err name after (str_split "|" flag_string) self1 [] before)
    as (self' & Hrun & Hframe); [done..|].
  exists self'. split; [|split].
  - unfold parse_problem_string. eapply bind_ok; [reflexivity|].
    eapply bind_ok; [reflexivity|]. by apply bind_err.
  - by rewrite Hframe.
  - intros a H1 H2. rewrite Hframe by done. unfold self1. by rewrite !setattr_ne.
Qed.

(** X9. When every name is registered, [parse_problem_string] returns,
    sets [problem_str], and sets [train_problem] to the new
    [run_problem_list] only where it was [None]: a value that is already
    there is kept.  Besides these and [run_problem_list] no attribute
    changes. *)
Theorem parse_problem_string_train_problem flag_string self :
  registered self (concat (str_split "&" <$> str_split "|" flag_string)) ->
  exists r self',
    parse_problem_string flag_string self = (inr r, self')
    /\ self' attr.problem_str = Some flag_string
    /\ self' attr.train_problem
       = match self attr.train_problem with
         | Some chosen => Some chosen
         | None => Some (self' attr.run_problem_list)
         end
    /\ forall a, a <> attr.problem_str -> a <> attr.run_problem_list ->
         a <> attr.train_problem -> self' a = self a.
Proof.
  intros Hreg.
  set (self1 := setattr attr.run_problem_list []
                  (setattr attr.problem_str (Some flag_string) self)).
  destruct (parse_flag_chunk_loop (str_split "|" flag_string) self1 [])
    as (self2 & Hrun & _ & Hframe); [exact Hreg|].
  assert (self2 attr.train_problem = self attr.train_problem) as Htp by (by rewrite Hframe).
  assert (self2 attr.problem_str = Some flag_string) as Hstr by (by rewrite Hframe).
  destruct (self attr.train_problem) as [chosen|] eqn:Hold.
  - eexists _, self2. split; [|split; [|split]].
    + unfold parse_problem_string. eapply bind_ok; [reflexivity|].
      eapply bind_ok; [reflexivity|]. eapply bind_ok; [exact Hrun|].
      eapply bind_ok; [reflexivity|]. cbv beta. rewrite Htp.
      eapply bind_ok; reflexivity.
    + done.
    + done.
    + intros a H1 H2 _. rewrite Hframe by done. unfold self1. by rewrite !setattr_ne.
  - eexists _, (setattr attr.train_problem (Some (self2 attr.run_problem_list)) self2).
    split; [|split; [|split]].
    + unfold parse_problem_string. eapply bind_ok; [reflexivity|].
      eapply bind_ok; [reflexivity|]. eapply bind_ok; [exact Hrun|].
      eapply bind_ok; [reflexivity|]. cbv beta. rewrite Htp.
      eapply bind_ok; [|reflexivity]. eapply bind_ok; reflexivity.
    + done.
    + done.
    + intros a H1 H2 H3. rewrite setattr_ne by done. rewrite Hframe by done.
      unfold self1. by rewrite !setattr_ne.
Qed.

End ParseErrors.

Section ChunkKeys.
Context `{ExternalTypes}.
Implicit Types (self : BaseParams).

Lemma key_of_Permutation (c1 c2 : list string) : c1 ≡ₚ c2 -> key_of c1 = key_of c2.
Proof.
  intros Hperm. unfold key_of, sorted. f_equal.
  apply (Sorted_unique String.le); [apply Sorted_merge_sort, _..|].
  by rewrite !merge_sort_Permutation.
Qed.

(** X10. [get_problem_chunk(as_str=True)] gives one key per chunk, and
    the key does not depend on the order of the problems inside a chunk:
    'a&b' and 'b&a' have the same key. *)
Theorem get_problem_chunk_order_insensitive self1 self2 chunks1 chunks2 :
  self1 attr.problem_chunk = Some chunks1 ->
  self2 attr.problem_chunk = Some chunks2 ->
  Forall2 Permutation chunks1 chunks2 ->
  exists keys,
    get_problem_chunk true self1 = (inr keys, self1)
    /\ get_problem_chunk true self2 = (inr keys, self2)
    /\ length keys = length chunks1.
Proof.
  intros H1 H2 Hperm. exists (key_of <$> chunks1). split; [|split].
  - by apply get_problem_chunk_true.
  - rewrite (get_problem_chunk_true self2 chunks2 H2). do 2 f_equal.
    clear H1 H2. induction Hperm as [|c1 c2 l1 l2 Hc _ IH]; [done|].
    rewrite !fmap_cons. f_equal; [symmetry; by apply key_of_Permutation|exact IH].
  - by rewrite length_fmap.
Qed.

End ChunkKeys.

(** 'ner' is not among the four problems: the hypotheses of X8. *)
Lemma parse_problem_string_unregistered_witness :
  exists self' : @BaseParams trivial_types,
    parse_problem_string "cws|weibo_ner&ner" four_problems = (inl (KeyError "ner"), self')
    /\ self' attr.problem_str = Some "cws|weibo_ner&ner".
Proof.
  assert (registered four_problems ["cws"; "weibo_ner"]) as Hreg.
  { intros n Hn. apply list_elem_of_In in Hn. simpl in Hn.
    destruct Hn as [<-|[<-|[]]]; eexists; reflexivity. }
  destruct (parse_problem_string_unregistered (H := trivial_types) "cws|weibo_ner&ner"
              ["cws"; "weibo_ner"] "ner" [] four_problems eq_refl Hreg eq_refl)
    as (self' & Hrun & Hstr & _).
  exists self'. split; [exact Hrun|exact Hstr].
Defined.

(** The four problems meet the hypothesis of X9. *)
Lemma parse_problem_string_train_problem_witness :
  exists r (self' : @BaseParams trivial_types),
    parse_problem_string "cws|POS" four_problems = (inr r, self')
    /\ self' attr.train_problem = Some (self' attr.run_problem_list).
Proof.
  assert (registered four_problems (concat (str_split "&" <$> str_split "|" "cws|POS")))
    as Hreg.
  { intros n Hn. apply list_elem_of_In in Hn. simpl in Hn.
    destruct Hn as [<-|[<-|[]]]; eexists; reflexivity. }
  destruct (parse_problem_string_train_problem (H := trivial_types) "cws|POS" four_problems
              Hreg) as (r & self' & Hrun & _ & Htrain & _).
  exists r, self'. split; [exact Hrun|exact Htrain].
Defined.

(** 'a&b' and 'b&a' meet the hypotheses of X10. *)
Lemma get_problem_chunk_order_insensitive_witness :
  exists keys,
    get_problem_chunk true chunk_ab = (inr keys, chunk_ab)
    /\ get_problem_chunk true chunk_ba = (inr keys, chunk_ba)
    /\ length keys = 1%nat.
Proof.
  assert (Forall2 Permutation [["a"; "b"]] [["b"; "a"]]) as Hperm.
  { constructor; [apply perm_swap|constructor]. }
  exact (get_problem_chunk_order_insensitive (H := trivial_types) chunk_ab chunk_ba
           [["a"; "b"]] [["b"; "a"]] eq_refl eq_refl Hperm).
Defined.

(** ** [set_data_sampling_strategy]: no rows, and a missing count *)

Section SamplingErrors.
Context `{ExternalTypes}.
Local Open Scope Qc_scope.
Implicit Types (self : BaseParams) (acc : gmap string Qc) (data_num : gmap string Z).

(** X11. 'data_balanced' where the rows of all problems add up to 0:
    when every chunk is empty the result is the empty dict, and otherwise
    the division raises [ZeroDivisionError] and the object is unchanged. *)
Theorem data_balanced_zero_total self chunks data_num :
  self attr.problem_chunk = Some chunks ->
  self attr.data_num_dict = Some data_num ->
  (forall c p, c ∈ chunks -> p ∈ c -> is_Some (data_num !! p)) ->
  total_rows data_num chunks = 0%Z ->
  set_data_sampling_strategy "data_balanced" None self
  = if forallb (fun c => bool_decide (c = [])) chunks
    then (inr ∅, setattr attr.problem_sampling_weight_dict (Some ∅) self)
    else (inl ZeroDivisionError, self).
Proof.
  intros Hpc Hd Hp Htotal.
  pose proof (data_balanced_counts self chunks data_num Hpc Hd Hp) as Hcounts.
  set (counts := counted_all data_num chunks ∅) in *.
  assert (sum_values counts = 0) as Hsum.
  { unfold counts. rewrite counted_all_sum, sum_values_empty, Htotal, Z2Qc_inj_0. ring. }
  destruct (forallb _ chunks) eqn:Hall.
  - assert (counts = ∅) as Hempty.
    { apply map_empty. intros k. apply eq_None_not_Some.
      intros [Hk|(c & Hc & _ & Hne)]%counted_all_is_Some.
      - rewrite lookup_empty in Hk. by destruct Hk.
      - rewrite forallb_forall in Hall. apply list_elem_of_In, Hall in Hc.
        by apply bool_decide_eq_true in Hc. }
    rewrite (finish_sampling _ _ _ Hcounts) by (by left).
    by rewrite Hempty, fmap_empty.
  - assert (counts <> ∅) as Hne.
    { intros Hempty. apply not_true_iff_false in Hall. apply Hall, forallb_forall.
      intros c Hc%list_elem_of_In. apply bool_decide_eq_true.
      destruct c as [|p c]; [done|]. exfalso.
      assert (is_Some (counts !! key_of (p :: c))) as Hk.
      { apply counted_all_is_Some. right. by exists (p :: c). }
      rewrite Hempty, lookup_empty in Hk. by destruct Hk. }
    unfold set_data_sampling_strategy. cbn [truthy_fn].
    eapply bind_ok; [exact Hcounts|]. cbv beta zeta. apply bind_err.
    unfold liftE. by rewrite Hsum, div_values_zero.
Qed.

Lemma count_problem_loop_err self data_num k pre p post acc :
  self attr.data_num_dict = Some data_num ->
  (forall q, q ∈ pre -> is_Some (data_num !! q)) ->
  data_num !! p = None ->
  for_each (pre ++ p :: post) (count_problem k) acc self = (inl (KeyError p), self).
Proof.
  intros Hd Hpre Hp. rewrite for_each_app, (count_problem_loop _ data_num) by done.
  cbn [for_each]. apply bind_err. unfold count_problem.
  eapply bind_ok.
  { eapply bind_ok; [reflexivity|]. cbv beta. rewrite Hd. reflexivity. }
  apply bind_err. by apply getitem_err.
Qed.

Lemma count_chunk_loop_err self data_num p after chunks : forall acc before,
  self attr.data_num_dict = Some data_num ->
  concat chunks = before ++ p :: after ->
  (forall q, q ∈ before -> is_Some (data_num !! q)) ->
  data_num !! p = None ->
  for_each chunks count_chunk acc self = (inl (KeyError p), self).
Proof.
  induction chunks as [|c chunks IH]; intros acc before Hd Hcat Hbefore Hp.
  - by destruct before.
  - cbn [concat] in Hcat. cbn [for_each].
    apply app_eq_inv in Hcat as [(k & Hk & Hafter)|(k & Hk & Hrest)].
    + destruct k as [|x k].
      * rewrite app_nil_r in Hk. subst c. cbn [app] in Hafter.
        eapply bind_ok.
        { unfold count_chunk. by apply (count_problem_loop _ data_num). }
        apply (IH _ []); [done|by symmetry| |done].
        intros q Hq. by apply elem_of_nil in Hq.
      * injection Hafter as <- _. apply bind_err. unfold count_chunk. rewrite Hk.
        by apply (count_problem_loop_err _ data_num).
    + subst before. eapply bind_ok.
      { unfold count_chunk. apply (count_problem_loop _ data_num); [done|].
        intros q Hq. apply Hbefore, elem_of_app. by left. }
      apply (IH _ k); [done|done| |done].
      intros q Hq. apply Hbefore, elem_of_app. by right.
Qed.

(** X12. 'data_balanced' raises [KeyError] at the first problem, in
    chunk order, that [data_num_dict] has no count for, and changes
    nothing. *)
Theorem data_balanced_missing_count self chunks data_num before p after :
  self attr.problem_chunk = Some chunks ->
  self attr.data_num_dict = Some data_num ->
  concat chunks = before ++ p :: after ->
  (forall q, q ∈ before -> is_Some (data_num !! q)) ->
  data_num !! p = None ->
  set_data_sampling_strategy "data_balanced" None self = (inl (KeyError p), self).
Proof.
  intros Hpc Hd Hcat Hbefore Hp.
  unfold set_data_sampling_strategy. cbn [truthy_fn]. apply bind_err.
  unfold problem_chunk_data_num. cbn.
  eapply bind_ok; [by apply get_problem_chunk_false|].
  by apply (count_chunk_loop_err _ data_num p after chunks ∅ before).
Qed.

End SamplingErrors.

(** One chunk without rows meets the hypotheses of X11. *)
Lemma data_balanced_zero_total_witness :
  set_data_sampling_strategy "data_balanced" None no_rows = (inl ZeroDivisionError, no_rows).
Proof.
  assert (forall c p, c ∈ [["a"]] -> p ∈ c ->
            is_Some (({["a" := 0%Z]} : gmap string Z) !! p)) as Hp.
  { intros c p Hc Hp. apply list_elem_of_singleton in Hc as ->.
    apply list_elem_of_singleton in Hp as ->. eexists. reflexivity. }
  exact (data_balanced_zero_total (H := trivial_types) no_rows [["a"]] {["a" := 0%Z]}
           eq_refl eq_refl Hp eq_refl).
Defined.

(** A chunk with a problem that has no count meets the hypotheses of X12. *)
Lemma data_balanced_missing_count_witness :
  set_data_sampling_strategy "data_balanced" None uncounted = (inl (KeyError "ner"), uncounted).
Proof.
  assert (forall q, q ∈ ["cws"] -> is_Some (({["cws" := 10%Z]} : gmap string Z) !! q)) as Hq.
  { intros q Hq. apply list_elem_of_singleton in Hq as ->. eexists. reflexivity. }
  exact (data_balanced_missing_count (H := trivial_types) uncounted [["cws"; "ner"]]
           {["cws" := 10%Z]} ["cws"] "ner" [] eq_refl eq_refl eq_refl Hq eq_refl).
Defined.

(** ** [get_data_info] *)

(** Reads an attribute that a hypothesis gives. *)
Ltac get_required Hattr :=
  eapply bind_ok;
  [eapply bind_ok; [reflexivity|]; cbv beta; cbn; rewrite ?Hattr; reflexivity|];
  cbv beta.

Section GetDataInfo.
Context `{External}.
Implicit Types (self : BaseParams) (w : World).

Lemma count_cached_loop (dn : gmap string Z) w problem_list : forall self k,
  self attr.data_num_dict = Some dn ->
  self attr.data_num = Some k ->
  (forall p, p ∈ problem_list -> is_Some (dn !! p)) ->
  exists self',
    for_each problem_list
      (fun problem _ =>
         data_num_dict ← get_self attr.data_num_dict ≫= require "data_num_dict";
         match data_num_dict !! problem with
         | None =>
             fns ← get_self attr.read_data_fn;
             fn ← getitem fns problem;
             match fn with
             | None => raise TypeError
             | Some fn =>
                 '(n, c) ← call_read_data_fn fn "train";
                 data_num_dict ← get_self attr.data_num_dict ≫= require "data_num_dict";
                 set_self attr.data_num_dict (Some (<[problem := n]> data_num_dict));;
                 num_classes ← get_self attr.num_classes ≫= require "num_classes";
                 set_self attr.num_classes (Some (<[problem := c]> num_classes));;
                 data_num ← get_self attr.data_num ≫= require "data_num";
                 data_num_dict ← get_self attr.data_num_dict ≫= require "data_num_dict";
                 n ← getitem data_num_dict problem;
                 set_self attr.data_num (Some (data_num + n)%Z)
             end
         | Some _ =>
             data_num ← get_self attr.data_num ≫= require "data_num";
             data_num_dict ← get_self attr.data_num_dict ≫= require "data_num_dict";
             n ← getitem data_num_dict problem;
             set_self attr.data_num (Some (data_num + n)%Z)
         end)
      tt (self, w)
    = (inr tt, (self', w))
    /\ self' attr.data_num = Some (k + rows_of dn problem_list)%Z
    /\ forall a, a <> attr.data_num -> self' a = self a.
Proof.
  induction problem_list as [|p l IH]; intros self k Hd Hk Hp.
  - exists self. cbn. by rewrite Z.add_0_r.
  - destruct (Hp p) as [n Hn]; [left|].
    destruct (IH (setattr attr.data_num (Some (k + n)%Z) self) (k + n)%Z)
      as (self' & Hrun & Hsum & Hframe); [done|done|intros; apply Hp; by right|].
    exists self'. split; [|split].
    + cbn [for_each]. eapply bind_ok; [|exact Hrun].
      get_required Hd. rewrite Hn.
      get_required Hk. get_required Hd.
      eapply bind_ok; [apply getitem_ok; exact Hn|]. reflexivity.
    + rewrite Hsum. cbn [rows_of foldr]. rewrite Hn. cbn [default].
      fold (rows_of dn l). apply (f_equal Some). unfold id. lia.
    + intros a Ha. rewrite Hframe by done. by apply setattr_ne.
Qed.

(** X13. Training with a data_info.json that counts every problem of
    the list: [get_data_info] takes both dicts from the file, sets
    [data_num] to the sum of the counts over the list, writes the dicts
    back and returns the path of the file; no preprocessing function is
    called and nothing else changes. *)
Theorem get_data_info_cached problem_list base self w dn nc w1 w2 :
  let json_path := os_path_join base "data_info.json" in
  os_path_exists json_path w = true ->
  json_load_data_info json_path w = (inr (dn, nc), w1) ->
  self attr.predicting = Some false ->
  (forall p, p ∈ problem_list -> is_Some (dn !! p)) ->
  json_dump_data_info json_path dn nc w1 = (inr tt, w2) ->
  exists self',
    get_data_info problem_list base (self, w) = (inr (Some json_path), (self', w2))
    /\ self' attr.data_num_dict = Some dn
    /\ self' attr.num_classes = Some nc
    /\ self' attr.data_num = Some (rows_of dn problem_list)
    /\ forall a, a <> attr.data_num_dict -> a <> attr.num_classes -> a <> attr.data_num ->
         self' a = self a.
Proof.
  intros json_path Hexists Hload Hpred Hp Hdump.
  set (self1 := setattr attr.num_classes (Some nc)
                  (setattr attr.data_num_dict (Some dn) self)).
  destruct (count_cached_loop dn w1 problem_list (setattr attr.data_num (Some 0%Z) self1) 0%Z)
    as (self' & Hloop & Hsum & Hframe); [done..|].
  exists self'. split; [|split; [|split; [|split]]].
  - unfold get_data_info. fold json_path.
    eapply bind_ok; [unfold path_exists, gets; rewrite Hexists; reflexivity|].
    eapply bind_ok.
    { eapply bind_ok; [unfold io; rewrite Hload; reflexivity|]. mrun. }
    cbv beta. fold self1.
    get_required Hpred. cbn [negb].
    eapply bind_ok; [|reflexivity].
    eapply bind_ok; [reflexivity|]. eapply bind_ok; [exact Hloop|].
    assert (self' attr.data_num_dict = Some dn) as Hd by (by rewrite Hframe).
    assert (self' attr.num_classes = Some nc) as Hn by (by rewrite Hframe).
    get_required Hd. get_required Hn.
    unfold io. by rewrite Hdump.
  - by rewrite Hframe.
  - by rewrite Hframe.
  - by rewrite Hsum.
  - intros a H1 H2 H3. rewrite Hframe by done. rewrite setattr_ne by done.
    unfold self1. by rewrite !setattr_ne.
Qed.

(** X14. Predicting without a data_info.json: [get_data_info] only
    writes the two dicts the object has to the file and returns [None],
    not the path; the object is unchanged.  Without [data_num_dict] or
    [num_classes] it raises [AttributeError] and writes nothing. *)
Theorem get_data_info_predicting_without_file problem_list base self w :
  let json_path := os_path_join base "data_info.json" in
  os_path_exists json_path w = false ->
  self attr.predicting = Some true ->
  get_data_info problem_list base (self, w)
  = match self attr.data_num_dict, self attr.num_classes with
    | Some dn, Some nc =>
        let '(r, w') := json_dump_data_info json_path dn nc w in
        (match r with inr _ => inr None | inl e => inl e end, (self, w'))
    | None, _ => (inl (AttributeError "data_num_dict"), (self, w))
    | Some _, None => (inl (AttributeError "num_classes"), (self, w))
    end.
Proof.
  intros json_path Hexists Hpred. unfold get_data_info. fold json_path.
  eapply bind_ok; [unfold path_exists, gets; rewrite Hexists; reflexivity|].
  destruct (self attr.data_num_dict) as [dn|] eqn:Hd.
  - destruct (self attr.num_classes) as [nc|] eqn:Hn.
    + destruct (json_dump_data_info json_path dn nc w) as [[e|[]] w'] eqn:Hdump.
      * apply bind_err. get_required Hpred. get_required Hd. get_required Hn.
        apply bind_err. unfold io. by rewrite Hdump.
      * eapply bind_ok.
        { get_required Hpred. get_required Hd. get_required Hn.
          eapply bind_ok; [unfold io; rewrite Hdump; reflexivity|]. reflexivity. }
        reflexivity.
    + apply bind_err. get_required Hpred. get_required Hd. apply bind_err.
      eapply bind_ok; [reflexivity|]. cbv beta. cbn. by rewrite Hn.
  - apply bind_err. get_required Hpred. apply bind_err.
    eapply bind_ok; [reflexivity|]. cbv beta. cbn. by rewrite Hd.
Qed.

(** X15. Training without a data_info.json: at a first problem that has
    no count yet and whose preprocessing function is [None], the default
    of [add_problem], [get_data_info] raises [TypeError]; where no
    function is registered at all it raises [KeyError].  [data_num] is
    then 0 and no file is written. *)
Theorem get_data_info_without_processing_fn p rest base self w :
  let json_path := os_path_join base "data_info.json" in
  os_path_exists json_path w = false ->
  self attr.predicting = Some false ->
  default ∅ (self attr.data_num_dict) !! p = None ->
  (forall fn, (self attr.read_data_fn : gmap string (option Callable)) !! p <> Some (Some fn)) ->
  exists self',
    get_data_info (p :: rest) base (self, w)
    = (inl (match (self attr.read_data_fn : gmap string (option Callable)) !! p with
            | Some _ => TypeError
            | None => KeyError p
            end), (self', w))
    /\ self' attr.data_num = Some 0%Z
    /\ forall a, a <> attr.data_num_dict -> a <> attr.num_classes -> a <> attr.data_num ->
         self' a = self a.
Proof.
  intros json_path Hexists Hpred Hmiss Hfn.
  set (d0 := default ∅ (self attr.data_num_dict)) in *.
  set (c0 := default ∅ (self attr.num_classes)).
  assert (exists self1,
    (old ← get_self attr.data_num_dict;
     match old with
     | None => set_self attr.data_num_dict (Some ∅)
     | Some _ => mret tt
     end;;
     old ← get_self attr.num_classes;
     match old with
     | None => set_self attr.num_classes (Some ∅)
     | Some _ => mret tt
     end;;
     mret false) (self, w) = (inr false, (self1, w))
    /\ self1 attr.data_num_dict = Some d0
    /\ forall a, a <> attr.data_num_dict -> a <> attr.num_classes -> self1 a = self a)
    as (self1 & Hinit & Hd1 & Hframe1).
  { subst d0 c0. destruct (self attr.data_num_dict) as [dn|] eqn:Hd,
      (self attr.num_classes) as [nc|] eqn:Hn.
    - exists self. split; [|done].
      eapply bind_ok; [reflexivity|]. cbv beta. rewrite Hd.
      eapply bind_ok; [reflexivity|]. eapply bind_ok; [reflexivity|]. cbv beta. by rewrite Hn.
    - exists (setattr attr.num_classes (Some ∅) self). split; [|split].
      + eapply bind_ok; [reflexivity|]. cbv beta. rewrite Hd.
        eapply bind_ok; [reflexivity|]. eapply bind_ok; [reflexivity|]. cbv beta. rewrite Hn.
        eapply bind_ok; reflexivity.
      + done.
      + intros a _ Ha. by apply setattr_ne.
    - exists (setattr attr.data_num_dict (Some ∅) self). split; [|split].
      + eapply bind_ok; [reflexivity|]. cbv beta. rewrite Hd.
        eapply bind_ok; [reflexivity|]. eapply bind_ok; [reflexivity|]. cbv beta. cbn.
        by rewrite Hn.
      + done.
      + intros a Ha _. by apply setattr_ne.
    - exists (setattr attr.num_classes (Some ∅) (setattr attr.data_num_dict (Some ∅) self)).
      split; [|split].
      + eapply bind_ok; [reflexivity|]. cbv beta. rewrite Hd.
        eapply bind_ok; [reflexivity|]. eapply bind_ok; [reflexivity|]. cbv beta. cbn.
        rewrite Hn. eapply bind_ok; reflexivity.
      + done.
      + intros a Ha Ha'. by rewrite !setattr_ne. }
  assert (self1 attr.predicting = Some false) as Hpred1 by (by rewrite Hframe1).
  assert (self1 attr.read_data_fn = self attr.read_data_fn) as Hfns1 by (by rewrite Hframe1).
  exists (setattr attr.data_num (Some 0%Z) self1). split; [|split].
  - unfold get_data_info. fold json_path.
    eapply bind_ok; [unfold path_exists, gets; rewrite Hexists; reflexivity|].
    eapply bind_ok.
    { get_required Hpred. exact Hinit. }
    cbv beta. get_required Hpred1. cbn [negb].
    apply bind_err. eapply bind_ok; [reflexivity|]. apply bind_err.
    cbn [for_each]. apply bind_err.
    get_required Hd1. rewrite Hmiss.
    eapply bind_ok; [reflexivity|]. cbv beta. cbn. rewrite Hfns1.
    destruct ((self attr.read_data_fn : gmap string (option Callable)) !! p) as [[fn|]|] eqn:Hp.
    + by destruct (Hfn fn).
    + eapply bind_ok; [apply getitem_ok; exact Hp|]. reflexivity.
    + apply bind_err. by apply getitem_err.
  - done.
  - intros a H1 H2 H3. rewrite setattr_ne by done. by apply Hframe1.
Qed.

End GetDataInfo.

(** In the world with a cached data_info.json, [one_problem] meets the
    hypotheses of X13. *)
Lemma get_data_info_cached_witness :
  exists self' : @BaseParams trivial_types,
    get_data_info (H0 := cached_world) ["cws"] "models/cws_ckpt" (one_problem, tt)
    = (inr (Some "models/cws_ckpt/data_info.json"), (self', tt))
    /\ self' attr.data_num = Some 100%Z.
Proof.
  assert (forall p, p ∈ ["cws"] -> is_Some (({["cws" := 100%Z]} : gmap string Z) !! p)) as Hp.
  { intros p Hp. apply list_elem_of_singleton in Hp as ->. eexists. reflexivity. }
  destruct (get_data_info_cached (H0 := cached_world) ["cws"] "models/cws_ckpt" one_problem tt
              {["cws" := 100%Z]} {["cws" := 2%Z]} tt tt eq_refl eq_refl eq_refl Hp eq_refl)
    as (self' & Hrun & _ & _ & Hnum & _).
  exists self'. split; [exact Hrun|exact Hnum].
Defined.

(** An object that predicts without having counted meets the hypotheses of X14. *)
Lemma get_data_info_predicting_without_file_witness :
  get_data_info (H0 := trivial_world) ["cws"] "models/cws_ckpt" (predicting_fresh, tt)
  = (inl (AttributeError "data_num_dict"), (predicting_fresh, tt)).
Proof.
  exact (get_data_info_predicting_without_file (H0 := trivial_world) ["cws"] "models/cws_ckpt"
           predicting_fresh tt eq_refl eq_refl).
Defined.

(** A problem registered without a function meets the hypotheses of X15. *)
Lemma get_data_info_without_processing_fn_witness :
  exists self' : @BaseParams trivial_types,
    get_data_info (H0 := trivial_world) ["cws"] "models/cws_ckpt" (no_fn_problem, tt)
    = (inl TypeError, (self', tt))
    /\ self' attr.data_num = Some 0%Z.
Proof.
  assert (forall fn, (no_fn_problem attr.read_data_fn : gmap string (option unit)) !! "cws"
                     <> Some (Some fn)) as Hfn by (intros fn; discriminate).
  destruct (get_data_info_without_processing_fn (H0 := trivial_world) "cws" [] "models/cws_ckpt"
              no_fn_problem tt eq_refl eq_refl eq_refl Hfn) as (self' & Hrun & Hnum & _).
  exists self'. split; [exact Hrun|exact Hnum].
Defined.

(** ** [prepare_dir]: what is loaded *)

Lemma os_path_join_nonempty a b : b <> "" -> os_path_join a b <> "".
Proof.
  intros Hb. unfold os_path_join.
  destruct (startswith_sep b); [done|].
  destruct (String.eqb a "" || endswith_sep a).
  - destruct a; [done|discriminate].
  - destruct a; discriminate.
Qed.

Section PrepareDirMore.
Context `{External}.
Implicit Types (self : BaseParams) (w : World).

(** X16. When [prepare_dir] returns, [bert_config] holds a config,
    [bert_config_dict] is that config's [to_dict()], [vocab_size] is the
    size of a tokenizer's vocabulary and [init_weight_from_huggingface]
    is set. *)
Theorem prepare_dir_loads_config base_dir dir_name problem_list self w self' w' :
  prepare_dir base_dir dir_name problem_list (self, w) = (inr tt, (self', w')) ->
  exists config tokenizer,
    self' attr.bert_config = Some config
    /\ self' attr.bert_config_dict = Some (config_to_dict config)
    /\ self' attr.vocab_size = Some (tokenizer_vocab_size tokenizer)
    /\ is_Some (self' attr.init_weight_from_huggingface).
Proof.
  intros Hrun. change (config_loaded self').
  refine (post_run _ _ (fun _ s => config_loaded (fst s)) _ _ _ Hrun).
  clear Hrun self' w'. unfold prepare_dir.
  wp.
  all: match goal with
       | Hc : _ attr.bert_config = Some ?c, tok : Tokenizer |- _ =>
           first [ exists c, tok; repeat split; first [exact Hc | by eexists | reflexivity] ]
       end.
Qed.

(** X17. When [prepare_dir] returns on an object whose
    [transformer_decoder_tokenizer_name] was not [None], [decoder_vocab_size],
    [bos_id] and [eos_id] are read off one tokenizer; where it was [None],
    the three attributes are left as they were. *)
Theorem prepare_dir_decoder_ids base_dir dir_name problem_list self w self' w' :
  prepare_dir base_dir dir_name problem_list (self, w) = (inr tt, (self', w')) ->
  match self attr.transformer_decoder_tokenizer_name with
  | Some _ =>
      exists tokenizer,
        self' attr.decoder_vocab_size = Some (tokenizer_vocab_size tokenizer)
        /\ self' attr.bos_id = Some (tokenizer_bos_token_id tokenizer)
        /\ self' attr.eos_id = Some (tokenizer_eos_token_id tokenizer)
  | None =>
      self' attr.decoder_vocab_size = self attr.decoder_vocab_size
      /\ self' attr.bos_id = self attr.bos_id
      /\ self' attr.eos_id = self attr.eos_id
  end.
Proof.
  intros Hrun. change (decoder_ids self self').
  refine (post_run _ _ (fun _ s => decoder_ids self (fst s)) _ _ _ Hrun).
  clear Hrun self' w'. unfold prepare_dir.
  wp.
  all: unfold decoder_ids; cbn [fst].
  all: repeat match goal with
         | Ht : truthy_opt_str _ = _ |- _ => revert Ht
         end.
  all: cbn -[os_path_join]; destruct (self attr.transformer_decoder_tokenizer_name) as [old|];
       cbn -[os_path_join]; intros.
  all: try done.
  all: try (eexists; repeat split; reflexivity).
  all: exfalso;
       match goal with
       | Ht : negb (String.eqb ?p "") = false |- _ =>
           apply negb_false_iff, String.eqb_eq in Ht;
           by apply os_path_join_nonempty in Ht
       end.
Qed.

(** X18. Called on an object that was never assigned, [prepare_dir]
    raises [AttributeError] for [predicting], after it has set [ckpt_dir]
    and [params_path] and before it touches the world. *)
Theorem prepare_dir_before_assign base_dir dir_name problem_list self w :
  self attr.predicting = None ->
  let base := match base_dir with Some b => b | None => "models" end in
  let name :=
    match dir_name with
    | Some d => d
    | None => str_join "_" problem_list +:+ "_ckpt"
    end in
  let ckpt := os_path_join base name in
  exists self',
    prepare_dir base_dir dir_name problem_list (self, w)
    = (inl (AttributeError "predicting"), (self', w))
    /\ self' attr.ckpt_dir = Some ckpt
    /\ self' attr.params_path = Some (os_path_join ckpt "params.json")
    /\ forall a, a <> attr.ckpt_dir -> a <> attr.params_path -> self' a = self a.
Proof.
  intros Hnone base name ckpt.
  exists (setattr attr.params_path (Some (os_path_join ckpt "params.json"))
            (setattr attr.ckpt_dir (Some ckpt) self)).
  split; [|split; [done|split; [done|]]].
  - unfold prepare_dir. fold base name ckpt.
    eapply bind_ok; [reflexivity|]. eapply bind_ok; [reflexivity|].
    eapply bind_ok; [eapply bind_ok; reflexivity|]. cbv beta.
    eapply bind_ok; [reflexivity|]. apply bind_err.
    eapply bind_ok; [reflexivity|]. cbv beta. cbn. by rewrite Hnone.
  - intros a H1 H2. by rewrite !setattr_ne.
Qed.

End PrepareDirMore.

(** In the trivial world [prepare_dir] returns: the hypothesis of X16. *)
Lemma prepare_dir_loads_config_witness :
  let self' := fst (snd (prepare_dir (H0 := trivial_world) None None ["cws"] (one_problem, tt))) in
  exists config tokenizer,
    self' attr.bert_config = Some config
    /\ self' attr.bert_config_dict = Some (config_to_dict (External := trivial_world) config)
    /\ self' attr.vocab_size = Some (tokenizer_vocab_size (External := trivial_world) tokenizer)
    /\ is_Some (self' attr.init_weight_from_huggingface).
Proof.
  intros self'.
  apply (prepare_dir_loads_config (H0 := trivial_world) None None ["cws"] one_problem tt self' tt).
  apply (run_inr (prepare_dir (H0 := trivial_world) None None ["cws"] (one_problem, tt)) tt).
  vm_compute. reflexivity.
Defined.

(** The same run meets the hypothesis of X17; the object has no decoder. *)
Lemma prepare_dir_decoder_ids_witness :
  let self' := fst (snd (prepare_dir (H0 := trivial_world) None None ["cws"] (one_problem, tt))) in
  self' attr.decoder_vocab_size = None
  /\ self' attr.bos_id = None
  /\ self' attr.eos_id = None.
Proof.
  intros self'.
  apply (prepare_dir_decoder_ids (H0 := trivial_world) None None ["cws"] one_problem tt self' tt).
  apply (run_inr (prepare_dir (H0 := trivial_world) None None ["cws"] (one_problem, tt)) tt).
  vm_compute. reflexivity.
Defined.

(** A fresh object meets the hypothesis of X18. *)
Lemma prepare_dir_before_assign_witness :
  exists self' : @BaseParams trivial_types,
    prepare_dir (H0 := trivial_world) None None ["cws"] (init, tt)
    = (inl (AttributeError "predicting"), (self', tt))
    /\ self' attr.ckpt_dir = Some "models/cws_ckpt"
    /\ self' attr.params_path = Some "models/cws_ckpt/params.json".
Proof.
  destruct (prepare_dir_before_assign (H0 := trivial_world) None None ["cws"] init tt eq_refl)
    as (self' & Hrun & Hckpt & Hpath & _).
  exists self'. split; [exact Hrun|]. split; [exact Hckpt|exact Hpath].
Defined.

(** ** [assign_problem]: failures, and what it leaves alone *)

Section AssignProblemMore.
Context `{External}.
Implicit Types (self : BaseParams) (w : World).

(** X19. When a name of the flag string is not registered,
    [assign_problem] raises [KeyError] and leaves the world as it was, but
    the object is already marked: [problem_assigned] is true, and
    [assigned_details] and [predicting] hold the arguments.
    [problem_list] and [ckpt_dir] are not set. *)
Theorem assign_problem_unregistered flag_string gpu base_dir dir_name predicting
    before name after self w :
  concat (str_split "&" <$> str_split "|" flag_string) = before ++ name :: after ->
  registered self before ->
  (self attr.problem_type : gmap string string) !! name = None ->
  exists self',
    assign_problem flag_string gpu base_dir dir_name predicting (self, w)
    = (inl (KeyError name), (self', w))
    /\ self' attr.problem_assigned = true
    /\ self' attr.assigned_details = Some (flag_string, gpu, base_dir, dir_name, predicting)
    /\ self' attr.predicting = Some predicting
    /\ self' attr.problem_list = self attr.problem_list
    /\ self' attr.ckpt_dir = self attr.ckpt_dir.
Proof.
  intros Hcat Hreg Hname.
  set (self1 := setattr attr.predicting (Some predicting)
                  (setattr attr.problem_assigned true
                     (setattr attr.assigned_details
                        (Some (flag_string, gpu, base_dir, dir_name, predicting)) self))).
  set (self2 := setattr attr.run_problem_list []
                  (setattr attr.problem_str (Some flag_string) self1)).
  destruct (parse_flag_chunk_loop_err name after (str_split "|" flag_string) self2 [] before)
    as (self' & Hrun & Hframe); [done..|].
  exists self'. split.
  - unfold assign_problem. do 3 (eapply bind_ok; [reflexivity|]). fold self1.
    apply bind_err. unfold liftP.
    assert (parse_problem_string flag_string self1 = (inl (KeyError name), self')) as ->; [|done].
    unfold parse_problem_string. do 2 (eapply bind_ok; [reflexivity|]). fold self2.
    by apply bind_err.
  - by rewrite !Hframe.
Qed.

Lemma problem_chunk_data_num_pure strategy self counts self1 :
  problem_chunk_data_num strategy self = (inr counts, self1) -> self1 = self.
Proof.
  intros Hrun. unfold problem_chunk_data_num in Hrun.
  assert (forall as_str r s, get_problem_chunk as_str self = (inr r, s) -> s = self) as Hchunk.
  { intros [] r s Hget; unfold get_problem_chunk in Hget.
    - apply bind_inv in Hget as (pc & s2 & Hread & Hrest).
      apply bind_inv in Hread as (o & s3 & Hread & Hreq). inversion Hread; subst o s3.
      destruct (self attr.problem_chunk) as [l|]; [|done]. inversion Hreq; subst pc s2.
      rewrite chunk_key_loop in Hrest. by inversion Hrest.
    - apply bind_inv in Hget as (o & s2 & Hread & Hreq). inversion Hread; subst o s2.
      destruct (self attr.problem_chunk) as [l|]; [|done]. by inversion Hreq. }
  destruct (String.eqb strategy "data_balanced").
  - apply bind_inv in Hrun as (chunks & s1 & Hget & Hloop).
    apply (Hchunk false) in Hget as ->.
    refine (for_each_inv (fun _ s => s = self) _ _ _ _ _ _ _ eq_refl Hloop).
    intros c acc s acc' s' _ -> Hc. unfold count_chunk in Hc.
    refine (for_each_inv (fun _ s => s = self) _ _ _ _ _ _ _ eq_refl Hc).
    intros p acc0 s0 acc1 s1 _ -> Hp. unfold count_problem in Hp.
    apply bind_inv in Hp as (d & s2 & Hread & Hp).
    apply bind_inv in Hread as (o & s3 & Hread & Hreq). inversion Hread; subst o s3.
    destruct (self attr.data_num_dict); [|done]. inversion Hreq; subst d s2.
    apply bind_inv in Hp as (n & s3 & Hget & Hret). unfold getitem in Hget.
    destruct (_ !! p); [|done]. inversion Hget; subst. by inversion Hret.
  - destruct (String.eqb strategy "problem_balanced"); [|done].
    apply bind_inv in Hrun as (keys & s1 & Hget & Hloop).
    apply (Hchunk true) in Hget as ->.
    rewrite count_one_loop in Hloop. by inversion Hloop.
Qed.

Lemma post_set_data_sampling_strategy strategy fn self w Q :
  (forall weights,
     Q weights (setattr attr.problem_sampling_weight_dict (Some weights) self, w)) ->
  post (liftP (set_data_sampling_strategy strategy fn)) (self, w) Q.
Proof.
  intros HQ. unfold post, liftP.
  destruct (set_data_sampling_strategy strategy fn self) as [[e|weights] self'] eqn:Hrun; [done|].
  unfold set_data_sampling_strategy in Hrun. destruct (truthy_fn fn); [done|].
  apply bind_inv in Hrun as (counts & s1 & Hcounts & Hrun).
  apply problem_chunk_data_num_pure in Hcounts as ->.
  apply bind_inv in Hrun as (weights' & s2 & Hdiv & Hrun).
  unfold liftE in Hdiv. inversion Hdiv; subst s2.
  apply bind_inv in Hrun as ([] & s3 & Hwrite & Hret).
  inversion Hwrite; subst s3. inversion Hret; subst. apply HQ.
Qed.

(** X20. When [assign_problem] returns with predicting = False,
    [shuffle_buffer] is min(200000, data_num) and
    [problem_sampling_weight_dict] is set. *)
Theorem assign_problem_shuffle_buffer flag_string gpu base_dir dir_name self w self' w' :
  assign_problem flag_string gpu base_dir dir_name false (self, w) = (inr tt, (self', w')) ->
  exists data_num weights,
    self' attr.data_num = Some data_num
    /\ self' attr.shuffle_buffer = Some (Z.min 200000 data_num)
    /\ self' attr.problem_sampling_weight_dict = Some weights.
Proof.
  intros Hrun. change (shuffle_buffer_set self').
  refine (post_run _ _ (fun _ s => shuffle_buffer_set (fst s)) _ _ _ Hrun).
  clear Hrun self' w'. unfold assign_problem.
  do 3 (apply post_bind; apply post_any; intros _ ?).
  apply post_bind, post_any. intros [pl pc] ?.
  do 2 (apply post_bind; apply post_any; intros _ ?).
  apply post_bind, post_any. intros ? ?.
  apply post_bind, post_any. intros _ ?.
  apply post_bind, post_any. intros ? ?.
  apply post_bind, post_any. intros ? ?.
  apply post_bind, post_any. intros ? [s3 w3].
  apply post_bind, post_set_data_sampling_strategy. intros weights.
  cbn [negb].
  repeat (first [apply post_dup_fac_loop; intros ? ? | wp_step]).
  unfold shuffle_buffer_set. cbn [fst].
  match goal with
  | Hd : _ attr.data_num = Some ?n |- _ => exists n, weights; cbn in Hd |- *; by rewrite Hd
  end.
Qed.

End AssignProblemMore.

(** A fresh object has no problem 'cws': the hypotheses of X19. *)
Lemma assign_problem_unregistered_witness :
  exists self' : @BaseParams trivial_types,
    assign_problem (H0 := trivial_world) "cws" 2 None None false (init, tt)
    = (inl (KeyError "cws"), (self', tt))
    /\ self' attr.problem_assigned = true
    /\ self' attr.problem_list = None.
Proof.
  assert (registered (init : @BaseParams trivial_types) []) as Hreg.
  { intros n Hn. by apply elem_of_nil in Hn. }
  destruct (assign_problem_unregistered (H0 := trivial_world) "cws" 2 None None false
              [] "cws" [] init tt eq_refl Hreg eq_refl)
    as (self' & Hrun & Hassigned & _ & _ & Hlist & _).
  exists self'. split; [exact Hrun|]. split; [exact Hassigned|exact Hlist].
Defined.

(** In the trivial world [assign_problem] returns on one problem of 100
    rows: the hypothesis of X20. *)
Lemma assign_problem_shuffle_buffer_witness :
  let self' :=
    fst (snd (assign_problem (H0 := trivial_world) "cws" 2 None None false (one_problem, tt))) in
  exists data_num weights,
    self' attr.data_num = Some data_num
    /\ self' attr.shuffle_buffer = Some (Z.min 200000 data_num)
    /\ self' attr.problem_sampling_weight_dict = Some weights.
Proof.
  intros self'.
  apply (assign_problem_shuffle_buffer (H0 := trivial_world) "cws" 2 None None one_problem tt
           self' tt).
  apply (run_inr (assign_problem (H0 := trivial_world) "cws" 2 None None false
                    (one_problem, tt)) tt).
  vm_compute. reflexivity.
Defined.

(** ** Invariants: what [assign_problem] keeps when it predicts *)

Section Keeps.
Context {S : Type} (I : S -> Prop).

Lemma keeps_bind {A B} (m : M S A) (k : A -> M S B) :
  keeps I m -> (forall a, keeps I (k a)) -> keeps I (m ≫= k).
Proof.
  intros Hm Hk s Hs. specialize (Hm s Hs). unfold mbind, M_bind.
  destruct (m s) as [[e|a] s1]; [exact Hm|]. by apply Hk.
Qed.

Lemma keeps_same {A} (m : M S A) : (forall s, snd (m s) = s) -> keeps I m.
Proof. intros Hm s Hs. by rewrite Hm. Qed.

Lemma keeps_ret {A} (a : A) : keeps I (mret a).
Proof. by apply keeps_same. Qed.

Lemma keeps_raise {A} e : keeps I (raise e : M S A).
Proof. by apply keeps_same. Qed.

Lemma keeps_liftE {A} (r : outcome A) : keeps I (liftE r).
Proof. by apply keeps_same. Qed.

Lemma keeps_require {A} name (o : option A) : keeps I (require name o).
Proof. apply keeps_same. by destruct o. Qed.

Lemma keeps_getitem {A} (d : gmap string A) k : keeps I (getitem d k).
Proof. apply keeps_same. intros s. unfold getitem. by destruct (d !! k). Qed.

Lemma keeps_for_each {A B} (l : list A) (body : A -> B -> M S B) :
  (forall x acc, keeps I (body x acc)) -> forall acc, keeps I (for_each l body acc).
Proof.
  intros Hbody. induction l as [|x l IH]; intros acc; [apply keeps_ret|].
  apply keeps_bind; [apply Hbody|exact IH].
Qed.

End Keeps.

Section KeepsObject.
Context `{ExternalTypes} (J : BaseParams -> Prop).

Lemma keeps_read a : keeps J (read a).
Proof. by apply keeps_same. Qed.

Lemma keeps_write a v : (forall self, J self -> J (setattr a v self)) -> keeps J (write a v).
Proof. intros Hset self. apply Hset. Qed.

End KeepsObject.

Section KeepsWorld.
Context `{External} (J : BaseParams -> Prop).

Lemma keeps_liftP {A} (m : M BaseParams A) : keeps J m -> keeps (on_self J) (liftP m).
Proof.
  intros Hm [self w] Hs. unfold on_self, liftP in *. specialize (Hm self Hs).
  by destruct (m self).
Qed.

Lemma keeps_io {A} (m : M World A) : keeps (on_self J) (io m).
Proof. intros [self w] Hs. unfold on_self, io in *. by destruct (m w). Qed.

Lemma keeps_try_pass_io (m : M World unit) : keeps (on_self J) (try_pass (io m)).
Proof. intros [self w] Hs. unfold on_self, try_pass, io in *. cbn. by destruct (m w). Qed.

Lemma keeps_get_self a : keeps (on_self J) (get_self a).
Proof. apply keeps_same. by intros []. Qed.

Lemma keeps_set_self a v :
  (forall self, J self -> J (setattr a v self)) -> keeps (on_self J) (set_self a v).
Proof. intros Hset [self w]. apply Hset. Qed.

Lemma keeps_path_exists path : keeps (on_self J) (path_exists path).
Proof. apply keeps_same. by intros []. Qed.

(** Where the invariant fixes [predicting], the code after a read of the
    attribute runs with that value. *)
Lemma keeps_read_predicting {B} value (k : bool -> M (BaseParams * World) B) :
  (forall self, J self -> self attr.predicting = Some value) ->
  keeps (on_self J) (k value) ->
  keeps (on_self J) ((get_self attr.predicting ≫= require "predicting") ≫= k).
Proof.
  intros Hvalue Hk [self w] Hs. specialize (Hk (self, w) Hs).
  unfold mbind, M_bind, get_self, liftP, read, gets. cbn.
  rewrite (Hvalue self Hs). exact Hk.
Qed.

End KeepsWorld.

Section PredictingFrame.
Context `{External}.
Implicit Types (self : BaseParams) (w : World).

Lemma predicting_inv_setattr a v old self :
  a <> attr.predicting -> kept_when_predicting a = false ->
  predicting_inv old self -> predicting_inv old (setattr a v self).
Proof.
  intros Hne Hkept [Hpred Hframe]. split.
  - by rewrite setattr_ne.
  - intros b Hb. rewrite setattr_ne; [by apply Hframe|]. intros ->. congruence.
Qed.

Ltac keeps_step old :=
  lazymatch goal with
  | |- keeps _ ((get_self attr.predicting ≫= require "predicting") ≫= _) =>
      apply (keeps_read_predicting (predicting_inv old) true);
      [by intros ? [? _]|cbv beta; cbn [negb]]
  | |- keeps _ (mbind _ _) => apply keeps_bind; [|intros ?]
  | |- keeps _ (mret _) => apply keeps_ret
  | |- keeps _ (raise _) => apply keeps_raise
  | |- keeps _ (liftE _) => apply keeps_liftE
  | |- keeps _ (require _ _) => apply keeps_require
  | |- keeps _ (getitem _ _) => apply keeps_getitem
  | |- keeps _ (for_each _ _ _) => apply keeps_for_each; intros ? ?
  | |- keeps ?J (read ?a) => exact (keeps_read J a)
  | |- keeps ?J (write ?a ?v) =>
      refine (keeps_write J a v _); intros ? ?; by apply predicting_inv_setattr
  | |- keeps _ (liftP _) => apply keeps_liftP
  | |- keeps _ (io _) => apply keeps_io
  | |- keeps _ (try_pass (io _)) => apply keeps_try_pass_io
  | |- keeps (on_self ?J) (get_self ?a) => exact (keeps_get_self J a)
  | |- keeps (on_self ?J) (set_self ?a ?v) =>
      refine (keeps_set_self J a v _); intros ? ?; by apply predicting_inv_setattr
  | |- keeps _ (path_exists _) => apply keeps_path_exists
  | |- keeps _ (if ?b then _ else _) => destruct b
  | |- keeps _ (match ?x with _ => _ end) => destruct x
  end.

Lemma parse_problem_string_keeps old flag_string :
  keeps (predicting_inv old) (parse_problem_string flag_string).
Proof.
  unfold parse_problem_string, parse_flag_chunk, parse_problem, run_problem_list_append.
  repeat keeps_step old.
Qed.

Lemma set_data_sampling_strategy_keeps old strategy fn :
  keeps (predicting_inv old) (set_data_sampling_strategy strategy fn).
Proof.
  unfold set_data_sampling_strategy, problem_chunk_data_num.
  repeat keeps_step old.
  all: unfold get_problem_chunk, count_chunk, count_problem, count_one, chunk_key.
  all: repeat keeps_step old.
Qed.

Lemma prepare_dir_keeps old base_dir dir_name problem_list :
  keeps (on_self (predicting_inv old)) (prepare_dir base_dir dir_name problem_list).
Proof. unfold prepare_dir. repeat keeps_step old. Qed.

Lemma get_data_info_keeps old problem_list base :
  keeps (on_self (predicting_inv old)) (get_data_info problem_list base).
Proof. unfold get_data_info. repeat keeps_step old. Qed.

(** X21. With predicting = True, [assign_problem] never changes the
    registry, the preprocessing functions, the training parameters or the
    schedule ([data_num], [shuffle_buffer], [train_steps],
    [train_steps_per_epoch], [num_warmup_steps], [lr]), whether it
    returns or raises. *)
Theorem assign_problem_predicting_frame flag_string gpu base_dir dir_name self w a :
  kept_when_predicting a = true ->
  fst (snd (assign_problem flag_string gpu base_dir dir_name true (self, w))) a = self a.
Proof.
  intros Ha.
  set (self1 := setattr attr.predicting (Some true)
                  (setattr attr.problem_assigned true
                     (setattr attr.assigned_details
                        (Some (flag_string, gpu, base_dir, dir_name, true)) self))).
  assert (predicting_inv self self1) as Hinv.
  { split; [done|]. intros b Hb. unfold self1. rewrite !setattr_ne; [done|..]; by intros <-. }
  assert (forall (rest : M (BaseParams * World) unit),
            keeps (on_self (predicting_inv self)) rest ->
            fst (snd (rest (self1, w))) a = self a) as Hrest.
  { intros rest Hkeeps. by apply (Hkeeps (self1, w) Hinv). }
  unfold assign_problem. cbn [negb].
  unfold mbind at 1 2 3, M_bind at 1 2 3. cbn [set_self liftP write modify].
  apply Hrest.
  pose proof (parse_problem_string_keeps self flag_string) as Hparse.
  pose proof (set_data_sampling_strategy_keeps self "data_balanced" None) as Hsample.
  pose proof (prepare_dir_keeps self base_dir dir_name) as Hdir.
  pose proof (get_data_info_keeps self) as Hinfo.
  repeat first
    [ apply keeps_liftP; first [exact Hparse | exact Hsample]
    | apply Hdir | apply Hinfo
    | keeps_step self ].
Qed.

End PredictingFrame.

(** [train_steps] is among the attributes of X21. *)
Lemma assign_problem_predicting_frame_witness :
  fst (snd (assign_problem (H0 := trivial_world) "cws" 2 None None true (trained_once, tt)))
    attr.train_steps
  = Some 100%Z.
Proof.
  exact (assign_problem_predicting_frame (H0 := trivial_world) "cws" 2 None None trained_once tt
           attr.train_steps eq_refl).
Defined.

(** * [to_json] and [from_json]: failures, re-assignment and a second round trip *)

Module PersistenceEdges.
Import Persistence PersistenceProofs JsonInduction PersistenceObjects.



Section Loading.
Variable load_transformer_config_dict : pyval -> pyval -> M Files pyval.
Variable assign_problem_args : pyval -> M (Attrs * Files) unit.
Implicit Types (src dst : Attrs) (fs : Files).

(** X23. [from_json] changes nothing when there is nothing to load:
    without a path and without [params_path] it raises [AttributeError],
    and for a path that is no file it raises [FileNotFoundError]. *)
Theorem from_json_nothing_to_load dst fs :
  (dst !! "params_path" = None ->
   from_json load_transformer_config_dict assign_problem_args None (dst, fs)
   = (inl (AttributeError "params_path"), (dst, fs)))
  /\ (forall path problem_assigned,
        fs !! path = None ->
        dst !! "problem_assigned" = Some problem_assigned ->
        (py_truthy problem_assigned = true -> is_Some (dst !! "assigned_details")) ->
        from_json load_transformer_config_dict assign_problem_args (Some path) (dst, fs)
        = (inl (OSError "FileNotFoundError"), (dst, fs))).
Proof.
  split.
  - intros Hnone. unfold Persistence.from_json. apply bind_err.
    unfold getattr. by rewrite Hnone.
  - intros path pa Hfile Hpa Hdetails. unfold Persistence.from_json.
    eapply bind_ok; [reflexivity|].
    eapply bind_ok; [unfold getattr; by rewrite Hpa|]. cbv beta.
    assert (exists details,
              (if py_truthy pa then getattr "assigned_details" else mret PyNone) (dst, fs)
              = (inr details, (dst, fs))) as [details Hread].
    { destruct (py_truthy pa); [|by eexists].
      destruct Hdetails as [d Hd]; [done|]. exists d. unfold getattr. by rewrite Hd. }
    eapply bind_ok; [exact Hread|].
    apply bind_err. unfold json_load_file.
    eapply bind_ok; [reflexivity|]. cbv beta. cbn [snd]. by rewrite Hfile.
Qed.

(** X24. When [from_json] returns on an object that is assigned, it has
    ended by calling [assign_problem] with the details the object held
    before the load, not with those of the file: the final state is the
    result of that call. *)
Theorem from_json_reassigns_with_old_details json_path dst fs problem_assigned details
    dst' fs' :
  dst !! "problem_assigned" = Some problem_assigned ->
  py_truthy problem_assigned = true ->
  dst !! "assigned_details" = Some details ->
  py_truthy details = true ->
  from_json load_transformer_config_dict assign_problem_args json_path (dst, fs)
  = (inr tt, (dst', fs')) ->
  exists restored, assign_problem_args details restored = (inr tt, (dst', fs')).
Proof.
  intros Hpa Hassigned Hdetails Htruthy Hrun.
  refine (post_run _ _ (fun _ s' => exists restored,
                          assign_problem_args details restored = (inr tt, s')) _ _ _ Hrun).
  clear Hrun. unfold Persistence.from_json.
  apply post_bind.
  destruct json_path as [path|]; [apply post_ret|apply post_getattr; intros path _].
  all: apply post_bind, post_getattr; intros pa Hpa'.
  all: assert (pa = problem_assigned) as -> by congruence; rewrite Hassigned.
  all: apply post_bind, post_getattr; intros d Hd.
  all: assert (d = details) as -> by congruence.
  all: apply post_bind, post_any; intros dump [dst1 fs1].
  all: apply post_bind, post_any; intros _ [dst2 fs2].
  all: apply post_bind, post_getattr; intros config_dict _.
  all: apply post_bind, post_getattr; intros loading _.
  all: apply post_bind, post_load_config; intros config fs3.
  all: apply post_bind, post_py_setattr.
  all: apply post_bind, post_hasattr; intros has_decoder.
  all: rewrite Htruthy.
  all: assert (forall s, post (assign_problem_args details) s
                 (fun _ s' => exists restored,
                    assign_problem_args details restored = (inr tt, s'))) as Hend.
  all: try (intros s; unfold post;
            destruct (assign_problem_args details s) as [[e|[]] s'] eqn:Hassign; [done|];
            by exists s).
  all: apply post_bind; destruct has_decoder.
  all: try (apply post_ret; apply Hend).
  all: apply post_bind, post_getattr; intros config_dict' _.
  all: apply post_bind, post_getattr; intros loading' _.
  all: apply post_bind, post_load_config; intros config' fs4.
  all: apply post_py_setattr, Hend.
Qed.

End Loading.


Lemma dict_set_keys k v d x : x ∈ (dict_set k v d).*1 <-> x = k \/ x ∈ d.*1.
Proof.
  induction d as [|[k' v'] d IH]; simpl.
  - rewrite list_elem_of_singleton, elem_of_nil. tauto.
  - destruct (decide (k = k')) as [->|Hne]; simpl; rewrite !elem_of_cons; [tauto|].
    rewrite IH. tauto.
Qed.

Lemma dict_set_invariant (P : pykey * pyval -> Prop) k v d :
  P (k, v) -> NoDup d.*1 -> Forall P d ->
  NoDup (dict_set k v d).*1 /\ Forall P (dict_set k v d).
Proof.
  intros Hkv. induction d as [|[k' v'] d IH]; intros Hnd HP; simpl.
  - split; [apply NoDup_singleton|by apply Forall_singleton].
  - rewrite fmap_cons in Hnd. apply NoDup_cons in Hnd as [Hk' Hnd].
    apply Forall_cons in HP as [Hk'v' HP].
    destruct (decide (k = k')) as [->|Hne]; simpl.
    + split; [by apply NoDup_cons|by apply Forall_cons].
    + destruct (IH Hnd HP) as [Hnd' HP']. split; [|by apply Forall_cons].
      apply NoDup_cons. split; [|done]. rewrite dict_set_keys. by intros [->|?].
Qed.

Lemma dict_of_pairs_invariant (P : pykey * pyval -> Prop) l :
  Forall P l -> NoDup (dict_of_pairs l).*1 /\ Forall P (dict_of_pairs l).
Proof.
  unfold dict_of_pairs. intros HP.
  assert (NoDup ([] : list (pykey * pyval)).*1 /\ Forall P []) as Hacc
    by (split; [apply NoDup_nil_2|done]).
  revert Hacc. generalize ([] : list (pykey * pyval)).
  induction HP as [|[k v] l Hkv _ IH]; intros acc [Hnd Hacc]; [done|].
  cbn [fold_left]. apply IH. by apply dict_set_invariant.
Qed.

Lemma json_loads_stable j : json_stable (json_loads j) = true.
Proof.
  induction j as [| | | | |l IH|members IH] using json_ind'; try reflexivity.
  - cbn [json_loads json_stable]. apply forallb_forall. intros v Hv.
    apply in_map_iff in Hv as (x & <- & Hx). rewrite List.Forall_forall in IH. by apply IH.
  - cbn [json_loads json_stable].
    destruct (dict_of_pairs_invariant (fun item => stable_item item = true)
                (map (fun m => (KStr (fst m), json_loads (snd m))) members)) as [Hnd Hst].
    { apply Forall_forall. intros item Hitem. apply list_elem_of_In in Hitem.
      apply in_map_iff in Hitem as (m & <- & Hm). rewrite List.Forall_forall in IH.
      by apply IH. }
    apply andb_true_iff. split; [|by apply bool_decide_eq_true].
    apply forallb_forall. intros item Hitem. rewrite Forall_forall in Hst.
    by apply Hst, list_elem_of_In.
Qed.

Lemma json_stable_dumps v : json_stable v = true -> exists j, json_dumps v = inr j.
Proof.
  induction v as [| | | | |l IH|l IH|items IH| |] using pyval_ind'; intros Hst;
    try (eexists; reflexivity); try discriminate Hst.
  - rewrite json_dumps_list. cbn [json_stable] in Hst.
    assert (exists js, dumps_list l = inr js) as [js ->]; [|eexists; reflexivity].
    induction IH as [|x l Hx _ IHl]; [eexists; reflexivity|].
    cbn [forallb] in Hst. apply andb_true_iff in Hst as [Hsx Hsl].
    destruct (Hx Hsx) as [jx Hjx], (IHl Hsl) as [js Hjs].
    exists (jx :: js). cbn [dumps_list foldr]. fold (dumps_list l). by rewrite Hjx, Hjs.
  - rewrite json_dumps_dict. cbn [json_stable] in Hst.
    apply andb_true_iff in Hst as [Hst _].
    assert (exists ms, dumps_items items = inr ms) as [ms ->]; [|eexists; reflexivity].
    induction IH as [|[k x] items Hx _ IHitems]; [eexists; reflexivity|].
    cbn [forallb fst snd] in Hst. apply andb_true_iff in Hst as [Hsx Hsl].
    destruct k as [s| | | |]; try done.
    destruct (Hx Hsx) as [jx Hjx], (IHitems Hsl) as [ms Hms].
    exists ((s, jx) :: ms). rewrite dumps_items_cons. cbn [json_key]. simpl in Hjx.
    by rewrite Hjx, Hms.
Qed.

Section SecondRoundTrip.
Variable load_transformer_config_dict : pyval -> pyval -> M Files pyval.
Variable assign_problem_args : pyval -> M (Attrs * Files) unit.
Implicit Types (src dst : Attrs) (fs : Files).

(** What a load into an object that is not assigned leaves, for a file
    whose document is an object with distinct member names. *)
Lemma from_json_restored path ms dst fs problem_assigned dst' fs' name :
  fs !! path = Some (JObj ms) ->
  NoDup ms.*1 ->
  dst !! "problem_assigned" = Some problem_assigned ->
  py_truthy problem_assigned = false ->
  from_json load_transformer_config_dict assign_problem_args (Some path) (dst, fs)
  = (inr tt, (dst', fs')) ->
  ~ reloaded name ->
  dst' !! name = restore_all ms dst !! name.
Proof.
  intros Hfile Hnd Hpa Hfalse Hrun Hname.
  refine (post_run _ _ (fun _ s => fst s !! name = restore_all ms dst !! name) _ _ _ Hrun).
  clear Hrun. unfold Persistence.from_json.
  apply post_bind, post_ret. apply post_bind, post_getattr. intros pa Hpa'.
  assert (pa = problem_assigned) as -> by congruence. rewrite Hfalse.
  apply post_bind, post_ret.
  apply post_bind. unfold json_load_file.
  apply post_bind, post_ret. cbn [snd]. rewrite Hfile. apply post_ret.
  cbn [json_loads restore_attributes].
  rewrite dict_of_pairs_NoDup.
  2:{ rewrite <- list_fmap_compose.
      apply (NoDup_fmap_2_strong (fun m : string * json => KStr (fst m))).
      - intros [k1 j1] [k2 j2] H1 H2 [= Hk]. simpl in Hk. subst k2. f_equal.
        pose proof (elem_of_list_to_map_1 (M := gmap string) ms k1 j1 Hnd H1) as E1.
        pose proof (elem_of_list_to_map_1 (M := gmap string) ms k1 j2 Hnd H2) as E2.
        congruence.
      - by apply (NoDup_fmap_1 fst). }
  apply post_bind. unfold post. rewrite restore_loop.
  apply post_bind, post_getattr. intros config_dict _.
  apply post_bind, post_getattr. intros loading _.
  apply post_bind, post_load_config. intros config fs1.
  apply post_bind, post_py_setattr.
  apply post_bind, post_hasattr. intros has_decoder.
  apply post_bind. destruct has_decoder.
  - apply post_bind, post_getattr. intros config_dict' _.
    apply post_bind, post_getattr. intros loading' _.
    apply post_bind, post_load_config. intros config' fs2.
    apply post_py_setattr. cbn [py_truthy]. apply post_ret. cbn [fst].
    rewrite !lookup_insert_ne; [done|..]; intros <-; apply Hname; [by left|by right].
  - apply post_ret. cbn [py_truthy]. apply post_ret. cbn [fst].
    rewrite lookup_insert_ne; [done|]. intros <-. apply Hname. by left.
Qed.

(** X25. Loading is not atomic either: when neither the file nor the
    object has [bert_config_dict], [from_json] raises [AttributeError]
    only after it has set every attribute of the file. *)
Theorem from_json_without_config_dict path ms dst fs problem_assigned :
  fs !! path = Some (JObj ms) ->
  NoDup ms.*1 ->
  dst !! "problem_assigned" = Some problem_assigned ->
  py_truthy problem_assigned = false ->
  "bert_config_dict" ∉ ms.*1 ->
  dst !! "bert_config_dict" = None ->
  exists dst',
    from_json load_transformer_config_dict assign_problem_args (Some path) (dst, fs)
    = (inl (AttributeError "bert_config_dict"), (dst', fs))
    /\ (forall name j, (name, j) ∈ ms -> dst' !! name = Some (json_loads j))
    /\ (forall name, name ∉ ms.*1 -> dst' !! name = dst !! name).
Proof.
  intros Hfile Hnd Hpa Hfalse Hnotin Hnone. exists (restore_all ms dst).
  split; [|split].
  - unfold Persistence.from_json.
    eapply bind_ok; [reflexivity|].
    eapply bind_ok; [unfold getattr; by rewrite Hpa|]. cbv beta. rewrite Hfalse.
    eapply bind_ok; [reflexivity|].
    eapply bind_ok.
    { unfold json_load_file. eapply bind_ok; [reflexivity|]. cbv beta. cbn [snd].
      rewrite Hfile. reflexivity. }
    cbn [json_loads restore_attributes].
    rewrite dict_of_pairs_NoDup.
    2:{ rewrite <- list_fmap_compose.
        apply (NoDup_fmap_2_strong (fun m : string * json => KStr (fst m))).
        - intros [k1 j1] [k2 j2] H1 H2 [= Hk]. simpl in Hk. subst k2. f_equal.
          pose proof (elem_of_list_to_map_1 (M := gmap string) ms k1 j1 Hnd H1) as E1.
          pose proof (elem_of_list_to_map_1 (M := gmap string) ms k1 j2 Hnd H2) as E2.
          congruence.
        - by apply (NoDup_fmap_1 fst). }
    eapply bind_ok; [apply restore_loop|].
    apply bind_err. unfold getattr. by rewrite restore_all_notin, Hnone.
  - intros name j Hin. by apply restore_all_in.
  - intros name Hname. by apply restore_all_notin.
Qed.

(** X26. A second round trip loses nothing.  Let [from_json] read a
    file whose document has distinct member names into an object that is
    not assigned, let [to_json] save the result and [from_json] read that
    into a second object that is not assigned: apart from [bert_config]
    and [bert_decoder_config], every attribute of the first file has the
    same value in both objects. *)
Theorem from_json_second_round_trip path ms dst fs problem_assigned dst1 fs1
    path1 dst2 problem_assigned2 dst2' fs2 :
  fs !! path = Some (JObj ms) ->
  NoDup ms.*1 ->
  dst !! "problem_assigned" = Some problem_assigned ->
  py_truthy problem_assigned = false ->
  from_json load_transformer_config_dict assign_problem_args (Some path) (dst, fs)
  = (inr tt, (dst1, fs1)) ->
  dst1 !! "params_path" = Some (PyStr path1) ->
  dst2 !! "problem_assigned" = Some problem_assigned2 ->
  py_truthy problem_assigned2 = false ->
  from_json load_transformer_config_dict assign_problem_args (Some path1)
    (dst2, snd (snd (to_json (dst1, fs1)))) = (inr tt, (dst2', fs2)) ->
  forall name, name ∈ ms.*1 -> ~ reloaded name -> dst2' !! name = dst1 !! name.
Proof.
  intros Hfile Hnd Hpa Hfalse Hload Hpath Hpa2 Hfalse2 Hreload name Hin Hname.
  apply list_elem_of_fmap in Hin as ([n j] & -> & Hin). cbn [fst] in *.
  assert (dst1 !! n = Some (json_loads j)) as Hfirst.
  { rewrite (from_json_restored path ms dst fs problem_assigned dst1 fs1 n) by done.
    by apply restore_all_in. }
  rewrite (to_json_run _ _ _ Hpath) in Hreload. cbn [snd] in Hreload.
  rewrite (from_json_restored path1 (encoded dst1) dst2 _ problem_assigned2 dst2' fs2 n
             (lookup_insert_eq _ _ _) (encoded_NoDup dst1) Hpa2 Hfalse2 Hreload Hname).
  rewrite restore_all_encoded, Hfirst.
  destruct (json_stable_dumps _ (json_loads_stable j)) as [j' Hj']. rewrite Hj'.
  by rewrite (json_roundtrip_stable _ _ (json_loads_stable j) Hj').
Qed.

End SecondRoundTrip.


(** The trained object, loading its own file, meets the hypotheses of
    X24: the re-assignment is called with the tuple the object held. *)
Lemma from_json_reassigns_with_old_details_witness :
  exists restored, record_assign saved_details restored = (inr tt, snd reassigned).
Proof.
  assert (reassigned = (inr tt, (fst (snd reassigned), snd (snd reassigned)))) as Hrun
    by (apply run_inr_pair; vm_compute; reflexivity).
  destruct (from_json_reassigns_with_old_details some_loader record_assign None trained
              saved_file (PyBool true) saved_details _ _ eq_refl eq_refl eq_refl eq_refl Hrun)
    as [restored Hcall].
  exists restored. rewrite Hcall. by destruct (snd reassigned).
Defined.

(** The two loads meet the hypotheses of X26. *)
Lemma from_json_second_round_trip_witness :
  fst (snd second_load) !! "assigned_details" = fst (snd first_load) !! "assigned_details".
Proof.
  assert (first_load = (inr tt, (fst (snd first_load), snd (snd first_load)))) as Hfirst
    by (apply run_inr_pair; vm_compute; reflexivity).
  assert (second_load = (inr tt, (fst (snd second_load), snd (snd second_load)))) as Hsecond
    by (apply run_inr_pair; vm_compute; reflexivity).
  assert (saved_file !! "models/cws_ckpt/params.json" = Some (JObj (encoded trained)))
    as Hfile by (unfold saved_file; rewrite (to_json_run trained ∅ _ eq_refl);
                 apply lookup_insert_eq).
  assert (fst (snd first_load) !! "params_path" = Some (PyStr "models/cws_ckpt/params.json"))
    as Hpath by (vm_compute; reflexivity).
  assert (~ reloaded "assigned_details") as Hname by (by intros [|]).
  assert ("assigned_details" ∈ (encoded trained).*1) as Hin by by_decide.
  unfold second_load in Hsecond at 1. rewrite Hfirst in Hsecond at 1. cbn [snd] in Hsecond.
  exact (from_json_second_round_trip some_loader no_assign "models/cws_ckpt/params.json"
           (encoded trained) fresh saved_file (PyBool false) _ _
           "models/cws_ckpt/params.json" fresh (PyBool false) _ _
           Hfile (encoded_NoDup trained) eq_refl eq_refl Hfirst Hpath eq_refl eq_refl Hsecond
           "assigned_details" Hin Hname).
Defined.

(** A fresh object and a file without a config meet the hypotheses of
    X25: the batch size of the file is in the object when the error is
    raised. *)
Lemma from_json_without_config_dict_witness :
  exists dst',
    Persistence.from_json some_loader no_assign (Some "params.json") (fresh, bare_file)
    = (inl (AttributeError "bert_config_dict"), (dst', bare_file))
    /\ dst' !! "batch_size" = Some (PyInt 8).
Proof.
  assert (NoDup [("batch_size", JInt 8)].*1) as Hnd by by_decide.
  assert ("bert_config_dict" ∉ [("batch_size", JInt 8)].*1) as Hnotin by by_decide.
  destruct (from_json_without_config_dict some_loader no_assign "params.json"
              [("batch_size", JInt 8)] fresh bare_file (PyBool false)
              eq_refl Hnd eq_refl eq_refl Hnotin eq_refl) as (dst' & Hrun & Hin & _).
  exists dst'. split; [exact Hrun|]. apply (Hin "batch_size" (JInt 8)). left.
Defined.

End PersistenceEdges.
